(** * Gemini Micro-Cap Trader: the portfolio ledger, the valuation history
      and the advisory gateway, embedded from [src/App.tsx], [src/types.ts]
      and the Gemini service class.

    The development follows the layout of the sources:
    - [Number]: the arithmetic of JavaScript's [number], as an interface
      with the IEEE 754 binary64 instance (what the program runs on) and
      an exact rational instance;
    - one module per interface of [types.ts];
    - [JS]: the array and string built-ins the code calls;
    - [Service]: the methods of [GeminiTraderService];
    - [App]: [executeTrade], [fetchPrediction] and the valuation
      constants of the [App] component, as transitions on the component
      state;
    - [Stated]: two statements of the specification that the code does
      not meet, and [Demo]: sample sessions;
    - [Json], [Schema] and [Runtime]: the service on the documents as
      [JSON.parse] returns them, whatever their shape, and
      [StatedGateway]: the specification's policy for them;
    - [Buttons] and [Handlers]: the exit-all button, [chatWithTrader] and
      the handlers of the feeds, the analysis, the search and the chat;
    - [Session]: the [useState] initialisers, the persistence effect,
      [handleLogin] and [handleLogout], over a model of [localStorage];
      [Tour]: more sample data.
    The facts follow: about the built-ins, about the two arithmetics,
    about the ledger, the forecast and the gateway, the claims evaluated
    on the sample sessions, and then the facts about the rest of the
    component: sessions of trades and forecasts, the ledger in binary64,
    the handlers, and what is saved across sign-in and sign-out. *)

From Stdlib Require Import ZArith QArith Floats Uint63 Ascii String Lia.
From stdpp Require Import base relations list strings gmap.

(* ===================================================================== *)
(** * JavaScript numbers *)
(* ===================================================================== *)

(** The operators the code applies to values of type [number].  The
    ledger never inspects a number otherwise, so its structural
    properties are proved once for every interpretation of the
    operators. *)
Class Number (num : Type) : Type := {
  num_lit : Z -> num;               (* integer literals: 0, 100.00 *)
  num_add : num -> num -> num;      (* a + b *)
  num_sub : num -> num -> num;      (* a - b *)
  num_mul : num -> num -> num;      (* a * b *)
  num_div : num -> num -> num;      (* a / b *)
  num_lt  : num -> num -> bool;     (* a < b *)
  num_le  : num -> num -> bool;     (* a <= b *)
  num_eq  : num -> num -> bool      (* a === b *)
}.

Declare Scope num_scope.
Delimit Scope num_scope with num.
Infix "+" := num_add : num_scope.
Infix "-" := num_sub : num_scope.
Infix "*" := num_mul : num_scope.
Infix "/" := num_div : num_scope.
Infix "<?" := num_lt : num_scope.
Infix "<=?" := num_le : num_scope.
Infix "===" := num_eq (at level 70, no associativity) : num_scope.
Notation "0" := (num_lit 0%Z) : num_scope.

(** The one arithmetic fact a claim about partial sales needs: taking
    strictly less than what is there leaves something.  Both instances
    below meet it: the rationals, and binary64 thanks to gradual
    underflow. *)
Class NumberLaws (num : Type) `{Number num} : Prop := {
  num_sub_lt_nonzero :
    forall a b : num, num_lt b a = true -> num_eq (num_sub a b) (num_lit 0) = false
}.

(** IEEE 754 binary64, the [number] of the JavaScript engine. *)
Definition float_of_Z (z : Z) : float :=
  match z with
  | Z0 => PrimFloat.zero
  | Zpos _ => PrimFloat.of_uint63 (Uint63.of_Z z)
  | Zneg p => PrimFloat.opp (PrimFloat.of_uint63 (Uint63.of_Z (Zpos p)))
  end.

#[export] Instance float_Number : Number float := {|
  num_lit := float_of_Z;
  num_add := PrimFloat.add;
  num_sub := PrimFloat.sub;
  num_mul := PrimFloat.mul;
  num_div := PrimFloat.div;
  num_lt := PrimFloat.ltb;
  num_le := PrimFloat.leb;
  num_eq := PrimFloat.eqb
|}.

(** A binary64 value, in the Standard Library's specification of the
    format, that is neither [+0] nor [-0]. *)
Definition SF_nonzero (x : SpecFloat.spec_float) : Prop :=
  match x with
  | SpecFloat.S754_zero _ => False
  | _ => True
  end.

(** Exact rationals: the arithmetic the specification reasons in. *)
Definition Qlt_bool (a b : Q) : bool := negb (Qle_bool b a).

#[export] Instance Q_Number : Number Q := {|
  num_lit := inject_Z;
  num_add := Qplus;
  num_sub := Qminus;
  num_mul := Qmult;
  num_div := Qdiv;
  num_lt := Qlt_bool;
  num_le := Qle_bool;
  num_eq := Qeq_bool
|}.

(* ===================================================================== *)
(** * [types.ts] *)
(* ===================================================================== *)

Module Source.
(** [{ title: string; uri: string }]; [uri] is copied from the grounding
    metadata without a default, so it may be [undefined] at run time. *)
Record t : Type := mk { title : string; uri : option string }.
End Source.

Inductive Sentiment : Type := Bullish | Bearish | Neutral.

Module Stock.
Record t (num : Type) : Type := mk {
  ticker : string;
  name : string;
  price : num;
  changePercent : num;
  marketCap : string;
  reasoning : string;
  sentiment : Sentiment;
  lastUpdated : string
}.
Arguments mk {num}.
Arguments ticker {num}.
Arguments name {num}.
Arguments price {num}.
Arguments changePercent {num}.
Arguments marketCap {num}.
Arguments reasoning {num}.
Arguments sentiment {num}.
Arguments lastUpdated {num}.
End Stock.

Module MarketIndex.
Record t : Type := mk {
  name : string;
  value : string;
  change : string;
  changePercent : string;
  isPositive : bool
}.
End MarketIndex.

Module Holding.
Record t (num : Type) : Type := mk {
  ticker : string;
  shares : num;
  avgCost : num;
  currentPrice : num
}.
Arguments mk {num}.
Arguments ticker {num}.
Arguments shares {num}.
Arguments avgCost {num}.
Arguments currentPrice {num}.
End Holding.

Module Snapshot.
(** The element type of [Portfolio.history]:
    [{ timestamp: string; totalValue: number; isPrediction?: boolean }]. *)
Record t (num : Type) : Type := mk {
  timestamp : string;
  totalValue : num;
  isPrediction : option bool
}.
Arguments mk {num}.
Arguments timestamp {num}.
Arguments totalValue {num}.
Arguments isPrediction {num}.
End Snapshot.

Module Portfolio.
Record t (num : Type) : Type := mk {
  cash : num;
  holdings : list (Holding.t num);
  history : list (Snapshot.t num)
}.
Arguments mk {num}.
Arguments cash {num}.
Arguments holdings {num}.
Arguments history {num}.
End Portfolio.

Inductive TradeType : Type := BUY | SELL.

Module Transaction.
Record t (num : Type) : Type := mk {
  id : string;
  type : TradeType;
  ticker : string;
  shares : num;
  price : num;
  timestamp : string
}.
Arguments mk {num}.
Arguments id {num}.
Arguments type {num}.
Arguments ticker {num}.
Arguments shares {num}.
Arguments price {num}.
Arguments timestamp {num}.
End Transaction.

Inductive Recommendation : Type := RecBUY | RecSELL | RecHOLD.

Module AnalysisResponse.
Record t (num : Type) : Type := mk {
  recommendation : Recommendation;
  ticker : string;
  currentPrice : num;
  confidence : num;
  analysis : string;
  sources : list Source.t
}.
Arguments mk {num}.
Arguments recommendation {num}.
Arguments ticker {num}.
Arguments currentPrice {num}.
Arguments confidence {num}.
Arguments analysis {num}.
Arguments sources {num}.
End AnalysisResponse.

Module DiscoveryResponse.
Record t (num : Type) : Type := mk {
  stocks : list (Stock.t num);
  sources : list Source.t
}.
Arguments mk {num}.
Arguments stocks {num}.
Arguments sources {num}.
End DiscoveryResponse.

Module MarketOverviewResponse.
Record t : Type := mk {
  indices : list MarketIndex.t;
  sources : list Source.t
}.
End MarketOverviewResponse.

Module Prediction.
(** The element type of [PredictionResponse.predictions]. *)
Record t (num : Type) : Type := mk { timestamp : string; totalValue : num }.
Arguments mk {num}.
Arguments timestamp {num}.
Arguments totalValue {num}.
End Prediction.

Module PredictionResponse.
Record t (num : Type) : Type := mk {
  predictions : list (Prediction.t num);
  rationale : string;
  sources : list Source.t
}.
Arguments mk {num}.
Arguments predictions {num}.
Arguments rationale {num}.
Arguments sources {num}.
End PredictionResponse.

Module SearchResult.
(** The return type of [searchStock]: [{ stock: Stock; sources }]. *)
Record t (num : Type) : Type := mk {
  stock : Stock.t num;
  sources : list Source.t
}.
Arguments mk {num}.
Arguments stock {num}.
Arguments sources {num}.
End SearchResult.

(* ===================================================================== *)
(** * The JavaScript built-ins the code calls *)
(* ===================================================================== *)

Module JS.

(** [Array.prototype.findIndex]: the index of the first element that
    satisfies [p], or [-1]. *)
Fixpoint findIndex_from {A : Type} (p : A -> bool) (l : list A) (i : Z) : Z :=
  match l with
  | [] => (-1)%Z
  | x :: rest => if p x then i else findIndex_from p rest (i + 1)%Z
  end.

Definition findIndex {A : Type} (p : A -> bool) (l : list A) : Z :=
  findIndex_from p l 0%Z.

(** [Array.prototype.find]: the first element that satisfies [p], or
    [undefined]. *)
Fixpoint find {A : Type} (p : A -> bool) (l : list A) : option A :=
  match l with
  | [] => None
  | x :: rest => if p x then Some x else find p rest
  end.

(** [Array.prototype.reduce] with an initial value. *)
Definition reduce {A B : Type} (f : B -> A -> B) (init : B) (l : list A) : B :=
  fold_left f l init.

(** [Array.prototype.splice(index, 1)]. *)
Definition splice1 {A : Type} (index : nat) (l : list A) : list A :=
  delete index l.

(** A string is held as the bytes of its UTF-8 encoding (an unpaired
    surrogate as the three bytes of its code unit). *)

(** The code points [String.prototype.trim] strips: WhiteSpace (TAB, VT,
    FF, ZWNBSP and the space separators of Unicode) and LineTerminator
    (LF, CR, LS, PS) of ECMAScript. *)
Definition isWhiteSpace (codePoint : N) : bool :=
  bool_decide (codePoint ∈
    [ 0x09; 0x0A; 0x0B; 0x0C; 0x0D; 0x20; 0xA0; 0x1680; 0x2028; 0x2029;
      0x202F; 0x205F; 0x3000; 0xFEFF ]%N)
  || ((0x2000 <=? codePoint) && (codePoint <=? 0x200A))%N.

(** The UTF-8 encoding of a code point. *)
Definition utf8 (codePoint : N) : string :=
  let byte (n : N) := ascii_of_N n in
  let tail (n : N) := byte (0x80 + n mod 64)%N in
  if (codePoint <? 0x80)%N then
    String (byte codePoint) ""
  else if (codePoint <? 0x800)%N then
    String (byte (0xC0 + codePoint / 64)%N) (String (tail codePoint) "")
  else if (codePoint <? 0x10000)%N then
    String (byte (0xE0 + codePoint / 4096)%N)
      (String (tail (codePoint / 64)%N) (String (tail codePoint) ""))
  else
    String (byte (0xF0 + codePoint / 262144)%N)
      (String (tail (codePoint / 4096)%N)
         (String (tail (codePoint / 64)%N) (String (tail codePoint) ""))).

(** [String.fromCodePoint(...codePoints)] *)
Definition fromCodePoints (codePoints : list N) : string :=
  foldr (fun codePoint rest => utf8 codePoint +:+ rest) "" codePoints.

Definition continuation (byte : N) : bool := ((0x80 <=? byte) && (byte <=? 0xBF))%N.

(** The code point that two or three bytes encode, if they are the
    encoding of one. *)
Definition codePoint2 (a b : N) : option N :=
  if ((0xC2 <=? a) && (a <=? 0xDF))%N && continuation b
  then Some ((a - 0xC0) * 64 + (b - 0x80))%N
  else None.

Definition codePoint3 (a b c : N) : option N :=
  let codePoint := ((a - 0xE0) * 4096 + (b - 0x80) * 64 + (c - 0x80))%N in
  if ((0xE0 <=? a) && (a <=? 0xEF))%N && continuation b && continuation c
     && (0x800 <=? codePoint)%N
  then Some codePoint
  else None.

(** A string without the white space character it starts with, if it
    starts with one.  White space takes one, two or three bytes. *)
Definition stripWhiteSpace (s : string) : option string :=
  match s with
  | String a rest1 =>
      let a := N_of_ascii a in
      if (a <? 0x80)%N then
        if isWhiteSpace a then Some rest1 else None
      else
        match rest1 with
        | String b rest2 =>
            let b := N_of_ascii b in
            match codePoint2 a b with
            | Some codePoint => if isWhiteSpace codePoint then Some rest2 else None
            | None =>
                match rest2 with
                | String c rest3 =>
                    match codePoint3 a b (N_of_ascii c) with
                    | Some codePoint => if isWhiteSpace codePoint then Some rest3 else None
                    | None => None
                    end
                | EmptyString => None
                end
            end
        | EmptyString => None
        end
  | EmptyString => None
  end.

(** [String.prototype.trimStart]: the recursion strips one character at a
    time, so the length of the string is fuel enough. *)
Fixpoint trimStart_from (fuel : nat) (s : string) : string :=
  match fuel with
  | O => s
  | S fuel =>
      match stripWhiteSpace s with
      | Some rest => trimStart_from fuel rest
      | None => s
      end
  end.

Definition trimStart (s : string) : string := trimStart_from (String.length s) s.

(** [String.prototype.trimEnd]: what is left of a position is kept when
    something other than white space follows. *)
Fixpoint trimEnd (s : string) : string :=
  match s with
  | EmptyString => EmptyString
  | String c rest =>
      match trimStart s with
      | EmptyString => EmptyString
      | _ => String c (trimEnd rest)
      end
  end.

Definition trim (s : string) : string := trimEnd (trimStart s).

(** A settled promise, as an [await] sees it. *)
Inductive Promise (T : Type) : Type :=
| Resolved (value : T)
| Rejected (reason : string).
Arguments Resolved {T}.
Arguments Rejected {T}.

(** [JSON.parse(text)], read at the type [T] of the response schema.
    [None] stands for the exception [JSON.parse] throws.  The program
    hands the schema to the provider and reads the parsed document at the
    declared type without checking it; the model follows the types, so a
    document that parses is a document of type [T] ([Runtime] reads the
    documents as they are, at the type of all JSON values).  The parser is the
    engine's, so it is a parameter of the model. *)
Class JSON (T : Type) : Type := parse : string -> option T.

End JS.

(* ===================================================================== *)
(** * [GeminiTraderService] *)
(* ===================================================================== *)

Module Web.
(** [chunk.web] of a grounding chunk. *)
Record t : Type := mk { title : option string; uri : option string }.
End Web.

Module GroundingChunk.
Record t : Type := mk { web : option Web.t }.
End GroundingChunk.

Module GenerateContentResponse.
(** What the service reads of a response of [generateContent]: its
    [text], and [candidates?.[0]?.groundingMetadata?.groundingChunks],
    which is [undefined] as soon as one link of the chain is. *)
Record t : Type := mk {
  text : option string;
  groundingChunks : option (list GroundingChunk.t)
}.
End GenerateContentResponse.

(** The documents the five response schemas declare, before [sources] is
    added to them. *)
Module SearchData.
Record t (num : Type) : Type := mk { stock : Stock.t num }.
Arguments mk {num}.
Arguments stock {num}.
End SearchData.

Module PredictionData.
Record t (num : Type) : Type := mk {
  predictions : list (Prediction.t num);
  rationale : string
}.
Arguments mk {num}.
Arguments predictions {num}.
Arguments rationale {num}.
End PredictionData.

Module OverviewData.
Record t : Type := mk { indices : list MarketIndex.t }.
End OverviewData.

Module DiscoveryData.
Record t (num : Type) : Type := mk { stocks : list (Stock.t num) }.
Arguments mk {num}.
Arguments stocks {num}.
End DiscoveryData.

Module AnalysisData.
Record t (num : Type) : Type := mk {
  recommendation : Recommendation;
  ticker : string;
  currentPrice : num;
  confidence : num;
  analysis : string
}.
Arguments mk {num}.
Arguments recommendation {num}.
Arguments ticker {num}.
Arguments currentPrice {num}.
Arguments confidence {num}.
Arguments analysis {num}.
End AnalysisData.

Module Service.
Section WithNumber.
Context {num : Type}.
Context `{JS.JSON (SearchData.t num)} `{JS.JSON (PredictionData.t num)}
        `{JS.JSON OverviewData.t} `{JS.JSON (DiscoveryData.t num)}
        `{JS.JSON (AnalysisData.t num)}.

(** [extractSources] *)
Definition extractSources (response : GenerateContentResponse.t) : list Source.t :=
  let groundingChunks :=
    match GenerateContentResponse.groundingChunks response with
    | Some chunks => chunks
    | None => []
    end in
  omap
    (fun chunk =>
       match GroundingChunk.web chunk with
       | Some web =>
           Some {| Source.title :=
                     match Web.title web with
                     | Some EmptyString | None => "Source"
                     | Some title => title
                     end;
                   Source.uri := Web.uri web |}
       | None => None
       end)
    groundingChunks.

(** The body of each [try] block starts with
    [JSON.parse(response.text.trim())]; it throws when [text] is
    [undefined] or is not a JSON document. *)
Definition parseText {T : Type} `{JS.JSON T}
    (response : GenerateContentResponse.t) : option T :=
  match GenerateContentResponse.text response with
  | Some text => JS.parse (JS.trim text)
  | None => None
  end.

(** In each method [api] is the settled promise of
    [this.ai.models.generateContent(...)].  The [await] is outside the
    [try], so a rejection leaves the method as it came.  The prompt is
    text for the provider and has no part in what the method does with
    the answer. *)

Definition searchStock (ticker : string)
    (api : JS.Promise GenerateContentResponse.t)
    : JS.Promise (SearchResult.t num) :=
  match api with
  | JS.Rejected reason => JS.Rejected reason
  | JS.Resolved response =>
      let sources := extractSources response in
      match parseText response with
      | Some data =>
          JS.Resolved {| SearchResult.stock := SearchData.stock data;
                         SearchResult.sources := sources |}
      | None => JS.Rejected ("Failed to find data for ticker: " ++ ticker)
      end
  end.

Definition predictPortfolioValue (holdings : list (Holding.t num)) (cash : num)
    (api : JS.Promise GenerateContentResponse.t)
    : JS.Promise (PredictionResponse.t num) :=
  match api with
  | JS.Rejected reason => JS.Rejected reason
  | JS.Resolved response =>
      let sources := extractSources response in
      match parseText response with
      | Some data =>
          JS.Resolved {| PredictionResponse.predictions := PredictionData.predictions data;
                         PredictionResponse.rationale := PredictionData.rationale data;
                         PredictionResponse.sources := sources |}
      | None =>
          JS.Resolved {| PredictionResponse.predictions := [];
                         PredictionResponse.rationale :=
                           "Unable to generate forecast at this time.";
                         PredictionResponse.sources := sources |}
      end
  end.

Definition getMarketOverview (api : JS.Promise GenerateContentResponse.t)
    : JS.Promise MarketOverviewResponse.t :=
  match api with
  | JS.Rejected reason => JS.Rejected reason
  | JS.Resolved response =>
      let sources := extractSources response in
      match parseText response with
      | Some data =>
          JS.Resolved {| MarketOverviewResponse.indices := OverviewData.indices data;
                         MarketOverviewResponse.sources := sources |}
      | None =>
          JS.Resolved {| MarketOverviewResponse.indices := [];
                         MarketOverviewResponse.sources := sources |}
      end
  end.

Definition discoverMicroCaps (api : JS.Promise GenerateContentResponse.t)
    : JS.Promise (DiscoveryResponse.t num) :=
  match api with
  | JS.Rejected reason => JS.Rejected reason
  | JS.Resolved response =>
      let sources := extractSources response in
      match parseText response with
      | Some data =>
          JS.Resolved {| DiscoveryResponse.stocks := DiscoveryData.stocks data;
                         DiscoveryResponse.sources := sources |}
      | None =>
          JS.Resolved {| DiscoveryResponse.stocks := [];
                         DiscoveryResponse.sources := sources |}
      end
  end.

Definition analyzeStock (ticker : string)
    (api : JS.Promise GenerateContentResponse.t)
    : JS.Promise (AnalysisResponse.t num) :=
  match api with
  | JS.Rejected reason => JS.Rejected reason
  | JS.Resolved response =>
      let sources := extractSources response in
      match parseText response with
      | Some data =>
          JS.Resolved {| AnalysisResponse.recommendation := AnalysisData.recommendation data;
                         AnalysisResponse.ticker := AnalysisData.ticker data;
                         AnalysisResponse.currentPrice := AnalysisData.currentPrice data;
                         AnalysisResponse.confidence := AnalysisData.confidence data;
                         AnalysisResponse.analysis := AnalysisData.analysis data;
                         AnalysisResponse.sources := sources |}
      | None => JS.Rejected "Failed to analyze stock data"
      end
  end.

End WithNumber.
End Service.

(* ===================================================================== *)
(** * The state of the [App] component *)
(* ===================================================================== *)

Module AppState.
(** The [useState] cells that [executeTrade] and [fetchPrediction] read
    or set.  The other cells of the component (user, market data,
    search, chat) are not touched by either. *)
Record t (num : Type) : Type := mk {
  portfolio : Portfolio.t num;
  transactions : list (Transaction.t num);
  activeAnalysis : option (AnalysisResponse.t num);
  predictionRationale : string;
  predictionSources : list Source.t;
  predicting : bool
}.
Arguments mk {num}.
Arguments portfolio {num}.
Arguments transactions {num}.
Arguments activeAnalysis {num}.
Arguments predictionRationale {num}.
Arguments predictionSources {num}.
Arguments predicting {num}.
End AppState.

Module Env.
(** What one call of [executeTrade] reads from the outside world. *)
Record t : Type := mk {
  localeTime : string;   (* new Date().toLocaleTimeString() *)
  isoTime : string;      (* new Date().toISOString() *)
  randomId : string      (* Math.random().toString(36).substr(2, 9) *)
}.
End Env.

(** How a call of [executeTrade] ends. *)
Inductive Completion (num : Type) : Type :=
| Returned                        (* [return;] before anything was set *)
| Alerted (message : string)      (* [return alert(message)] before anything was set *)
| TypeError                       (* a property of [undefined] was read *)
| Committed (next : AppState.t num).
Arguments Returned {num}.
Arguments Alerted {num}.
Arguments TypeError {num}.
Arguments Committed {num}.

Module App.
Section WithNumber.
Context {num : Type} `{Number num}.
Local Open Scope num_scope.

Definition INITIAL_BALANCE : num := num_lit 100.

(** A truthiness test of an optional boolean field, as in
    [!h.isPrediction]. *)
Definition truthy (flag : option bool) : bool :=
  match flag with
  | Some true => true
  | Some false | None => false
  end.

(** [prev.history.filter(h => !h.isPrediction)] *)
Definition actuals (history : list (Snapshot.t num)) : list (Snapshot.t num) :=
  List.filter (fun h => negb (truthy (Snapshot.isPrediction h))) history.

(** The portfolio a fresh session starts from (the [useState]
    initialiser and [handleLogin]). *)
Definition initialPortfolio (localeTime : string) : Portfolio.t num :=
  {| Portfolio.cash := INITIAL_BALANCE;
     Portfolio.holdings := [];
     Portfolio.history :=
       [ {| Snapshot.timestamp := localeTime;
            Snapshot.totalValue := INITIAL_BALANCE;
            Snapshot.isPrediction := None |} ] |}.

(** [const totalValue = portfolio.cash + portfolio.holdings.reduce(...)] *)
Definition totalValue (portfolio : Portfolio.t num) : num :=
  Portfolio.cash portfolio
  + JS.reduce (fun sum h => sum + (Holding.shares h * Holding.currentPrice h)) 0
      (Portfolio.holdings portfolio).

(** [const pnl = totalValue - INITIAL_BALANCE] *)
Definition pnl (portfolio : Portfolio.t num) : num :=
  totalValue portfolio - INITIAL_BALANCE.

(** [h => h.ticker === ticker], the test of [findIndex] in
    [executeTrade] and of [find] in the exit-all button. *)
Definition hasTicker (ticker : string) (h : Holding.t num) : bool :=
  String.eqb (Holding.ticker h) ticker.

(** [portfolio.holdings.find(h => h.ticker === ticker)]: the position
    held in [ticker], if any. *)
Definition position (portfolio : Portfolio.t num) (ticker : string)
    : option (Holding.t num) :=
  JS.find (hasTicker ticker) (Portfolio.holdings portfolio).

(** [executeTrade].  The handler runs against the state of the render it
    was created in; [setPortfolio]'s updater receives that same state as
    [prev], since user actions are handled one at a time.  In a SELL,
    [newHoldings[index].shares -= shares] writes to the holding object
    that the array of the previous state still refers to; that array is
    replaced by [newHoldings] in the same call and is not read again, so
    the write is modelled on the new array alone. *)
Definition executeTrade (env : Env.t) (st : AppState.t num)
    (type : TradeType) (ticker : string) (price shares : num) : Completion num :=
  let portfolio := AppState.portfolio st in
  let transactions := AppState.transactions st in
  let prev := portfolio in
  if shares <=? 0 then Returned else
  let cost := price * shares in
  let newHoldings := Portfolio.holdings portfolio in
  let index := JS.findIndex (hasTicker ticker) newHoldings in
  let tx :=
    {| Transaction.id := Env.randomId env;
       Transaction.type := type;
       Transaction.ticker := ticker;
       Transaction.shares := shares;
       Transaction.price := price;
       Transaction.timestamp := Env.isoTime env |} in
  let commit (portfolio' : Portfolio.t num) : Completion num :=
    Committed
      {| AppState.portfolio := portfolio';
         AppState.transactions := tx :: transactions;
         AppState.activeAnalysis := None;
         AppState.predictionRationale := AppState.predictionRationale st;
         AppState.predictionSources := AppState.predictionSources st;
         AppState.predicting := AppState.predicting st |} in
  match type with
  | BUY =>
      if Portfolio.cash portfolio <? cost then Alerted "Insufficient cash!" else
      let bought : option (list (Holding.t num)) :=
        if (0 <=? index)%Z then
          match newHoldings !! Z.to_nat index with
          | Some h =>
              let totalShares := Holding.shares h + shares in
              let totalCost := (Holding.shares h * Holding.avgCost h) + (shares * price) in
              Some (<[ Z.to_nat index :=
                       {| Holding.ticker := Holding.ticker h;
                          Holding.shares := totalShares;
                          Holding.avgCost := totalCost / totalShares;
                          Holding.currentPrice := price |} ]> newHoldings)
          | None => None
          end
        else
          Some (newHoldings ++
                [ {| Holding.ticker := ticker;
                     Holding.shares := shares;
                     Holding.avgCost := price;
                     Holding.currentPrice := price |} ])
      in
      match bought with
      | None => TypeError
      | Some newHoldings =>
          commit
            {| Portfolio.cash := Portfolio.cash prev - cost;
               Portfolio.holdings := newHoldings;
               Portfolio.history :=
                 actuals (Portfolio.history prev) ++
                 [ {| Snapshot.timestamp := Env.localeTime env;
                      Snapshot.totalValue :=
                        (Portfolio.cash prev - cost)
                        + JS.reduce
                            (fun sum h => sum + (Holding.shares h * Holding.currentPrice h))
                            0 newHoldings;
                      Snapshot.isPrediction := None |} ] |}
      end
  | SELL =>
      if (index <? 0)%Z then Alerted "Not enough shares!" else
      match newHoldings !! Z.to_nat index with
      | None => TypeError
      | Some h =>
          if Holding.shares h <? shares then Alerted "Not enough shares!" else
          let h' :=
            {| Holding.ticker := Holding.ticker h;
               Holding.shares := Holding.shares h - shares;
               Holding.avgCost := Holding.avgCost h;
               Holding.currentPrice := Holding.currentPrice h |} in
          let newHoldings := <[ Z.to_nat index := h' ]> newHoldings in
          let newHoldings :=
            if Holding.shares h' === 0
            then JS.splice1 (Z.to_nat index) newHoldings
            else newHoldings in
          commit
            {| Portfolio.cash := Portfolio.cash prev + cost;
               Portfolio.holdings := newHoldings;
               Portfolio.history :=
                 actuals (Portfolio.history prev) ++
                 [ {| Snapshot.timestamp := Env.localeTime env;
                      Snapshot.totalValue :=
                        (Portfolio.cash prev + cost)
                        + JS.reduce
                            (fun sum h => sum + (Holding.shares h * Holding.currentPrice h))
                            0 newHoldings;
                      Snapshot.isPrediction := None |} ] |}
      end
  end.

(** The component state once the call has ended. *)
Definition stateAfter (st : AppState.t num) (c : Completion num) : AppState.t num :=
  match c with
  | Committed next => next
  | Returned | Alerted _ | TypeError => st
  end.

(** [fetchPrediction], in its two halves.  Up to the [await]:
    [setPredicting(true)]. *)
Definition fetchPrediction_begin (st : AppState.t num) : AppState.t num :=
  {| AppState.portfolio := AppState.portfolio st;
     AppState.transactions := AppState.transactions st;
     AppState.activeAnalysis := AppState.activeAnalysis st;
     AppState.predictionRationale := AppState.predictionRationale st;
     AppState.predictionSources := AppState.predictionSources st;
     AppState.predicting := true |}.

(** [result.predictions.map(p => ({ ...p, isPrediction: true }))] *)
Definition tagPredictions (predictions : list (Prediction.t num))
    : list (Snapshot.t num) :=
  map (fun p => {| Snapshot.timestamp := Prediction.timestamp p;
                   Snapshot.totalValue := Prediction.totalValue p;
                   Snapshot.isPrediction := Some true |})
      predictions.

(** From the [await] on: [result] is the settled promise of
    [predictPortfolioValue] and [st] the state of the component when it
    settles, the [prev] of the updater.  A rejection goes to the [catch],
    which only logs; [finally] runs either way. *)
Definition fetchPrediction_settle (result : JS.Promise (PredictionResponse.t num))
    (st : AppState.t num) : AppState.t num :=
  match result with
  | JS.Resolved result =>
      let predictions := tagPredictions (PredictionResponse.predictions result) in
      let prev := AppState.portfolio st in
      {| AppState.portfolio :=
           {| Portfolio.cash := Portfolio.cash prev;
              Portfolio.holdings := Portfolio.holdings prev;
              Portfolio.history := actuals (Portfolio.history prev) ++ predictions |};
         AppState.transactions := AppState.transactions st;
         AppState.activeAnalysis := AppState.activeAnalysis st;
         AppState.predictionRationale := PredictionResponse.rationale result;
         AppState.predictionSources := PredictionResponse.sources result;
         AppState.predicting := false |}
  | JS.Rejected _ =>
      {| AppState.portfolio := AppState.portfolio st;
         AppState.transactions := AppState.transactions st;
         AppState.activeAnalysis := AppState.activeAnalysis st;
         AppState.predictionRationale := AppState.predictionRationale st;
         AppState.predictionSources := AppState.predictionSources st;
         AppState.predicting := false |}
  end.

(** One whole call, with nothing else happening while the request is in
    flight. *)
Definition fetchPrediction `{JS.JSON (PredictionData.t num)}
    (api : JS.Promise GenerateContentResponse.t) (st : AppState.t num)
    : AppState.t num :=
  let portfolio := AppState.portfolio st in
  fetchPrediction_settle
    (Service.predictPortfolioValue
       (Portfolio.holdings portfolio) (Portfolio.cash portfolio) api)
    (fetchPrediction_begin st).

(** The state of a session that starts without saved data: the
    [useState] initialisers. *)
Definition initialState (localeTime : string) : AppState.t num :=
  {| AppState.portfolio := initialPortfolio localeTime;
     AppState.transactions := [];
     AppState.activeAnalysis := None;
     AppState.predictionRationale := "";
     AppState.predictionSources := [];
     AppState.predicting := false |}.

(** What can happen to the ledger in a session: the user trades, asks for
    a forecast, or a forecast request settles. *)
Inductive step : AppState.t num -> AppState.t num -> Prop :=
| step_trade env st type ticker price shares :
    step st (stateAfter st (executeTrade env st type ticker price shares))
| step_forecast_begin st :
    step st (fetchPrediction_begin st)
| step_forecast_settle result st :
    step st (fetchPrediction_settle result st).

End WithNumber.
End App.

(* ===================================================================== *)
(** * Two statements the code is measured against *)
(* ===================================================================== *)

Module Stated.
Section WithNumber.
Context {num : Type} `{Number num}.
Local Open Scope num_scope.

(** The specification's error taxonomy for SELL: one error, [NoPosition],
    for a ticker that is not held, and a different one,
    [InsufficientShares], for a ticker that is held in a smaller amount.
    An error reaches the user as the text of the [alert]. *)
Definition sell_errors_distinct : Prop :=
  exists NoPosition InsufficientShares : string,
    NoPosition <> InsufficientShares /\
    (forall env (st : AppState.t num) ticker price shares,
        (shares <=? 0) = false ->
        App.position (AppState.portfolio st) ticker = None ->
        App.executeTrade env st SELL ticker price shares = Alerted NoPosition) /\
    (forall env (st : AppState.t num) ticker price shares h,
        (shares <=? 0) = false ->
        App.position (AppState.portfolio st) ticker = Some h ->
        (Holding.shares h <? shares) = true ->
        App.executeTrade env st SELL ticker price shares = Alerted InsufficientShares).

(** A prediction request fails when the call of the provider is rejected,
    or when its answer has no text that parses. *)
Definition predictionFails `{JS.JSON (PredictionData.t num)}
    (api : JS.Promise GenerateContentResponse.t) : Prop :=
  match api with
  | JS.Rejected _ => True
  | JS.Resolved response =>
      Service.parseText (T := PredictionData.t num) response = None
  end.

(** The specification's policy for a failed prediction request: the
    prediction suffix is cleared, nothing but the actual snapshots is
    left. *)
Definition failed_prediction_clears `{JS.JSON (PredictionData.t num)} : Prop :=
  forall (api : JS.Promise GenerateContentResponse.t) (st : AppState.t num),
    predictionFails api ->
    Portfolio.history (AppState.portfolio (App.fetchPrediction api st)) =
    App.actuals (Portfolio.history (AppState.portfolio st)).

End WithNumber.
End Stated.

(* ===================================================================== *)
(** * Sample sessions *)
(* ===================================================================== *)

Module Demo.

Definition env : Env.t :=
  {| Env.localeTime := "9:31:07 AM";
     Env.isoTime := "2025-01-06T14:31:07.120Z";
     Env.randomId := "k3x9q0zt1" |}.

Definition session {num : Type} (portfolio : Portfolio.t num) : AppState.t num :=
  {| AppState.portfolio := portfolio;
     AppState.transactions := [];
     AppState.activeAnalysis := None;
     AppState.predictionRationale := "";
     AppState.predictionSources := [];
     AppState.predicting := false |}.

(** A fresh session, in binary64. *)
Definition fresh : AppState.t float := App.initialState "9:30:00 AM".

(** Five shares of ABC bought at 10 out of the starting 100. *)
Definition holdingABC : AppState.t float :=
  session
    {| Portfolio.cash := 50%float;
       Portfolio.holdings :=
         [ {| Holding.ticker := "ABC"; Holding.shares := 5%float;
              Holding.avgCost := 10%float; Holding.currentPrice := 10%float |} ];
       Portfolio.history :=
         [ {| Snapshot.timestamp := "9:30:00 AM"; Snapshot.totalValue := 100%float;
              Snapshot.isPrediction := None |};
           {| Snapshot.timestamp := "9:31:07 AM"; Snapshot.totalValue := 100%float;
              Snapshot.isPrediction := None |} ] |}.

(** The same with a forecast of two points on the chart. *)
Definition withForecast : AppState.t float :=
  session
    {| Portfolio.cash := 50%float;
       Portfolio.holdings := Portfolio.holdings (AppState.portfolio holdingABC);
       Portfolio.history :=
         Portfolio.history (AppState.portfolio holdingABC) ++
         [ {| Snapshot.timestamp := "Day 1"; Snapshot.totalValue := 101%float;
              Snapshot.isPrediction := Some true |};
           {| Snapshot.timestamp := "Day 2"; Snapshot.totalValue := 103%float;
              Snapshot.isPrediction := Some true |} ] |}.

(** Ten shares of ABC at an average cost of 5, and cash for ten more at 7. *)
Definition tenAtFive : AppState.t float :=
  session
    {| Portfolio.cash := 70%float;
       Portfolio.holdings :=
         [ {| Holding.ticker := "ABC"; Holding.shares := 10%float;
              Holding.avgCost := 5%float; Holding.currentPrice := 5%float |} ];
       Portfolio.history := [] |}.

(** Seven daily points, as the prompt of [predictPortfolioValue] asks
    for. *)
Definition week (base : float) : list (Prediction.t float) :=
  [ {| Prediction.timestamp := "Day 1"; Prediction.totalValue := (base + 1)%float |};
    {| Prediction.timestamp := "Day 2"; Prediction.totalValue := (base + 2)%float |};
    {| Prediction.timestamp := "Day 3"; Prediction.totalValue := (base + 3)%float |};
    {| Prediction.timestamp := "Day 4"; Prediction.totalValue := (base + 4)%float |};
    {| Prediction.timestamp := "Day 5"; Prediction.totalValue := (base + 5)%float |};
    {| Prediction.timestamp := "Day 6"; Prediction.totalValue := (base + 6)%float |};
    {| Prediction.timestamp := "Day 7"; Prediction.totalValue := (base + 7)%float |} ].

Definition forecast (base : float) : PredictionResponse.t float :=
  {| PredictionResponse.predictions := week base;
     PredictionResponse.rationale := "Momentum in micro caps";
     PredictionResponse.sources := [] |}.

(** An answer of the provider that is no JSON document, with one grounding
    chunk. *)
Definition outage : GenerateContentResponse.t :=
  {| GenerateContentResponse.text := Some "Service temporarily unavailable";
     GenerateContentResponse.groundingChunks :=
       Some [ {| GroundingChunk.web :=
                   Some {| Web.title := None; Web.uri := Some "https://example.com/status" |} |} ] |}.

(** A parser for the sample answers: none of them is a JSON document. *)
Definition rejecting (T : Type) : JS.JSON T := fun _ => None.

(** The state a trade leaves, at the sample clock. *)
Definition after {num : Type} `{Number num} (st : AppState.t num)
    (type : TradeType) (ticker : string) (price shares : num) : AppState.t num :=
  App.stateAfter st (App.executeTrade env st type ticker price shares).

End Demo.

(* ===================================================================== *)
(** * The gateway on the documents as [JSON.parse] returns them *)
(* ===================================================================== *)

(** [Service] reads a parsed document at the type its method declares.
    At run time nothing checks a document against that type: [JSON.parse]
    returns whatever the text denotes.  [Runtime] is the service on such
    documents; it calls the same [Service.extractSources] and the same
    [Service.parseText], with the parser read at the type of all JSON
    values. *)

Module Json.

(** A value as [JSON.parse] returns it, and [undefined], which the read
    of a missing property gives.  The properties of an object are listed
    in the object's own order, each key once. *)
#[local] Unset Elimination Schemes.
Inductive t (num : Type) : Type :=
| Undefined
| Null
| Bool (value : bool)
| Number (value : num)
| Text (value : string)
| Array (elements : list (t num))
| Object (properties : list (string * t num)).
#[local] Set Elimination Schemes.
Arguments Undefined {num}.
Arguments Null {num}.
Arguments Bool {num}.
Arguments Number {num}.
Arguments Text {num}.
Arguments Array {num}.
Arguments Object {num}.

Section WithNumber.
Context {num : Type}.

(** The own property [key] among the properties of an object. *)
Fixpoint property (key : string) (properties : list (string * t num)) : option (t num) :=
  match properties with
  | [] => None
  | (name, value) :: rest => if String.eqb name key then Some value else property key rest
  end.

(** [value.key], for a key that is no index and that no built-in
    prototype defines (the service reads [stock]).  [None] stands for the
    [TypeError] of reading a property of [null] or [undefined]. *)
Definition get (key : string) (value : t num) : option (t num) :=
  match value with
  | Undefined | Null => None
  | Object properties => Some (default Undefined (property key properties))
  | Bool _ | Number _ | Text _ | Array _ => Some Undefined
  end.

End WithNumber.
End Json.

Module Schema.

(** A [responseSchema] as the service writes it: [Type.STRING] with its
    [enum] if it has one, [Type.NUMBER], [Type.BOOLEAN], [Type.ARRAY]
    with its [items], [Type.OBJECT] with its [properties] and its
    [required] list. *)
#[local] Unset Elimination Schemes.
Inductive t : Type :=
| STRING (enum : option (list string))
| NUMBER
| BOOLEAN
| ARRAY (items : t)
| OBJECT (properties : list (string * t)) (required : list string).
#[local] Set Elimination Schemes.

(** A document of the declared shape.  The program hands the schema to
    the provider and never checks a document against it; this is what
    the specification means by a response that can be parsed into the
    declared shape. *)
Fixpoint conforms {num : Type} (schema : t) (document : Json.t num) : bool :=
  match schema, document with
  | STRING None, Json.Text _ => true
  | STRING (Some enum), Json.Text value => bool_decide (value ∈ enum)
  | NUMBER, Json.Number _ => true
  | BOOLEAN, Json.Bool _ => true
  | ARRAY items, Json.Array elements => forallb (conforms items) elements
  | OBJECT properties required, Json.Object fields =>
      forallb (fun key => bool_decide (is_Some (Json.property key fields))) required
      && (fix each (properties : list (string * t)) : bool :=
            match properties with
            | [] => true
            | (key, schema) :: rest =>
                match Json.property key fields with
                | Some value => conforms schema value
                | None => true
                end && each rest
            end) properties
  | _, _ => false
  end.

End Schema.

Module Spread.
(** [{ ...data, sources }]: an object with the own enumerable properties
    of [data], and with [sources]. *)
Record t (num : Type) : Type := mk { data : Json.t num; sources : list Source.t }.
Arguments mk {num}.
Arguments data {num}.
Arguments sources {num}.

(** [result.key] for a key other than [sources] that is no index: the
    property of [data] if [data] is an object that has it, and
    [undefined] otherwise. *)
Definition get {num : Type} (key : string) (result : t num) : Json.t num :=
  match data result with
  | Json.Object properties => default Json.Undefined (Json.property key properties)
  | _ => Json.Undefined
  end.
End Spread.

Module Found.
(** [{ stock: data.stock, sources }] *)
Record t (num : Type) : Type := mk { stock : Json.t num; sources : list Source.t }.
Arguments mk {num}.
Arguments stock {num}.
Arguments sources {num}.
End Found.

Module Runtime.
Section WithNumber.
Context {num : Type}.
Context `{JS.JSON (Json.t num)}.

(** The [responseSchema] of each method. *)
Definition text : Schema.t := Schema.STRING None.

Definition searchSchema : Schema.t :=
  Schema.OBJECT
    [ ("stock",
       Schema.OBJECT
         [ ("ticker", text); ("name", text); ("price", Schema.NUMBER);
           ("changePercent", Schema.NUMBER); ("marketCap", text); ("reasoning", text);
           ("sentiment", Schema.STRING (Some ["Bullish"; "Bearish"; "Neutral"])) ]
         ["ticker"; "name"; "price"; "changePercent"; "marketCap"; "reasoning"; "sentiment"]) ]
    ["stock"].

Definition predictionSchema : Schema.t :=
  Schema.OBJECT
    [ ("predictions",
       Schema.ARRAY
         (Schema.OBJECT [ ("timestamp", text); ("totalValue", Schema.NUMBER) ]
            ["timestamp"; "totalValue"]));
      ("rationale", text) ]
    ["predictions"; "rationale"].

Definition overviewSchema : Schema.t :=
  Schema.OBJECT
    [ ("indices",
       Schema.ARRAY
         (Schema.OBJECT
            [ ("name", text); ("value", text); ("change", text); ("changePercent", text);
              ("isPositive", Schema.BOOLEAN) ]
            ["name"; "value"; "change"; "changePercent"; "isPositive"])) ]
    ["indices"].

Definition discoverySchema : Schema.t :=
  Schema.OBJECT
    [ ("stocks",
       Schema.ARRAY
         (Schema.OBJECT
            [ ("ticker", text); ("name", text); ("price", Schema.NUMBER);
              ("changePercent", Schema.NUMBER); ("marketCap", text); ("reasoning", text);
              ("sentiment", Schema.STRING (Some ["Bullish"; "Bearish"; "Neutral"])) ]
            ["ticker"; "name"; "price"; "marketCap"; "reasoning"; "sentiment"])) ]
    ["stocks"].

Definition analysisSchema : Schema.t :=
  Schema.OBJECT
    [ ("recommendation", Schema.STRING (Some ["BUY"; "SELL"; "HOLD"]));
      ("ticker", text); ("currentPrice", Schema.NUMBER); ("confidence", Schema.NUMBER);
      ("analysis", text) ]
    ["recommendation"; "ticker"; "currentPrice"; "confidence"; "analysis"].

(** The five methods.  As in [Service], [api] is the settled promise of
    [generateContent], awaited outside the [try].  Inside the [try],
    [response.text.trim()] throws when [text] is [undefined],
    [JSON.parse] throws on a text that is no JSON document, and
    [data.stock] throws when the document is [null]; a spread throws on
    no document. *)

Definition searchStock (ticker : string)
    (api : JS.Promise GenerateContentResponse.t) : JS.Promise (Found.t num) :=
  match api with
  | JS.Rejected reason => JS.Rejected reason
  | JS.Resolved response =>
      let sources := Service.extractSources response in
      match Service.parseText response with
      | Some data =>
          match Json.get "stock" data with
          | Some stock => JS.Resolved {| Found.stock := stock; Found.sources := sources |}
          | None => JS.Rejected ("Failed to find data for ticker: " ++ ticker)
          end
      | None => JS.Rejected ("Failed to find data for ticker: " ++ ticker)
      end
  end.

Definition predictPortfolioValue (holdings : list (Holding.t num)) (cash : num)
    (api : JS.Promise GenerateContentResponse.t) : JS.Promise (Spread.t num) :=
  match api with
  | JS.Rejected reason => JS.Rejected reason
  | JS.Resolved response =>
      let sources := Service.extractSources response in
      match Service.parseText response with
      | Some data => JS.Resolved {| Spread.data := data; Spread.sources := sources |}
      | None =>
          JS.Resolved
            {| Spread.data :=
                 Json.Object
                   [ ("predictions", Json.Array []);
                     ("rationale", Json.Text "Unable to generate forecast at this time.") ];
               Spread.sources := sources |}
      end
  end.

Definition getMarketOverview (api : JS.Promise GenerateContentResponse.t)
    : JS.Promise (Spread.t num) :=
  match api with
  | JS.Rejected reason => JS.Rejected reason
  | JS.Resolved response =>
      let sources := Service.extractSources response in
      match Service.parseText response with
      | Some data => JS.Resolved {| Spread.data := data; Spread.sources := sources |}
      | None =>
          JS.Resolved {| Spread.data := Json.Object [ ("indices", Json.Array []) ];
                         Spread.sources := sources |}
      end
  end.

Definition discoverMicroCaps (api : JS.Promise GenerateContentResponse.t)
    : JS.Promise (Spread.t num) :=
  match api with
  | JS.Rejected reason => JS.Rejected reason
  | JS.Resolved response =>
      let sources := Service.extractSources response in
      match Service.parseText response with
      | Some data => JS.Resolved {| Spread.data := data; Spread.sources := sources |}
      | None =>
          JS.Resolved {| Spread.data := Json.Object [ ("stocks", Json.Array []) ];
                         Spread.sources := sources |}
      end
  end.

Definition analyzeStock (ticker : string)
    (api : JS.Promise GenerateContentResponse.t) : JS.Promise (Spread.t num) :=
  match api with
  | JS.Rejected reason => JS.Rejected reason
  | JS.Resolved response =>
      let sources := Service.extractSources response in
      match Service.parseText response with
      | Some data => JS.Resolved {| Spread.data := data; Spread.sources := sources |}
      | None => JS.Rejected "Failed to analyze stock data"
      end
  end.

End WithNumber.
End Runtime.

Module StatedGateway.
Section WithNumber.
Context {num : Type}.
Context `{JS.JSON (Json.t num)}.

(** A response that can be parsed into the declared shape: it has a text,
    the text is a JSON document, and the document conforms to the
    schema. *)
Definition parsesInto (schema : Schema.t) (response : GenerateContentResponse.t) : bool :=
  match Service.parseText (T := Json.t num) response with
  | Some document => Schema.conforms schema document
  | None => false
  end.

(** The specification's policy for a response that cannot be parsed into
    the declared shape: discovery, market overview and prediction return
    an empty payload (empty stocks, indices, predictions) instead of
    raising; ticker search and deep analysis raise. *)
Definition malformed_answers_handled : Prop :=
  forall response : GenerateContentResponse.t,
    (parsesInto Runtime.discoverySchema response = false ->
     exists result,
       Runtime.discoverMicroCaps (JS.Resolved response) = JS.Resolved result /\
       Spread.get "stocks" result = Json.Array []) /\
    (parsesInto Runtime.overviewSchema response = false ->
     exists result,
       Runtime.getMarketOverview (JS.Resolved response) = JS.Resolved result /\
       Spread.get "indices" result = Json.Array []) /\
    (parsesInto Runtime.predictionSchema response = false ->
     forall holdings cash,
     exists result,
       Runtime.predictPortfolioValue holdings cash (JS.Resolved response) = JS.Resolved result /\
       Spread.get "predictions" result = Json.Array []) /\
    (parsesInto Runtime.searchSchema response = false ->
     forall ticker,
     exists message, Runtime.searchStock ticker (JS.Resolved response) = JS.Rejected message) /\
    (parsesInto Runtime.analysisSchema response = false ->
     forall ticker,
     exists message, Runtime.analyzeStock ticker (JS.Resolved response) = JS.Rejected message).

End WithNumber.
End StatedGateway.

(* ===================================================================== *)
(** * The other handlers of the [App] component *)
(* ===================================================================== *)

Module Buttons.
Section WithNumber.
Context {num : Type} `{Number num}.

(** The exit-all button of the analysis panel, shown while the ticker of
    [activeAnalysis] is held:
    [const h = portfolio.holdings.find(h => h.ticker === activeAnalysis.ticker);
     if (h) executeTrade('SELL', activeAnalysis.ticker, activeAnalysis.currentPrice, h.shares);] *)
Definition exitAllPositions (env : Env.t) (st : AppState.t num)
    (activeAnalysis : AnalysisResponse.t num) : Completion num :=
  match App.position (AppState.portfolio st) (AnalysisResponse.ticker activeAnalysis) with
  | Some h =>
      App.executeTrade env st SELL (AnalysisResponse.ticker activeAnalysis)
        (AnalysisResponse.currentPrice activeAnalysis) (Holding.shares h)
  | None => Returned
  end.

End WithNumber.
End Buttons.

Module Handled.
(** How a handler that may raise a notice ends: the cells it leaves and
    the text of the [alert], if it raised one. *)
Record t (S : Type) : Type := mk { next : S; alerted : option string }.
Arguments mk {S}.
Arguments next {S}.
Arguments alerted {S}.
End Handled.

Module MarketCells.
(** The cells [fetchMarketData] sets. *)
Record t : Type := mk {
  marketIndices : list MarketIndex.t;
  marketSources : list Source.t;
  marketLoading : bool
}.
End MarketCells.

Module DiscoveryCells.
(** The cells [fetchDiscovery] sets. *)
Record t (num : Type) : Type := mk {
  discoveredStocks : list (Stock.t num);
  discoverySources : list Source.t;
  loading : bool
}.
Arguments mk {num}.
Arguments discoveredStocks {num}.
Arguments discoverySources {num}.
Arguments loading {num}.
End DiscoveryCells.

Module AnalysisCells.
(** The cells [handleAnalyze] sets: [analyzing], and [activeAnalysis]
    among the cells of the ledger. *)
Record t (num : Type) : Type := mk {
  analyzing : option string;
  app : AppState.t num
}.
Arguments mk {num}.
Arguments analyzing {num}.
Arguments app {num}.
End AnalysisCells.

Module SearchCells.
(** The cells [handleSearchStock] reads or sets. *)
Record t (num : Type) : Type := mk {
  searchQuery : string;
  isSearching : bool;
  searchResults : list (Stock.t num)
}.
Arguments mk {num}.
Arguments searchQuery {num}.
Arguments isSearching {num}.
Arguments searchResults {num}.
End SearchCells.

Inductive Role : Type := RoleUser | RoleModel.

Module ChatMessage.
(** [{ role: 'user' | 'model', content: string, sources?: any[] }];
    [content] is [response.text] for a reply, which may be [undefined]. *)
Record t : Type := mk {
  role : Role;
  content : option string;
  sources : option (list Source.t)
}.
End ChatMessage.

Module ChatCells.
(** The cells [handleChat] reads or sets. *)
Record t : Type := mk {
  chatMessages : list ChatMessage.t;
  chatInput : string
}.
End ChatCells.

Module ChatReply.
(** What [chatWithTrader] returns: [{ text: response.text, sources }]. *)
Record t : Type := mk { text : option string; sources : list Source.t }.
End ChatReply.

Module Handlers.
Section WithNumber.
Context {num : Type}.
Context `{JS.JSON (SearchData.t num)} `{JS.JSON OverviewData.t}
        `{JS.JSON (DiscoveryData.t num)} `{JS.JSON (AnalysisData.t num)}.

(** [GeminiTraderService.chatWithTrader]: [history] is not passed on to
    the chat, and [message] is text for the provider; [api] is the settled
    promise of [chat.sendMessage]. *)
Definition chatWithTrader {A : Type} (history : list A) (message : string)
    (api : JS.Promise GenerateContentResponse.t) : JS.Promise ChatReply.t :=
  match api with
  | JS.Rejected reason => JS.Rejected reason
  | JS.Resolved response =>
      JS.Resolved {| ChatReply.text := GenerateContentResponse.text response;
                     ChatReply.sources := Service.extractSources response |}
  end.

(** [fetchMarketData], up to the [await] and from it on. *)
Definition fetchMarketData_begin (cells : MarketCells.t) : MarketCells.t :=
  {| MarketCells.marketIndices := MarketCells.marketIndices cells;
     MarketCells.marketSources := MarketCells.marketSources cells;
     MarketCells.marketLoading := true |}.

Definition fetchMarketData_settle (result : JS.Promise MarketOverviewResponse.t)
    (cells : MarketCells.t) : MarketCells.t :=
  match result with
  | JS.Resolved data =>
      {| MarketCells.marketIndices := MarketOverviewResponse.indices data;
         MarketCells.marketSources := MarketOverviewResponse.sources data;
         MarketCells.marketLoading := false |}
  | JS.Rejected _ =>
      {| MarketCells.marketIndices := MarketCells.marketIndices cells;
         MarketCells.marketSources := MarketCells.marketSources cells;
         MarketCells.marketLoading := false |}
  end.

Definition fetchMarketData (api : JS.Promise GenerateContentResponse.t)
    (cells : MarketCells.t) : MarketCells.t :=
  fetchMarketData_settle (Service.getMarketOverview api) (fetchMarketData_begin cells).

(** [fetchDiscovery], up to the [await] and from it on. *)
Definition fetchDiscovery_begin (cells : DiscoveryCells.t num) : DiscoveryCells.t num :=
  {| DiscoveryCells.discoveredStocks := DiscoveryCells.discoveredStocks cells;
     DiscoveryCells.discoverySources := DiscoveryCells.discoverySources cells;
     DiscoveryCells.loading := true |}.

Definition fetchDiscovery_settle (result : JS.Promise (DiscoveryResponse.t num))
    (cells : DiscoveryCells.t num) : DiscoveryCells.t num :=
  match result with
  | JS.Resolved data =>
      {| DiscoveryCells.discoveredStocks := DiscoveryResponse.stocks data;
         DiscoveryCells.discoverySources := DiscoveryResponse.sources data;
         DiscoveryCells.loading := false |}
  | JS.Rejected _ =>
      {| DiscoveryCells.discoveredStocks := DiscoveryCells.discoveredStocks cells;
         DiscoveryCells.discoverySources := DiscoveryCells.discoverySources cells;
         DiscoveryCells.loading := false |}
  end.

Definition fetchDiscovery (api : JS.Promise GenerateContentResponse.t)
    (cells : DiscoveryCells.t num) : DiscoveryCells.t num :=
  fetchDiscovery_settle (Service.discoverMicroCaps api) (fetchDiscovery_begin cells).

(** [setActiveAnalysis(value)] *)
Definition setActiveAnalysis (value : option (AnalysisResponse.t num))
    (st : AppState.t num) : AppState.t num :=
  {| AppState.portfolio := AppState.portfolio st;
     AppState.transactions := AppState.transactions st;
     AppState.activeAnalysis := value;
     AppState.predictionRationale := AppState.predictionRationale st;
     AppState.predictionSources := AppState.predictionSources st;
     AppState.predicting := AppState.predicting st |}.

(** [handleAnalyze], up to the [await] and from it on. *)
Definition handleAnalyze_begin (ticker : string) (cells : AnalysisCells.t num)
    : AnalysisCells.t num :=
  {| AnalysisCells.analyzing := Some ticker;
     AnalysisCells.app := AnalysisCells.app cells |}.

Definition handleAnalyze_settle (result : JS.Promise (AnalysisResponse.t num))
    (cells : AnalysisCells.t num) : Handled.t (AnalysisCells.t num) :=
  match result with
  | JS.Resolved result =>
      {| Handled.next :=
           {| AnalysisCells.analyzing := None;
              AnalysisCells.app := setActiveAnalysis (Some result) (AnalysisCells.app cells) |};
         Handled.alerted := None |}
  | JS.Rejected _ =>
      {| Handled.next :=
           {| AnalysisCells.analyzing := None;
              AnalysisCells.app := AnalysisCells.app cells |};
         Handled.alerted := Some "Analysis failed. Please try again later." |}
  end.

Definition handleAnalyze (ticker : string) (api : JS.Promise GenerateContentResponse.t)
    (cells : AnalysisCells.t num) : Handled.t (AnalysisCells.t num) :=
  handleAnalyze_settle (Service.analyzeStock ticker api) (handleAnalyze_begin ticker cells).



(** [handleChat]: [api] is asked for only past the first line. *)
Definition handleChat_settle (result : JS.Promise ChatReply.t)
    (cells : ChatCells.t) : ChatCells.t :=
  let prev := ChatCells.chatMessages cells in
  match result with
  | JS.Resolved res =>
      {| ChatCells.chatMessages :=
           prev ++ [ {| ChatMessage.role := RoleModel;
                        ChatMessage.content := ChatReply.text res;
                        ChatMessage.sources := Some (ChatReply.sources res) |} ];
         ChatCells.chatInput := ChatCells.chatInput cells |}
  | JS.Rejected _ =>
      {| ChatCells.chatMessages :=
           prev ++ [ {| ChatMessage.role := RoleModel;
                        ChatMessage.content := Some "Error communicating with AI.";
                        ChatMessage.sources := None |} ];
         ChatCells.chatInput := ChatCells.chatInput cells |}
  end.

Definition handleChat (api : JS.Promise GenerateContentResponse.t)
    (cells : ChatCells.t) : ChatCells.t :=
  let chatInput := ChatCells.chatInput cells in
  match JS.trim chatInput with
  | EmptyString => cells
  | _ =>
      let msg := chatInput in
      handleChat_settle
        (chatWithTrader (A := ChatMessage.t) [] msg api)
        {| ChatCells.chatMessages :=
             ChatCells.chatMessages cells ++
             [ {| ChatMessage.role := RoleUser;
                  ChatMessage.content := Some msg;
                  ChatMessage.sources := None |} ];
           ChatCells.chatInput := "" |}
  end.

End WithNumber.
End Handlers.

(* ===================================================================== *)
(** * Sign-in, sign-out and [localStorage] *)
(* ===================================================================== *)

Module User.
Record t : Type := mk { id : string; name : string; email : string; avatar : string }.
End User.

Module Browser.

(** [JSON.stringify(value)] at the type of [value]; like [JSON.parse] it
    is the engine's and a parameter of the model. *)
Class Stringify (T : Type) : Type := stringify : T -> string.

(** [localStorage]: strings under string keys. *)
Abbreviation Storage := (gmap string string).

(** [localStorage.getItem(key)] where the code tests the result for
    truthiness: [null] and the empty string both count as nothing
    saved. *)
Definition saved (store : Storage) (key : string) : option string :=
  match store !! key with
  | Some EmptyString | None => None
  | Some text => Some text
  end.

(** A value that the engine writes as a non-empty text and reads back
    from it.  (Not every value does: [JSON.stringify] writes [NaN] as
    [null].) *)
Definition survives {T : Type} `{JS.JSON T} `{Stringify T} (value : T) : Prop :=
  stringify value <> "" /\ JS.parse (stringify value) = Some value.

End Browser.

Module Session.

(** The cells the session logic reads or sets: [user], and [portfolio]
    and [transactions] among the cells of the ledger. *)
Record t (num : Type) : Type := mk { user : option User.t; app : AppState.t num }.
Arguments mk {num}.
Arguments user {num}.
Arguments app {num}.

Section WithNumber.
Context {num : Type} `{Number num}.
Context `{JS.JSON User.t} `{JS.JSON (Portfolio.t num)} `{JS.JSON (list (Transaction.t num))}.
Context `{Browser.Stringify User.t} `{Browser.Stringify (Portfolio.t num)}
        `{Browser.Stringify (list (Transaction.t num))}.

(** [`portfolio_${id}`] and [`transactions_${id}`] *)
Definition portfolioKey (id : string) : string := "portfolio_" ++ id.
Definition transactionsKey (id : string) : string := "transactions_" ++ id.

(** The portfolio of a component that mounts without a user:
    [{ cash: INITIAL_BALANCE, holdings: [], history: [] }]. *)
Definition signedOutPortfolio : Portfolio.t num :=
  {| Portfolio.cash := App.INITIAL_BALANCE;
     Portfolio.holdings := [];
     Portfolio.history := [] |}.

(** The three [useState] initialisers that read [localStorage], in the
    order of the source.  [None] stands for a [JSON.parse] that throws,
    which ends the mount. *)
Definition mount (localeTime : string) (store : Browser.Storage) : option (t num) :=
  let user : option (option User.t) :=
    match Browser.saved store "trader_user" with
    | Some text => Some <$> JS.parse text
    | None => Some None
    end in
  match user with
  | None => None
  | Some user =>
      let portfolio : option (Portfolio.t num) :=
        match user with
        | None => Some signedOutPortfolio
        | Some user =>
            match Browser.saved store (portfolioKey (User.id user)) with
            | Some text => JS.parse text
            | None => Some (App.initialPortfolio localeTime)
            end
        end in
      let transactions : option (list (Transaction.t num)) :=
        match user with
        | None => Some []
        | Some user =>
            match Browser.saved store (transactionsKey (User.id user)) with
            | Some text => JS.parse text
            | None => Some []
            end
        end in
      match portfolio, transactions with
      | Some portfolio, Some transactions =>
          Some {| user := user;
                  app := {| AppState.portfolio := portfolio;
                            AppState.transactions := transactions;
                            AppState.activeAnalysis := None;
                            AppState.predictionRationale := "";
                            AppState.predictionSources := [];
                            AppState.predicting := false |} |}
      | _, _ => None
      end
  end.

(** The persistence effect, which runs after every render that changed
    [user], [portfolio] or [transactions]. *)
Definition persist (cells : t num) (store : Browser.Storage) : Browser.Storage :=
  match user cells with
  | Some user =>
      <[ transactionsKey (User.id user) := Browser.stringify (AppState.transactions (app cells)) ]>
        (<[ portfolioKey (User.id user) := Browser.stringify (AppState.portfolio (app cells)) ]>
           (<[ "trader_user" := Browser.stringify user ]> store))
  | None => store
  end.

Definition mockUser : User.t :=
  {| User.id := "google_user_123";
     User.name := "Experimental Trader";
     User.email := "trader@example.com";
     User.avatar := "https://api.dicebear.com/7.x/avataaars/svg?seed=Trader" |}.

(** [setPortfolio(value)] *)
Definition setPortfolio (value : Portfolio.t num) (st : AppState.t num) : AppState.t num :=
  {| AppState.portfolio := value;
     AppState.transactions := AppState.transactions st;
     AppState.activeAnalysis := AppState.activeAnalysis st;
     AppState.predictionRationale := AppState.predictionRationale st;
     AppState.predictionSources := AppState.predictionSources st;
     AppState.predicting := AppState.predicting st |}.

(** [handleLogin] *)
Definition handleLogin (localeTime : string) (cells : t num) (store : Browser.Storage)
    : t num * Browser.Storage :=
  match Browser.saved store (portfolioKey (User.id mockUser)) with
  | Some _ =>
      ({| user := Some mockUser; app := app cells |}, store)
  | None =>
      let initial := App.initialPortfolio localeTime in
      ({| user := Some mockUser; app := setPortfolio initial (app cells) |},
       <[ portfolioKey (User.id mockUser) := Browser.stringify initial ]> store)
  end.

(** [handleLogout] *)
Definition handleLogout (cells : t num) (store : Browser.Storage)
    : t num * Browser.Storage :=
  ({| user := None; app := app cells |}, delete "trader_user" store).

(** A handler followed by the render it causes and the persistence
    effect of that render. *)
Definition rendered (handled : t num * Browser.Storage) : t num * Browser.Storage :=
  (fst handled, persist (fst handled) (snd handled)).

End WithNumber.
End Session.

(* ===================================================================== *)
(** * More sample data *)
(* ===================================================================== *)

Module Tour.

(** The fresh session after BUY 5 ABC at 10. *)
Definition bought : AppState.t float := Demo.after Demo.fresh BUY "ABC" 10%float 5%float.

(** An analysis of ABC on display, with a price of 12. *)
Definition analysisABC : AnalysisResponse.t float :=
  {| AnalysisResponse.recommendation := RecSELL;
     AnalysisResponse.ticker := "ABC";
     AnalysisResponse.currentPrice := 12%float;
     AnalysisResponse.confidence := 80%float;
     AnalysisResponse.analysis := "Momentum is fading.";
     AnalysisResponse.sources := [] |}.

(** A ledger whose cash is [NaN]. *)
Definition brokenCash : AppState.t float :=
  Demo.session
    {| Portfolio.cash := PrimFloat.nan; Portfolio.holdings := []; Portfolio.history := [] |}.

(** A stock on the discovery feed, and the feeds with something on
    display. *)
Definition stockABC : Stock.t float :=
  {| Stock.ticker := "ABC";
     Stock.name := "ABC Robotics";
     Stock.price := 10%float;
     Stock.changePercent := 2%float;
     Stock.marketCap := "48M";
     Stock.reasoning := "Volume is picking up.";
     Stock.sentiment := Bullish;
     Stock.lastUpdated := "9:30:00 AM" |}.

Definition feed : DiscoveryCells.t float :=
  {| DiscoveryCells.discoveredStocks := [stockABC];
     DiscoveryCells.discoverySources := [];
     DiscoveryCells.loading := false |}.

Definition board : MarketCells.t :=
  {| MarketCells.marketIndices :=
       [ {| MarketIndex.name := "Russell 2000"; MarketIndex.value := "2,000.10";
            MarketIndex.change := "+4.20"; MarketIndex.changePercent := "+0.21%";
            MarketIndex.isPositive := true |} ];
     MarketCells.marketSources := [];
     MarketCells.marketLoading := false |}.


(** The chat with a question typed in. *)
Definition chatWith (input : string) : ChatCells.t :=
  {| ChatCells.chatMessages := []; ChatCells.chatInput := input |}.

(** An answer whose text is the JSON document [{}], and one whose text
    is the JSON document [null]. *)
Definition emptyDocument : GenerateContentResponse.t :=
  {| GenerateContentResponse.text := Some "{}";
     GenerateContentResponse.groundingChunks := None |}.

Definition nullDocument : GenerateContentResponse.t :=
  {| GenerateContentResponse.text := Some " null ";
     GenerateContentResponse.groundingChunks := None |}.

(** [JSON.parse] on the texts of the sample answers: [{}] and [null] are
    JSON documents, the text of [Demo.outage] is none. *)
Definition parseDocument : JS.JSON (Json.t float) :=
  fun text =>
    if String.eqb text "{}" then Some (Json.Object [])
    else if String.eqb text "null" then Some Json.Null
    else None.

(** A signed-in session on the fresh ledger. *)
Definition signedIn : Session.t float :=
  {| Session.user := Some Session.mockUser; Session.app := Demo.fresh |}.

(** The engine on the sample session: what [JSON.stringify] writes for
    its user, portfolio and transactions (double quotes left out of the
    texts), and a [JSON.parse] that reads these texts back. *)
Definition userText : string :=
  "{id:google_user_123,name:Experimental Trader,email:trader@example.com}".
Definition portfolioText : string :=
  "{cash:100,holdings:[],history:[{timestamp:9:30:00 AM,totalValue:100}]}".
Definition transactionsText : string := "[]".

Definition stringifyUser : Browser.Stringify User.t := fun _ => userText.
Definition stringifyPortfolio : Browser.Stringify (Portfolio.t float) := fun _ => portfolioText.
Definition stringifyTransactions : Browser.Stringify (list (Transaction.t float)) :=
  fun _ => transactionsText.

Definition parseUser : JS.JSON User.t :=
  fun text => if String.eqb text userText then Some Session.mockUser else None.
Definition parsePortfolio : JS.JSON (Portfolio.t float) :=
  fun text =>
    if String.eqb text portfolioText then Some (AppState.portfolio Demo.fresh) else None.
Definition parseTransactions : JS.JSON (list (Transaction.t float)) :=
  fun text => if String.eqb text transactionsText then Some [] else None.

(** What the browser holds after the sample session was saved and the
    user signed out. *)
#[local] Existing Instances stringifyUser stringifyPortfolio stringifyTransactions.

Definition signedOutStore : Browser.Storage :=
  snd (Session.handleLogout signedIn (Session.persist signedIn ∅)).

End Tour.

(* ===================================================================== *)
(** * Facts about the built-ins *)
(* ===================================================================== *)

Section BuiltinFacts.
Context {A : Type}.
Implicit Types (p : A -> bool) (l : list A).

(** [findIndex] and [find] agree: where [find] returns an element,
    [findIndex] returns its position, the first one that satisfies [p];
    where [find] returns [undefined], [findIndex] returns [-1]. *)
Lemma findIndex_from_find p l (i : Z) :
  match JS.find p l with
  | Some h =>
      exists k : nat,
        JS.findIndex_from p l i = (i + Z.of_nat k)%Z /\
        l !! k = Some h /\ p h = true /\
        Forall (fun x => p x = false) (take k l)
  | None =>
      JS.findIndex_from p l i = (-1)%Z /\ Forall (fun x => p x = false) l
  end.
Proof.
  revert i. induction l as [|x rest IH]; intros i; cbn.
  - split; [done | constructor].
  - destruct (p x) eqn:Hx.
    + exists 0%nat. cbn. repeat split; [lia | done | constructor].
    + specialize (IH (i + 1)%Z). destruct (JS.find p rest) as [h|].
      * destruct IH as (k & Hk & Hl & Hp & Hpre).
        exists (S k). cbn. repeat split; [lia | done | done | by constructor].
      * destruct IH as [Hk Hall]. split; [done | by constructor].
Qed.

Lemma findIndex_found p l h :
  JS.find p l = Some h ->
  exists k : nat,
    JS.findIndex p l = Z.of_nat k /\ l !! k = Some h /\ p h = true /\
    Forall (fun x => p x = false) (take k l).
Proof.
  intros Hf. pose proof (findIndex_from_find p l 0) as Hs.
  rewrite Hf in Hs. destruct Hs as (k & Hk & Hrest).
  exists k. split; [exact Hk | exact Hrest].
Qed.

Lemma findIndex_missing p l :
  JS.find p l = None ->
  JS.findIndex p l = (-1)%Z /\ Forall (fun x => p x = false) l.
Proof.
  intros Hf. pose proof (findIndex_from_find p l 0) as Hs.
  by rewrite Hf in Hs.
Qed.

Lemma find_none_iff p l :
  JS.find p l = None <-> Forall (fun x => p x = false) l.
Proof.
  split.
  - intros Hf. by apply findIndex_missing.
  - induction 1 as [|x rest Hx _ IH]; cbn; [done |]. by rewrite Hx.
Qed.

Lemma find_app_miss p l1 l2 :
  JS.find p l1 = None -> JS.find p (l1 ++ l2) = JS.find p l2.
Proof.
  induction l1 as [|x rest IH]; cbn; [done |].
  destruct (p x); [done | exact IH].
Qed.

(** The first match sits after a prefix without matches. *)
Lemma find_split p l k h :
  l !! k = Some h -> p h = true -> Forall (fun x => p x = false) (take k l) ->
  JS.find p l = Some h.
Proof.
  intros Hl Hp Hpre.
  rewrite <- (take_drop_middle l k h Hl).
  rewrite find_app_miss by (by apply find_none_iff).
  cbn. by rewrite Hp.
Qed.

(** A left fold over an array with the element at [k] singled out. *)
Lemma reduce_middle {B : Type} (f : B -> A -> B) (init : B) l k x :
  l !! k = Some x ->
  JS.reduce f init l = JS.reduce f (f (JS.reduce f init (take k l)) x) (drop (S k) l).
Proof.
  intros Hl. unfold JS.reduce.
  rewrite <- (take_drop_middle l k x Hl) at 1.
  by rewrite fold_left_app.
Qed.

End BuiltinFacts.

(* ===================================================================== *)
(** * Facts about the two arithmetics *)
(* ===================================================================== *)

(** Exact arithmetic meets [NumberLaws]. *)
#[export] Instance Q_NumberLaws : NumberLaws Q.
Proof.
  constructor. intros a b. cbn. unfold Qlt_bool.
  intros Hlt. apply negb_true_iff in Hlt.
  destruct (Qeq_bool (a - b) (inject_Z 0)) eqn:Heq; [| reflexivity].
  apply Qeq_bool_iff in Heq.
  assert (Hle : (a <= b)%Q).
  { assert (Hab : (a == b)%Q).
    { setoid_replace a with ((a - b) + b)%Q using relation Qeq by ring.
      rewrite Heq. ring. }
    rewrite Hab. apply Qle_refl. }
  apply Qle_bool_iff in Hle. congruence.
Qed.

(** For binary64 the law is read off the Standard Library's
    specification of the format ([SpecFloat]): the difference of two
    distinct numbers has a non-zero integer mantissa at the lower of the
    two exponents, and rounding shifts out fewer digits than a mantissa
    has, so it never rounds such a difference to zero. *)
Section Binary64Facts.
Import SpecFloat.
Local Open Scope Z_scope.
Local Abbreviation prec := FloatOps.prec.
Local Abbreviation emax := FloatOps.emax.
Local Abbreviation emin := (-1074).

(** *** Shifting a mantissa to the right *)

Lemma digits2_pos_size p : digits2_pos p = Pos.size p.
Proof. induction p; cbn; congruence. Qed.

Lemma shr_1_quot2 r : shr_m (shr_1 r) = Z.quot2 (shr_m r).
Proof. destruct r as [m rr ss]. destruct m as [|[p|p|]|[p|p|]]; reflexivity. Qed.

Lemma iter_pos_iter {A} (f : A -> A) n x : iter_pos f n x = Pos.iter f x n.
Proof.
  revert x. induction n; intros x; cbn; rewrite ?IHn, ?Pos.iter_swap; reflexivity.
Qed.

Lemma shr_m_iter r n : shr_m (iter_pos shr_1 n r) = Pos.iter Z.quot2 (shr_m r) n.
Proof. rewrite iter_pos_iter. apply Pos.iter_swap_gen. intros; apply shr_1_quot2. Qed.

Lemma iter_quot2_pos n : forall m, 2 ^ Zpos n <= m -> 0 < Pos.iter Z.quot2 m n.
Proof.
  induction n using Pos.peano_ind; intros m Hm.
  - cbn. rewrite Zquot2_quot. change (2^1) with 2 in Hm.
    apply Z.quot_str_pos; lia.
  - rewrite Pos.iter_succ_r. apply IHn.
    rewrite Pos2Z.inj_succ, Z.pow_succ_r in Hm by lia.
    rewrite Zquot2_quot. apply Z.quot_le_lower_bound; lia.
Qed.

(** A number of [d] binary digits is at least [2 ^ (d - 1)]. *)
Lemma digits_lower p : 2 ^ (Zpos (digits2_pos p) - 1) <= Zpos p.
Proof.
  rewrite digits2_pos_size.
  assert (Hsize : 2 ^ Zpos (Pos.size p) <= 2 * Zpos p).
  { change (2 * Zpos p) with (Zpos p~0). rewrite <- Pos2Z.inj_pow.
    apply Pos2Z.pos_le_pos, Pos.size_le. }
  replace (Zpos (Pos.size p)) with (Z.succ (Zpos (Pos.size p) - 1)) in Hsize by lia.
  rewrite Z.pow_succ_r in Hsize by lia. lia.
Qed.

(** *** Rounding a non-zero integer at an exponent of the format *)

Lemma fexp_eq e : fexp prec emax e = Z.max (e - 53) emin.
Proof. reflexivity. Qed.

(** A right shift by fewer places than the mantissa has digits leaves a
    positive mantissa. *)
Lemma shr_fexp_positive m e l :
  emin <= e ->
  0 < shr_m (fst (shr_fexp prec emax (Zpos m) e l)) /\
  emin <= snd (shr_fexp prec emax (Zpos m) e l).
Proof.
  intros He. unfold shr_fexp, shr. rewrite fexp_eq. cbn [Zdigits2].
  pose proof (digits_lower m) as Hd.
  set (d := Zpos (digits2_pos m)) in *.
  assert (0 < d) by (unfold d; lia).
  destruct (Z.max (d + e - 53) emin - e) as [|n|n] eqn:Hn; cbn [fst snd].
  - split; [destruct l as [|[]]; cbn; lia | lia].
  - split; [| lia].
    rewrite shr_m_iter. apply iter_quot2_pos.
    assert (Hm : shr_m (shr_record_of_loc (Zpos m) l) = Zpos m)
      by (destruct l as [|[]]; reflexivity).
    rewrite Hm. etransitivity; [| exact Hd].
    apply Z.pow_le_mono_r; lia.
  - split; [destruct l as [|[]]; cbn; lia | lia].
Qed.

Lemma round_nearest_even_ge m l : 0 < m -> 0 < round_nearest_even m l.
Proof. intros Hm. destruct l as [|[]]; cbn; try lia. destruct (Z.even m); lia. Qed.

(** Rounding twice, as [binary_round_aux] does, keeps the mantissa
    positive. *)
Lemma binary_round_aux_nonzero s m e l :
  emin <= e -> SF_nonzero (binary_round_aux prec emax s (Zpos m) e l).
Proof.
  intros He. unfold binary_round_aux.
  pose proof (shr_fexp_positive m e l He) as [Hm1 He1].
  destruct (shr_fexp prec emax (Zpos m) e l) as [mrs' e']. cbn [fst snd] in *.
  pose proof (round_nearest_even_ge (shr_m mrs') (loc_of_shr_record mrs') Hm1) as Hr.
  destruct (round_nearest_even (shr_m mrs') (loc_of_shr_record mrs')) as [|m2|m2]; try lia.
  pose proof (shr_fexp_positive m2 e' loc_Exact He1) as [Hm2 _].
  destruct (shr_fexp prec emax (Zpos m2) e' loc_Exact) as [mrs'' e'']. cbn [fst snd] in *.
  destruct (shr_m mrs'') as [|m3|m3]; try lia.
  destruct (e'' <=? emax - prec); exact I.
Qed.

Lemma binary_round_nonzero s m e :
  emin <= e -> SF_nonzero (binary_round prec emax s m e).
Proof.
  intros He. unfold binary_round, shl_align. rewrite fexp_eq.
  destruct (Z.max (Zpos (digits2_pos m) + e - 53) emin - e) eqn:Hn;
    apply binary_round_aux_nonzero; lia.
Qed.

Lemma binary_normalize_nonzero m e sz :
  m <> 0 -> emin <= e -> SF_nonzero (binary_normalize prec emax m e sz).
Proof.
  intros Hm He. destruct m; [congruence | |]; apply binary_round_nonzero; exact He.
Qed.

(** *** The difference of two numbers of the format *)

Lemma digits_iter_xO m d :
  Zpos (digits2_pos (Pos.iter xO m d)) = Zpos (digits2_pos m) + Zpos d.
Proof.
  induction d using Pos.peano_ind.
  - cbn. lia.
  - rewrite Pos.iter_succ. cbn [digits2_pos]. lia.
Qed.

Lemma canonical_exponent m e :
  bounded prec emax m e = true ->
  e = Z.max (Zpos (digits2_pos m) + e - 53) emin.
Proof.
  unfold bounded, canonical_mantissa. rewrite fexp_eq.
  intros H. apply andb_true_iff in H as [H _]. apply Z.eqb_eq in H. lia.
Qed.

(** Two canonical mantissas brought to the lower of the two exponents are
    equal only if the numbers are. *)
Lemma shl_align_inj mx ex my ey :
  bounded prec emax mx ex = true -> bounded prec emax my ey = true ->
  fst (shl_align mx ex (Z.min ex ey)) = fst (shl_align my ey (Z.min ex ey)) ->
  ex = ey /\ mx = my.
Proof.
  intros Hx Hy. apply canonical_exponent in Hx, Hy. unfold shl_align.
  destruct (Z.min ex ey - ex) as [|dx|dx] eqn:Hdx;
    destruct (Z.min ex ey - ey) as [|dy|dy] eqn:Hdy; cbn [fst]; try lia.
  - intros ->. rewrite digits_iter_xO in Hx. exfalso. lia.
  - intros <-. rewrite digits_iter_xO in Hy. exfalso. lia.
Qed.

(** Subtraction, as the format specifies it, gives no zero for [y < x]. *)
Lemma SFsub_nonzero x y :
  valid_binary prec emax x = true -> valid_binary prec emax y = true ->
  SFltb y x = true -> SF_nonzero (SFsub prec emax x y).
Proof.
  intros Hx Hy Hlt. unfold SFltb in Hlt.
  destruct x as [sx|sx| |sx mx ex], y as [sy|sy| |sy my ey];
    try exact I; try (cbn in Hlt; discriminate).
  - destruct sx, sy; cbn in Hlt |- *; try discriminate; exact I.
  - cbn in Hx, Hy.
    pose proof (canonical_exponent _ _ Hx) as Hex.
    pose proof (canonical_exponent _ _ Hy) as Hey.
    cbn [SFsub]. apply binary_normalize_nonzero; [| lia].
    intros Hzero.
    assert (Hsame : sx = sy /\
                    fst (shl_align mx ex (Z.min ex ey)) = fst (shl_align my ey (Z.min ex ey))).
    { destruct sx, sy; cbn [cond_Zopp] in Hzero; try lia; split; try reflexivity; lia. }
    destruct Hsame as [-> Hsame].
    destruct (shl_align_inj _ _ _ _ Hx Hy Hsame) as [-> ->].
    cbn [SFcompare] in Hlt.
    rewrite Z.compare_refl, Pos.compare_cont_refl in Hlt.
    destruct sy; discriminate.
Qed.

Lemma Prim2SF_zero : Prim2SF 0%float = S754_zero false.
Proof. reflexivity. Qed.

Lemma SFeqb_zero x : SFeqb x (S754_zero false) = true -> ~ SF_nonzero x.
Proof. destruct x as [s|s| |s m e]; cbn; try discriminate; try tauto; destruct s; discriminate. Qed.

(** In binary64, [b < a] makes [a - b === 0] false. *)
Lemma float_sub_lt_nonzero (a b : float) :
  (b <? a)%float = true -> (a - b =? 0)%float = false.
Proof.
  intros Hlt. rewrite FloatAxioms.ltb_spec in Hlt.
  destruct (a - b =? 0)%float eqn:Heq; [| reflexivity].
  rewrite FloatAxioms.eqb_spec, FloatAxioms.sub_spec, Prim2SF_zero in Heq.
  apply SFeqb_zero in Heq. exfalso. apply Heq.
  apply SFsub_nonzero; [apply Prim2SF_valid | apply Prim2SF_valid | exact Hlt].
Qed.

End Binary64Facts.

(** Binary64 meets [NumberLaws]. *)
#[export] Instance float_NumberLaws : NumberLaws float.
Proof. constructor. intros a b. apply float_sub_lt_nonzero. Qed.

(* ===================================================================== *)
(** * The ledger: what a call of [executeTrade] does *)
(* ===================================================================== *)

Section LedgerFacts.
Context {num : Type} `{Number num}.
Local Open Scope num_scope.
Implicit Types (st : AppState.t num) (h : Holding.t num) (env : Env.t).

(** The record of a trade, as [executeTrade] builds it. *)
Local Abbreviation txOf env type ticker price shares :=
  {| Transaction.id := Env.randomId env;
     Transaction.type := type;
     Transaction.ticker := ticker;
     Transaction.shares := shares;
     Transaction.price := price;
     Transaction.timestamp := Env.isoTime env |}.

(** The snapshot of a trade that leaves [cash'] and [holdings']. *)
Local Abbreviation snapshotOf env cash' holdings' :=
  {| Snapshot.timestamp := Env.localeTime env;
     Snapshot.totalValue :=
       cash' + JS.reduce (fun sum h => sum + (Holding.shares h * Holding.currentPrice h))
                 0 holdings';
     Snapshot.isPrediction := None |}.

Lemma hasTicker_true ticker h :
  App.hasTicker ticker h = true <-> Holding.ticker h = ticker.
Proof. unfold App.hasTicker. apply String.eqb_eq. Qed.

Lemma hasTicker_false ticker h :
  App.hasTicker ticker h = false <-> Holding.ticker h <> ticker.
Proof. unfold App.hasTicker. apply String.eqb_neq. Qed.

(** Everything a committed trade has done, read off the code path by
    path. *)
Lemma executeTrade_committed env st type ticker price shares st' :
  App.executeTrade env st type ticker price shares = Committed st' ->
  let p := AppState.portfolio st in
  let p' := AppState.portfolio st' in
  let cost := price * shares in
  (shares <=? 0) = false /\
  AppState.transactions st' = txOf env type ticker price shares :: AppState.transactions st /\
  AppState.activeAnalysis st' = None /\
  AppState.predictionRationale st' = AppState.predictionRationale st /\
  AppState.predictionSources st' = AppState.predictionSources st /\
  AppState.predicting st' = AppState.predicting st /\
  Portfolio.history p' =
    App.actuals (Portfolio.history p) ++
    [ snapshotOf env (Portfolio.cash p') (Portfolio.holdings p') ] /\
  match type with
  | BUY =>
      (Portfolio.cash p <? cost) = false /\
      Portfolio.cash p' = Portfolio.cash p - cost /\
      match App.position p ticker with
      | Some h =>
          exists k : nat,
            Portfolio.holdings p !! k = Some h /\
            Forall (fun x => App.hasTicker ticker x = false) (take k (Portfolio.holdings p)) /\
            Portfolio.holdings p' =
              <[ k := {| Holding.ticker := Holding.ticker h;
                         Holding.shares := Holding.shares h + shares;
                         Holding.avgCost :=
                           ((Holding.shares h * Holding.avgCost h) + (shares * price))
                           / (Holding.shares h + shares);
                         Holding.currentPrice := price |} ]> (Portfolio.holdings p)
      | None =>
          Portfolio.holdings p' =
            Portfolio.holdings p ++
            [ {| Holding.ticker := ticker;
                 Holding.shares := shares;
                 Holding.avgCost := price;
                 Holding.currentPrice := price |} ]
      end
  | SELL =>
      Portfolio.cash p' = Portfolio.cash p + cost /\
      exists (k : nat) h,
        App.position p ticker = Some h /\
        Portfolio.holdings p !! k = Some h /\
        Forall (fun x => App.hasTicker ticker x = false) (take k (Portfolio.holdings p)) /\
        (Holding.shares h <? shares) = false /\
        let h' := {| Holding.ticker := Holding.ticker h;
                     Holding.shares := Holding.shares h - shares;
                     Holding.avgCost := Holding.avgCost h;
                     Holding.currentPrice := Holding.currentPrice h |} in
        Portfolio.holdings p' =
          if Holding.shares h - shares === 0
          then delete k (Portfolio.holdings p)
          else <[ k := h' ]> (Portfolio.holdings p)
  end.
Proof.
  unfold App.executeTrade, App.position.
  destruct (shares <=? 0) eqn:Hpos; [discriminate |].
  destruct type.
  - destruct (Portfolio.cash (AppState.portfolio st) <? price * shares) eqn:Hcash;
      [discriminate |].
    destruct (JS.find (App.hasTicker ticker) (Portfolio.holdings (AppState.portfolio st)))
      as [h|] eqn:Hfind.
    + destruct (findIndex_found _ _ _ Hfind) as (k & Hk & Hl & Hp & Hpre).
      rewrite Hk, Nat2Z.id, Hl.
      replace (0 <=? Z.of_nat k)%Z with true by (symmetry; apply Z.leb_le; lia).
      intros [= <-]. cbn. repeat split; try done. by exists k.
    + destruct (findIndex_missing _ _ Hfind) as [Hk _]. rewrite Hk. cbn.
      intros [= <-]. cbn. repeat split; done.
  - destruct (JS.find (App.hasTicker ticker) (Portfolio.holdings (AppState.portfolio st)))
      as [h|] eqn:Hfind.
    + destruct (findIndex_found _ _ _ Hfind) as (k & Hk & Hl & Hp & Hpre).
      rewrite Hk, Nat2Z.id, Hl.
      replace (Z.of_nat k <? 0)%Z with false by (symmetry; apply Z.ltb_ge; lia).
      destruct (Holding.shares h <? shares) eqn:Hsh; [discriminate |].
      intros [= <-]. cbn. repeat split; try done.
      exists k, h. repeat split; try done.
      destruct (Holding.shares h - shares === 0); [| done].
      unfold JS.splice1.
      by rewrite !delete_take_drop, take_insert_ge, drop_insert_lt by lia.
    + destruct (findIndex_missing _ _ Hfind) as [Hk _]. rewrite Hk. cbn.
      discriminate.
Qed.

(** ** The history track *)

Lemma actuals_app (l1 l2 : list (Snapshot.t num)) :
  App.actuals (l1 ++ l2) = App.actuals l1 ++ App.actuals l2.
Proof. apply List.filter_app. Qed.

Lemma actuals_all_actual (l : list (Snapshot.t num)) :
  Forall (fun s => App.truthy (Snapshot.isPrediction s) = false) (App.actuals l).
Proof.
  apply List.Forall_forall. intros s Hs.
  apply List.filter_In in Hs as [_ Hs]. by apply negb_true_iff.
Qed.

Lemma actuals_of_actual (l : list (Snapshot.t num)) :
  Forall (fun s => App.truthy (Snapshot.isPrediction s) = false) l ->
  App.actuals l = l.
Proof.
  induction 1 as [|s rest Hs _ IH]; cbn; [done |].
  rewrite Hs. cbn. f_equal. exact IH.
Qed.

Lemma actuals_of_predicted (l : list (Snapshot.t num)) :
  Forall (fun s => App.truthy (Snapshot.isPrediction s) = true) l ->
  App.actuals l = [].
Proof.
  induction 1 as [|s rest Hs _ IH]; cbn; [done |].
  rewrite Hs. cbn. exact IH.
Qed.

Lemma actuals_idempotent (l : list (Snapshot.t num)) :
  App.actuals (App.actuals l) = App.actuals l.
Proof. apply actuals_of_actual, actuals_all_actual. Qed.

(** ** Claims about [executeTrade] *)

(** C1. A trade that goes through appends one actual snapshot, and the
    [totalValue] it records is the value of the ledger the trade leaves:
    the cash after the trade plus the sum, over the holdings after the
    trade, of shares times current price. *)
Theorem executeTrade_snapshot_conservation env st type ticker price shares st' :
  App.executeTrade env st type ticker price shares = Committed st' ->
  exists snapshot : Snapshot.t num,
    Portfolio.history (AppState.portfolio st') =
      App.actuals (Portfolio.history (AppState.portfolio st)) ++ [snapshot] /\
    Snapshot.isPrediction snapshot = None /\
    Snapshot.totalValue snapshot = App.totalValue (AppState.portfolio st') /\
    App.totalValue (AppState.portfolio st') =
      Portfolio.cash (AppState.portfolio st')
      + fold_left (fun sum h => sum + (Holding.shares h * Holding.currentPrice h))
          (Portfolio.holdings (AppState.portfolio st')) 0.
Proof.
  intros Hrun. apply executeTrade_committed in Hrun.
  destruct Hrun as (_ & _ & _ & _ & _ & _ & Hhist & _).
  eexists. split; [exact Hhist |]. by cbn.
Qed.

(** C3. A BUY whose cost exceeds the cash is turned down with the
    insufficient-funds notice, and the component state (cash, holdings,
    history, transaction log) is what it was. *)
Theorem buy_insufficient_funds env st ticker price shares :
  (shares <=? 0) = false ->
  (Portfolio.cash (AppState.portfolio st) <? price * shares) = true ->
  App.executeTrade env st BUY ticker price shares = Alerted "Insufficient cash!" /\
  App.stateAfter st (App.executeTrade env st BUY ticker price shares) = st.
Proof.
  intros Hpos Hcash. unfold App.executeTrade. by rewrite Hpos, Hcash.
Qed.

(** C4. A trade that goes through leaves no snapshot flagged
    [isPrediction] in the history and appends exactly one snapshot, an
    actual one; the actual snapshots that were there are all kept, as they
    were and in their order.  For a history made of actual snapshots
    followed by a prediction suffix, the new history is the actual prefix
    followed by the new snapshot. *)
Theorem trade_invalidates_forecast env st type ticker price shares st' :
  App.executeTrade env st type ticker price shares = Committed st' ->
  let history := Portfolio.history (AppState.portfolio st) in
  let history' := Portfolio.history (AppState.portfolio st') in
  exists snapshot : Snapshot.t num,
    App.truthy (Snapshot.isPrediction snapshot) = false /\
    history' = App.actuals history ++ [snapshot] /\
    Forall (fun s => App.truthy (Snapshot.isPrediction s) = false) history' /\
    App.actuals history' = App.actuals history ++ [snapshot] /\
    (forall recorded predicted,
        history = recorded ++ predicted ->
        Forall (fun s => App.truthy (Snapshot.isPrediction s) = false) recorded ->
        Forall (fun s => App.truthy (Snapshot.isPrediction s) = true) predicted ->
        history' = recorded ++ [snapshot]).
Proof.
  intros Hrun history history'. apply executeTrade_committed in Hrun.
  destruct Hrun as (_ & _ & _ & _ & _ & _ & Hhist & _). fold history history' in Hhist.
  eexists. split; [| split; [exact Hhist |]]; [done |].
  rewrite Hhist. repeat split.
  - apply Forall_app. split; [apply actuals_all_actual | by repeat constructor].
  - by rewrite actuals_app, actuals_idempotent.
  - intros recorded predicted -> Hrec Hpred.
    by rewrite actuals_app, (actuals_of_actual _ Hrec), (actuals_of_predicted _ Hpred), app_nil_r.
Qed.

(** ** When a trade goes through, and when it does not *)

Lemma sell_not_held env st ticker price shares :
  (shares <=? 0) = false ->
  App.position (AppState.portfolio st) ticker = None ->
  App.executeTrade env st SELL ticker price shares = Alerted "Not enough shares!".
Proof.
  intros Hpos Hfind. unfold App.executeTrade. rewrite Hpos.
  destruct (findIndex_missing _ _ Hfind) as [-> _]. done.
Qed.

Lemma sell_short env st ticker price shares h :
  (shares <=? 0) = false ->
  App.position (AppState.portfolio st) ticker = Some h ->
  (Holding.shares h <? shares) = true ->
  App.executeTrade env st SELL ticker price shares = Alerted "Not enough shares!".
Proof.
  intros Hpos Hfind Hshort. unfold App.executeTrade. rewrite Hpos.
  destruct (findIndex_found _ _ _ Hfind) as (k & -> & Hl & _).
  rewrite Nat2Z.id, Hl, Hshort.
  by replace (Z.of_nat k <? 0)%Z with false by (symmetry; apply Z.ltb_ge; lia).
Qed.

Lemma sell_goes_through env st ticker price shares h :
  (shares <=? 0) = false ->
  App.position (AppState.portfolio st) ticker = Some h ->
  (Holding.shares h <? shares) = false ->
  exists st', App.executeTrade env st SELL ticker price shares = Committed st'.
Proof.
  intros Hpos Hfind Hshort. unfold App.executeTrade. rewrite Hpos.
  destruct (findIndex_found _ _ _ Hfind) as (k & -> & Hl & _).
  rewrite Nat2Z.id, Hl, Hshort.
  replace (Z.of_nat k <? 0)%Z with false by (symmetry; apply Z.ltb_ge; lia).
  by eexists.
Qed.

Lemma buy_goes_through env st ticker price shares :
  (shares <=? 0) = false ->
  (Portfolio.cash (AppState.portfolio st) <? price * shares) = false ->
  exists st', App.executeTrade env st BUY ticker price shares = Committed st'.
Proof.
  intros Hpos Hcash. unfold App.executeTrade. rewrite Hpos, Hcash.
  destruct (App.position (AppState.portfolio st) ticker) as [h|] eqn:Hfind.
  - destruct (findIndex_found _ _ _ Hfind) as (k & -> & Hl & _).
    rewrite Nat2Z.id, Hl.
    replace (0 <=? Z.of_nat k)%Z with true by (symmetry; apply Z.leb_le; lia).
    by eexists.
  - destruct (findIndex_missing _ _ Hfind) as [-> _]. by eexists.
Qed.

(** X3. No call reads a property of [undefined]: an index that
    [findIndex] returns is an index of the array, so [executeTrade] never
    ends in a [TypeError], whatever the request and the state. *)
Lemma executeTrade_no_TypeError env st type ticker price shares :
  App.executeTrade env st type ticker price shares <> TypeError.
Proof.
  unfold App.executeTrade.
  destruct (shares <=? 0); [done |].
  destruct (App.position (AppState.portfolio st) ticker) as [h|] eqn:Hfind.
  - destruct (findIndex_found _ _ _ Hfind) as (k & -> & Hl & _).
    rewrite Nat2Z.id, Hl.
    replace (0 <=? Z.of_nat k)%Z with true by (symmetry; apply Z.leb_le; lia).
    replace (Z.of_nat k <? 0)%Z with false by (symmetry; apply Z.ltb_ge; lia).
    destruct type.
    + by destruct (_ <? _).
    + by destruct (_ <? _).
  - destruct (findIndex_missing _ _ Hfind) as [-> _]. cbn.
    destruct type; [| done]. by destruct (_ <? _).
Qed.

(** ** One holding per ticker *)

Lemma unique_ticker_delete (l : list (Holding.t num)) k h :
  NoDup (map Holding.ticker l) ->
  l !! k = Some h ->
  Forall (fun x => Holding.ticker x <> Holding.ticker h) (delete k l).
Proof.
  intros Hnd Hl. rewrite delete_take_drop.
  rewrite <- (take_drop_middle l k h Hl) in Hnd.
  rewrite map_app, map_cons in Hnd.
  apply NoDup_app in Hnd as (_ & Hcross & Hright).
  apply NoDup_cons in Hright as [Hright _].
  apply Forall_app. split; apply List.Forall_forall; intros x Hx Heq.
  - apply (Hcross (Holding.ticker x)).
    + apply list_elem_of_In, in_map, Hx.
    + rewrite Heq. left.
  - apply Hright. rewrite <- Heq. apply list_elem_of_In, in_map, Hx.
Qed.

Lemma map_ticker_insert (l : list (Holding.t num)) k h h' :
  l !! k = Some h -> Holding.ticker h' = Holding.ticker h ->
  map Holding.ticker (<[k := h']> l) = map Holding.ticker l.
Proof.
  intros Hl Heq.
  rewrite <- (take_drop_middle l k h Hl) at 2.
  rewrite insert_take_drop by (by eapply lookup_lt_Some).
  by rewrite !map_app, !map_cons, Heq.
Qed.

(** A trade keeps the tickers of the holdings distinct. *)
Lemma executeTrade_unique_tickers env st type ticker price shares st' :
  NoDup (map Holding.ticker (Portfolio.holdings (AppState.portfolio st))) ->
  App.executeTrade env st type ticker price shares = Committed st' ->
  NoDup (map Holding.ticker (Portfolio.holdings (AppState.portfolio st'))).
Proof.
  intros Hnd Hrun. apply executeTrade_committed in Hrun.
  destruct Hrun as (_ & _ & _ & _ & _ & _ & _ & Hcase). destruct type.
  - destruct Hcase as (_ & _ & Hcase).
    destruct (App.position (AppState.portfolio st) ticker) as [h|] eqn:Hfind.
    + destruct Hcase as (k & Hl & _ & ->). by erewrite map_ticker_insert.
    + rewrite Hcase, map_app. cbn.
      apply NoDup_app. split; [done |]. split; [| apply NoDup_singleton].
      intros t Ht Hin. apply list_elem_of_singleton in Hin as ->.
      apply list_elem_of_In, in_map_iff in Ht as (x & Hx & Hin).
      apply find_none_iff in Hfind.
      eapply List.Forall_forall in Hfind; [| exact Hin].
      by apply hasTicker_false in Hfind.
  - destruct Hcase as (_ & k & h & _ & Hl & _ & _ & Hcase). cbn in Hcase.
    destruct (Holding.shares h - shares === 0); rewrite Hcase.
    + rewrite delete_take_drop.
      rewrite <- (take_drop_middle _ k h Hl), map_app, map_cons in Hnd.
      rewrite map_app. apply NoDup_app in Hnd as (H1 & H2 & H3).
      apply NoDup_cons in H3 as [_ H3].
      apply NoDup_app. repeat split; [done | | done].
      intros t Ht Hin. apply (H2 t Ht). by right.
    + by erewrite map_ticker_insert.
Qed.

(** X4. Every state of a session that started fresh has one holding per
    ticker, whatever trades and forecasts were made. *)
Lemma session_unique_tickers localeTime st :
  rtc App.step (App.initialState localeTime) st ->
  NoDup (map Holding.ticker (Portfolio.holdings (AppState.portfolio st))).
Proof.
  revert st. apply rtc_ind_r.
  - cbn. apply NoDup_nil_2.
  - intros st next _ Hstep IH.
    destruct Hstep as [env st type ticker price shares | st | [result | reason] st]; try exact IH.
    destruct (App.executeTrade env st type ticker price shares) as [| | |st'] eqn:Hrun;
      cbn; try exact IH.
    by eapply executeTrade_unique_tickers.
Qed.

(** ** Claims about SELL *)

(** C6, as the code has it.  A SELL of a ticker that is not held and a
    SELL of more shares than are held are both turned down, with one and
    the same notice, [Not enough shares!], and the component state is
    what it was. *)
Theorem sell_rejected env st ticker price shares :
  (shares <=? 0) = false ->
  App.position (AppState.portfolio st) ticker = None \/
  (exists h, App.position (AppState.portfolio st) ticker = Some h /\
             (Holding.shares h <? shares) = true) ->
  App.executeTrade env st SELL ticker price shares = Alerted "Not enough shares!" /\
  App.stateAfter st (App.executeTrade env st SELL ticker price shares) = st.
Proof.
  intros Hpos [Hnone | (h & Hsome & Hshort)].
  - by rewrite sell_not_held.
  - by erewrite sell_short.
Qed.

(** C7. A SELL that goes through credits [price * shares] to the cash and
    takes the sold amount off the holding; when what is left is exactly 0,
    the holding is taken out of the array.  With one holding per ticker,
    no record of the ticker is left then, and a further SELL of that
    ticker is turned down as for a ticker that is not held, without a
    change of state. *)
Theorem sell_decrements_and_closes env st ticker price shares st' :
  App.executeTrade env st SELL ticker price shares = Committed st' ->
  let p := AppState.portfolio st in
  let p' := AppState.portfolio st' in
  exists (k : nat) h,
    App.position p ticker = Some h /\
    Portfolio.holdings p !! k = Some h /\
    Portfolio.cash p' = Portfolio.cash p + price * shares /\
    let remaining := Holding.shares h - shares in
    (if remaining === 0
     then Portfolio.holdings p' = delete k (Portfolio.holdings p)
     else Portfolio.holdings p' =
            <[ k := {| Holding.ticker := Holding.ticker h;
                       Holding.shares := remaining;
                       Holding.avgCost := Holding.avgCost h;
                       Holding.currentPrice := Holding.currentPrice h |} ]>
              (Portfolio.holdings p)) /\
    ((remaining === 0) = true ->
     NoDup (map Holding.ticker (Portfolio.holdings p)) ->
     Forall (fun x => Holding.ticker x <> ticker) (Portfolio.holdings p') /\
     App.position p' ticker = None /\
     forall env' price' shares',
       (shares' <=? 0) = false ->
       App.executeTrade env' st' SELL ticker price' shares' = Alerted "Not enough shares!" /\
       App.stateAfter st' (App.executeTrade env' st' SELL ticker price' shares') = st').
Proof.
  intros Hrun p p'. apply executeTrade_committed in Hrun.
  destruct Hrun as (_ & _ & _ & _ & _ & _ & _ & Hcash & k & h & Hfind & Hl & Hpre & _ & Hhold).
  fold p p' in Hcash, Hfind, Hl, Hhold. cbn in Hhold.
  exists k, h. split; [done |]. split; [done |]. split; [done |]. split.
  - cbn. by destruct (Holding.shares h - shares === 0).
  - intros Hzero Hnd. cbn in Hzero. rewrite Hzero in Hhold.
    assert (Hname : Holding.ticker h = ticker).
    { apply findIndex_found in Hfind as (_ & _ & _ & Hp & _). by apply hasTicker_true. }
    assert (Hgone : Forall (fun x => Holding.ticker x <> ticker) (Portfolio.holdings p')).
    { rewrite Hhold, <- Hname. by apply unique_ticker_delete. }
    assert (Hnone : App.position p' ticker = None).
    { apply find_none_iff. eapply Forall_impl; [exact Hgone |].
      intros x Hx. by apply hasTicker_false. }
    repeat split; try done.
    + by rewrite sell_not_held.
    + by rewrite sell_not_held.
Qed.

(** The position in [ticker] after an update of the first holding of that
    ticker. *)
Lemma position_insert (hs : list (Holding.t num)) ticker k h h' :
  hs !! k = Some h ->
  Forall (fun x => App.hasTicker ticker x = false) (take k hs) ->
  Holding.ticker h' = ticker ->
  JS.find (App.hasTicker ticker) (<[ k := h' ]> hs) = Some h'.
Proof.
  intros Hl Hpre Hname. apply (find_split _ _ k).
  - apply list_lookup_insert_eq. by eapply lookup_lt_Some.
  - by apply hasTicker_true.
  - by rewrite take_insert_ge.
Qed.

(** What a BUY that goes through does to the cash and to the holdings. *)
Lemma buy_merges_or_inserts env st ticker price shares st' :
  App.executeTrade env st BUY ticker price shares = Committed st' ->
  let p := AppState.portfolio st in
  let p' := AppState.portfolio st' in
  Portfolio.cash p' = Portfolio.cash p - price * shares /\
  match App.position p ticker with
  | Some h =>
      let merged :=
        {| Holding.ticker := Holding.ticker h;
           Holding.shares := Holding.shares h + shares;
           Holding.avgCost :=
             ((Holding.shares h * Holding.avgCost h) + (shares * price))
             / (Holding.shares h + shares);
           Holding.currentPrice := price |} in
      (exists k : nat,
          Portfolio.holdings p !! k = Some h /\
          Portfolio.holdings p' = <[ k := merged ]> (Portfolio.holdings p)) /\
      App.position p' ticker = Some merged
  | None =>
      let inserted :=
        {| Holding.ticker := ticker;
           Holding.shares := shares;
           Holding.avgCost := price;
           Holding.currentPrice := price |} in
      Portfolio.holdings p' = Portfolio.holdings p ++ [inserted] /\
      App.position p' ticker = Some inserted
  end.
Proof.
  intros Hrun p p'. apply executeTrade_committed in Hrun.
  destruct Hrun as (_ & _ & _ & _ & _ & _ & _ & _ & Hcash & Hcase).
  fold p p' in Hcash, Hcase. split; [exact Hcash |].
  destruct (App.position p ticker) as [h|] eqn:Hfind.
  - destruct Hcase as (k & Hl & Hpre & Hhold). cbn. split; [by exists k |].
    unfold App.position. rewrite Hhold. eapply position_insert; [done | done |].
    apply findIndex_found in Hfind as (_ & _ & _ & Hp & _). by apply hasTicker_true.
  - cbn. split; [exact Hcase |].
    unfold App.position. rewrite Hcase, find_app_miss by exact Hfind.
    cbn. unfold App.hasTicker. cbn. by rewrite String.eqb_refl.
Qed.

Section Lawful.
Context `{!NumberLaws num}.

(** C10. A SELL of less than what is held goes through without touching
    [avgCost] and [currentPrice] of the holding: only its shares change.
    The snapshot of that trade therefore counts the shares that are left
    at the mark the holding had before the trade; the price of the sale
    enters the recorded value through the cash alone. *)
Theorem partial_sell_keeps_cost_and_mark env st ticker price shares st' h :
  App.position (AppState.portfolio st) ticker = Some h ->
  (shares <? Holding.shares h) = true ->
  App.executeTrade env st SELL ticker price shares = Committed st' ->
  let p := AppState.portfolio st in
  let p' := AppState.portfolio st' in
  let value := fun sum x => sum + (Holding.shares x * Holding.currentPrice x) in
  exists (k : nat) h' snapshot,
    Portfolio.holdings p !! k = Some h /\
    Portfolio.holdings p' = <[ k := h' ]> (Portfolio.holdings p) /\
    App.position p' ticker = Some h' /\
    Holding.shares h' = Holding.shares h - shares /\
    Holding.avgCost h' = Holding.avgCost h /\
    Holding.currentPrice h' = Holding.currentPrice h /\
    last (Portfolio.history p') = Some snapshot /\
    Snapshot.totalValue snapshot =
      (Portfolio.cash p + price * shares)
      + JS.reduce value
          (JS.reduce value 0 (take k (Portfolio.holdings p))
           + ((Holding.shares h - shares) * Holding.currentPrice h))
          (drop (S k) (Portfolio.holdings p)).
Proof.
  intros Hfind Hpart Hrun p p' value. apply executeTrade_committed in Hrun.
  destruct Hrun as (_ & _ & _ & _ & _ & _ & Hhist & Hcash & k & h0 & Hfind' & Hl & Hpre & _ & Hhold).
  fold p p' in Hhist, Hcash, Hfind', Hl, Hpre, Hhold.
  assert (h0 = h) as -> by (unfold p in *; congruence).
  cbn in Hhold. rewrite (num_sub_lt_nonzero _ _ Hpart) in Hhold.
  assert (Hname : Holding.ticker h = ticker).
  { apply findIndex_found in Hfind as (_ & _ & _ & Hp & _). by apply hasTicker_true. }
  exists k,
    {| Holding.ticker := Holding.ticker h;
       Holding.shares := Holding.shares h - shares;
       Holding.avgCost := Holding.avgCost h;
       Holding.currentPrice := Holding.currentPrice h |},
    (snapshotOf env (Portfolio.cash p') (Portfolio.holdings p')).
  split; [exact Hl |]. split; [exact Hhold |].
  split; [unfold App.position; rewrite Hhold; by eapply position_insert |].
  do 3 (split; [reflexivity |]). split.
  - rewrite Hhist. apply last_snoc.
  - cbn. rewrite Hcash, Hhold. f_equal.
    erewrite (reduce_middle _ _ (<[ k := _ ]> (Portfolio.holdings p)) k).
    2:{ apply list_lookup_insert_eq. by eapply lookup_lt_Some. }
    by rewrite take_insert_ge, drop_insert_lt by lia.
Qed.

End Lawful.

End LedgerFacts.

(* ===================================================================== *)
(** * The forecast: what a prediction refresh does to the history *)
(* ===================================================================== *)

Section ForecastFacts.
Context {num : Type}.
Implicit Types (st : AppState.t num) (result : PredictionResponse.t num).

Lemma tagPredictions_all_predicted (predictions : list (Prediction.t num)) :
  Forall (fun s => Snapshot.isPrediction s = Some true) (App.tagPredictions predictions).
Proof.
  unfold App.tagPredictions. apply List.Forall_forall. intros s Hs.
  apply in_map_iff in Hs as (p & <- & _). reflexivity.
Qed.

Lemma actuals_tagPredictions (predictions : list (Prediction.t num)) :
  App.actuals (App.tagPredictions predictions) = [].
Proof.
  apply actuals_of_predicted.
  eapply Forall_impl; [apply tagPredictions_all_predicted |].
  intros s Hs. cbn in Hs. by rewrite Hs.
Qed.

Lemma settle_history result st :
  Portfolio.history (AppState.portfolio (App.fetchPrediction_settle (JS.Resolved result) st)) =
  App.actuals (Portfolio.history (AppState.portfolio st)) ++
  App.tagPredictions (PredictionResponse.predictions result).
Proof. reflexivity. Qed.

Lemma settle_actuals result st :
  App.actuals
    (Portfolio.history (AppState.portfolio (App.fetchPrediction_settle (JS.Resolved result) st))) =
  App.actuals (Portfolio.history (AppState.portfolio st)).
Proof.
  by rewrite settle_history, actuals_app, actuals_idempotent, actuals_tagPredictions, app_nil_r.
Qed.

(** C5. Folding a prediction response into the history drops every
    snapshot flagged [isPrediction] and appends the predictions received,
    in their order, each flagged [isPrediction]; the actual snapshots stay
    as they are.  After two refreshes of seven points each the history
    holds the actual snapshots and seven predictions, those of the second
    refresh. *)
Theorem prediction_refresh_replaces :
  (forall result st,
      let history := Portfolio.history (AppState.portfolio st) in
      let history' :=
        Portfolio.history
          (AppState.portfolio (App.fetchPrediction_settle (JS.Resolved result) st)) in
      let received := PredictionResponse.predictions result in
      history' = App.actuals history ++ App.tagPredictions received /\
      Forall (fun s => Snapshot.isPrediction s = Some true) (App.tagPredictions received) /\
      map (fun s => (Snapshot.timestamp s, Snapshot.totalValue s)) (App.tagPredictions received) =
        map (fun p => (Prediction.timestamp p, Prediction.totalValue p)) received /\
      App.actuals history' = App.actuals history) /\
  (forall first second st,
      length (PredictionResponse.predictions first) = 7%nat ->
      length (PredictionResponse.predictions second) = 7%nat ->
      let history := Portfolio.history (AppState.portfolio st) in
      let history'' :=
        Portfolio.history
          (AppState.portfolio
             (App.fetchPrediction_settle (JS.Resolved second)
                (App.fetchPrediction_settle (JS.Resolved first) st))) in
      let actualCount := length (App.actuals history) in
      length history'' = (actualCount + 7)%nat /\
      length history'' <> (actualCount + 14)%nat /\
      history'' = App.actuals history ++
                  App.tagPredictions (PredictionResponse.predictions second) /\
      App.actuals history'' = App.actuals history).
Proof.
  split.
  - intros result st history history' received. split; [apply settle_history |].
    split; [apply tagPredictions_all_predicted |]. split; [| apply settle_actuals].
    unfold App.tagPredictions. rewrite List.map_map. reflexivity.
  - intros first second st Hfirst Hsecond history history'' actualCount.
    assert (Hhist : history'' = App.actuals history ++
                      App.tagPredictions (PredictionResponse.predictions second)).
    { unfold history''. by rewrite settle_history, settle_actuals. }
    assert (Hlen : length history'' = (actualCount + 7)%nat).
    { rewrite Hhist, length_app. unfold App.tagPredictions.
      by rewrite length_map, Hsecond. }
    split; [exact Hlen |]. split; [lia |]. split; [exact Hhist |].
    unfold history''. by rewrite !settle_actuals.
Qed.

End ForecastFacts.

(* ===================================================================== *)
(** * The advisory gateway: what the service does with an answer *)
(* ===================================================================== *)

Section GatewayFacts.
Context {num : Type}.
Context `{JS.JSON (SearchData.t num)} `{JS.JSON (PredictionData.t num)}
        `{JS.JSON OverviewData.t} `{JS.JSON (DiscoveryData.t num)}
        `{JS.JSON (AnalysisData.t num)}.

(** The policy of the typed reading for an answer whose text cannot be
    parsed: [discoverMicroCaps], [getMarketOverview] and
    [predictPortfolioValue] resolve with an empty payload (no stocks, no
    indices, no predictions) and the sources of the answer, whereas
    [searchStock] and [analyzeStock] reject with an error and return no
    payload. *)
Theorem unparsed_answer_policy (response : GenerateContentResponse.t) :
  let sources := Service.extractSources response in
  (Service.parseText (T := DiscoveryData.t num) response = None ->
   Service.discoverMicroCaps (num := num) (JS.Resolved response) =
     JS.Resolved {| DiscoveryResponse.stocks := [];
                    DiscoveryResponse.sources := sources |}) /\
  (Service.parseText (T := OverviewData.t) response = None ->
   Service.getMarketOverview (JS.Resolved response) =
     JS.Resolved {| MarketOverviewResponse.indices := [];
                    MarketOverviewResponse.sources := sources |}) /\
  (Service.parseText (T := PredictionData.t num) response = None ->
   forall holdings cash,
     Service.predictPortfolioValue (num := num) holdings cash (JS.Resolved response) =
       JS.Resolved {| PredictionResponse.predictions := [];
                      PredictionResponse.rationale :=
                        "Unable to generate forecast at this time.";
                      PredictionResponse.sources := sources |}) /\
  (Service.parseText (T := SearchData.t num) response = None ->
   forall ticker,
     Service.searchStock (num := num) ticker (JS.Resolved response) =
       JS.Rejected ("Failed to find data for ticker: " ++ ticker)) /\
  (Service.parseText (T := AnalysisData.t num) response = None ->
   forall ticker,
     Service.analyzeStock (num := num) ticker (JS.Resolved response) =
       JS.Rejected "Failed to analyze stock data").
Proof.
  intros sources. unfold Service.discoverMicroCaps, Service.getMarketOverview,
    Service.predictPortfolioValue, Service.searchStock, Service.analyzeStock.
  repeat split; intros Hparse; intros; by rewrite Hparse.
Qed.

(** C9, as the code has it.  A prediction request whose answer cannot be
    parsed yields an empty list of predictions with the rationale
    [Unable to generate forecast at this time.], and folding it clears
    the prediction suffix: the history is left with its actual snapshots.
    A request that the provider rejects reaches the [catch] of
    [fetchPrediction] instead, and the history stays as it is. *)
Theorem unparsed_prediction_clears_forecast :
  (forall (response : GenerateContentResponse.t) (st : AppState.t num),
      Service.parseText (T := PredictionData.t num) response = None ->
      let p := AppState.portfolio st in
      let st' := App.fetchPrediction (JS.Resolved response) st in
      Service.predictPortfolioValue (Portfolio.holdings p) (Portfolio.cash p)
          (JS.Resolved response) =
        JS.Resolved {| PredictionResponse.predictions := [];
                       PredictionResponse.rationale :=
                         "Unable to generate forecast at this time.";
                       PredictionResponse.sources := Service.extractSources response |} /\
      Portfolio.history (AppState.portfolio st') = App.actuals (Portfolio.history p) /\
      Forall (fun s => App.truthy (Snapshot.isPrediction s) = false)
             (Portfolio.history (AppState.portfolio st')) /\
      AppState.predictionRationale st' = "Unable to generate forecast at this time.") /\
  (forall (reason : string) (st : AppState.t num),
      let st' := App.fetchPrediction (JS.Rejected reason) st in
      Portfolio.history (AppState.portfolio st') = Portfolio.history (AppState.portfolio st) /\
      AppState.predictionRationale st' = AppState.predictionRationale st).
Proof.
  split.
  - intros response st Hparse p st'.
    assert (Hres : Service.predictPortfolioValue (Portfolio.holdings p) (Portfolio.cash p)
                     (JS.Resolved response) =
                   JS.Resolved {| PredictionResponse.predictions := [];
                                  PredictionResponse.rationale :=
                                    "Unable to generate forecast at this time.";
                                  PredictionResponse.sources :=
                                    Service.extractSources response |}).
    { unfold Service.predictPortfolioValue. by rewrite Hparse. }
    assert (Hhist : Portfolio.history (AppState.portfolio st') =
                    App.actuals (Portfolio.history p)).
    { unfold st', App.fetchPrediction. fold p. rewrite Hres. cbn. apply app_nil_r. }
    split; [exact Hres |]. split; [exact Hhist |]. split.
    + rewrite Hhist. apply actuals_all_actual.
    + unfold st', App.fetchPrediction. fold p. by rewrite Hres.
  - intros reason st st'. by split.
Qed.

End GatewayFacts.

(* ===================================================================== *)
(** * The claims on sample sessions, in binary64 and in exact arithmetic *)
(* ===================================================================== *)

Section Samples.
Local Existing Instance Demo.rejecting.
Local Open Scope float_scope.

(** The session of the specification's end-to-end test, run in binary64:
    100 in cash; BUY 5 at 10; SELL 5 at 12. *)
Example end_to_end :
  let bought := Demo.after Demo.fresh BUY "ABC" 10 5 in
  let sold := Demo.after bought SELL "ABC" 12 5 in
  Portfolio.cash (AppState.portfolio bought) = 50 /\
  Portfolio.holdings (AppState.portfolio bought) =
    [ {| Holding.ticker := "ABC"; Holding.shares := 5;
         Holding.avgCost := 10; Holding.currentPrice := 10 |} ] /\
  map Snapshot.totalValue (Portfolio.history (AppState.portfolio bought)) = [100; 100] /\
  Portfolio.cash (AppState.portfolio sold) = 110 /\
  Portfolio.holdings (AppState.portfolio sold) = [] /\
  map Snapshot.totalValue (Portfolio.history (AppState.portfolio sold)) = [100; 100; 110] /\
  map Transaction.type (AppState.transactions sold) = [SELL; BUY] /\
  App.pnl (AppState.portfolio sold) = 10.
Proof. vm_compute. repeat split; reflexivity. Qed.

(** C2. A BUY that goes through takes [price * shares] off the cash.  For
    a ticker that is held, the holding becomes the merged one: the shares
    added up, the average cost weighted by the shares, the current price
    set to the price paid.  For a ticker that is not held, a holding with
    [avgCost = price] is pushed.  In binary64: ten more shares at 7 on top
    of ten shares at an average cost of 5 give 20 shares at 6. *)
Theorem buy_cost_basis :
  (forall (num : Type) (N : Number num) env (st st' : AppState.t num) ticker price shares,
      App.executeTrade env st BUY ticker price shares = Committed st' ->
      let p := AppState.portfolio st in
      let p' := AppState.portfolio st' in
      Portfolio.cash p' = (Portfolio.cash p - price * shares)%num /\
      match App.position p ticker with
      | Some h =>
          let merged :=
            {| Holding.ticker := Holding.ticker h;
               Holding.shares := (Holding.shares h + shares)%num;
               Holding.avgCost :=
                 (((Holding.shares h * Holding.avgCost h) + (shares * price))
                  / (Holding.shares h + shares))%num;
               Holding.currentPrice := price |} in
          (exists k : nat,
              Portfolio.holdings p !! k = Some h /\
              Portfolio.holdings p' = <[ k := merged ]> (Portfolio.holdings p)) /\
          App.position p' ticker = Some merged
      | None =>
          let inserted :=
            {| Holding.ticker := ticker;
               Holding.shares := shares;
               Holding.avgCost := price;
               Holding.currentPrice := price |} in
          Portfolio.holdings p' = Portfolio.holdings p ++ [inserted] /\
          App.position p' ticker = Some inserted
      end) /\
  (forall env (st st' : AppState.t float) ticker h,
      App.position (AppState.portfolio st) ticker = Some h ->
      Holding.shares h = 10 ->
      Holding.avgCost h = 5 ->
      App.executeTrade env st BUY ticker 7 10 = Committed st' ->
      exists h',
        App.position (AppState.portfolio st') ticker = Some h' /\
        Holding.shares h' = 20 /\
        Holding.avgCost h' = 6 /\
        Holding.currentPrice h' = 7).
Proof.
  split.
  - intros num N env st st' ticker price shares Hrun.
    exact (buy_merges_or_inserts env st ticker price shares st' Hrun).
  - intros env st st' ticker h Hheld Hshares Hcost Hrun.
    pose proof (buy_merges_or_inserts env st ticker 7 10 st' Hrun) as [_ Hcase].
    cbn zeta in Hcase. rewrite Hheld in Hcase. destruct Hcase as [_ Hpos].
    eexists. split; [exact Hpos |]. cbn. rewrite Hshares, Hcost.
    repeat split; reflexivity.
Qed.

Lemma buy_cost_basis_witness :
  App.executeTrade Demo.env Demo.tenAtFive BUY "ABC" 7 10 =
    Committed (Demo.after Demo.tenAtFive BUY "ABC" 7 10) /\
  exists h',
    App.position (AppState.portfolio (Demo.after Demo.tenAtFive BUY "ABC" 7 10)) "ABC" = Some h' /\
    Holding.shares h' = 20 /\ Holding.avgCost h' = 6 /\ Holding.currentPrice h' = 7.
Proof.
  split; [vm_compute; reflexivity |].
  apply (proj2 buy_cost_basis Demo.env Demo.tenAtFive _ "ABC"
           {| Holding.ticker := "ABC"; Holding.shares := 10;
              Holding.avgCost := 5; Holding.currentPrice := 5 |});
    vm_compute; reflexivity.
Defined.

Lemma executeTrade_snapshot_conservation_witness :
  App.executeTrade Demo.env Demo.fresh BUY "ABC" 10 5 =
    Committed (Demo.after Demo.fresh BUY "ABC" 10 5) /\
  exists snapshot : Snapshot.t float,
    Portfolio.history (AppState.portfolio (Demo.after Demo.fresh BUY "ABC" 10 5)) =
      App.actuals (Portfolio.history (AppState.portfolio Demo.fresh)) ++ [snapshot] /\
    Snapshot.isPrediction snapshot = None /\
    Snapshot.totalValue snapshot =
      App.totalValue (AppState.portfolio (Demo.after Demo.fresh BUY "ABC" 10 5)).
Proof.
  split; [vm_compute; reflexivity |].
  destruct (executeTrade_snapshot_conservation Demo.env Demo.fresh BUY "ABC" 10 5
              (Demo.after Demo.fresh BUY "ABC" 10 5))
    as (snapshot & Hhist & Hflag & Hvalue & _); [vm_compute; reflexivity |].
  exists snapshot. repeat split; assumption.
Defined.

Lemma buy_insufficient_funds_witness :
  (6 <=? 0) = false /\
  (Portfolio.cash (AppState.portfolio Demo.holdingABC) <? 12 * 6) = true /\
  App.executeTrade Demo.env Demo.holdingABC BUY "XYZ" 12 6 = Alerted "Insufficient cash!" /\
  App.stateAfter Demo.holdingABC (App.executeTrade Demo.env Demo.holdingABC BUY "XYZ" 12 6) =
    Demo.holdingABC.
Proof.
  split; [reflexivity |]. split; [reflexivity |].
  apply (buy_insufficient_funds Demo.env Demo.holdingABC "XYZ" 12 6); reflexivity.
Defined.

Lemma trade_invalidates_forecast_witness :
  App.executeTrade Demo.env Demo.withForecast SELL "ABC" 12 2 =
    Committed (Demo.after Demo.withForecast SELL "ABC" 12 2) /\
  exists snapshot : Snapshot.t float,
    App.truthy (Snapshot.isPrediction snapshot) = false /\
    Portfolio.history (AppState.portfolio (Demo.after Demo.withForecast SELL "ABC" 12 2)) =
      Portfolio.history (AppState.portfolio Demo.holdingABC) ++ [snapshot].
Proof.
  split; [vm_compute; reflexivity |].
  destruct (trade_invalidates_forecast Demo.env Demo.withForecast SELL "ABC" 12 2
              (Demo.after Demo.withForecast SELL "ABC" 12 2))
    as (snapshot & Hflag & _ & _ & _ & Hsuffix); [vm_compute; reflexivity |].
  exists snapshot. split; [exact Hflag |].
  apply (Hsuffix _ (drop 2 (Portfolio.history (AppState.portfolio Demo.withForecast)))).
  - reflexivity.
  - repeat constructor.
  - repeat constructor.
Defined.

Lemma prediction_refresh_replaces_witness :
  length (PredictionResponse.predictions (Demo.forecast 100)) = 7%nat /\
  length (PredictionResponse.predictions (Demo.forecast 104)) = 7%nat /\
  let history := Portfolio.history (AppState.portfolio Demo.withForecast) in
  let history'' :=
    Portfolio.history
      (AppState.portfolio
         (App.fetchPrediction_settle (JS.Resolved (Demo.forecast 104))
            (App.fetchPrediction_settle (JS.Resolved (Demo.forecast 100)) Demo.withForecast))) in
  length (App.actuals history) = 2%nat /\
  length history'' = (2 + 7)%nat /\
  App.actuals history'' = App.actuals history.
Proof.
  split; [reflexivity |]. split; [reflexivity |]. intros history history''.
  destruct (proj2 (prediction_refresh_replaces (num := float))
              (Demo.forecast 100) (Demo.forecast 104) Demo.withForecast eq_refl eq_refl)
    as (Hlen & _ & _ & Hkept).
  split; [reflexivity |]. split; [exact Hlen | exact Hkept].
Defined.

(** C6, refuted as stated: on the sample session a SELL of a ticker that
    is not held and a SELL of more than is held end with the same notice,
    so no two distinct errors tell the two cases apart. *)
Lemma sell_errors_not_distinct :
  App.position (AppState.portfolio Demo.holdingABC) "XYZ" = None /\
  App.executeTrade Demo.env Demo.holdingABC SELL "XYZ" 12 6 = Alerted "Not enough shares!" /\
  (exists h, App.position (AppState.portfolio Demo.holdingABC) "ABC" = Some h /\
             Holding.shares h = 5) /\
  App.executeTrade Demo.env Demo.holdingABC SELL "ABC" 12 6 = Alerted "Not enough shares!" /\
  ~ Stated.sell_errors_distinct (num := float).
Proof.
  split; [reflexivity |]. split; [reflexivity |].
  split; [eexists; split; reflexivity |]. split; [reflexivity |].
  intros (noPosition & insufficientShares & Hdistinct & Hnone & Hshort).
  specialize (Hnone Demo.env Demo.holdingABC "XYZ" 12 6 eq_refl eq_refl).
  specialize (Hshort Demo.env Demo.holdingABC "ABC" 12 6 _ eq_refl eq_refl eq_refl).
  vm_compute in Hnone, Hshort. congruence.
Qed.

Lemma sell_rejected_witness :
  (6 <=? 0) = false /\
  (exists h, App.position (AppState.portfolio Demo.holdingABC) "ABC" = Some h /\
             (Holding.shares h <? 6) = true) /\
  App.executeTrade Demo.env Demo.holdingABC SELL "ABC" 12 6 = Alerted "Not enough shares!" /\
  App.stateAfter Demo.holdingABC (App.executeTrade Demo.env Demo.holdingABC SELL "ABC" 12 6) =
    Demo.holdingABC.
Proof.
  assert (Hheld : exists h, App.position (AppState.portfolio Demo.holdingABC) "ABC" = Some h /\
                            (Holding.shares h <? 6) = true).
  { eexists. split; reflexivity. }
  split; [reflexivity |]. split; [exact Hheld |].
  apply (sell_rejected Demo.env Demo.holdingABC "ABC" 12 6); [reflexivity |].
  right. exact Hheld.
Defined.

Lemma sell_decrements_and_closes_witness :
  App.executeTrade Demo.env Demo.holdingABC SELL "ABC" 12 5 =
    Committed (Demo.after Demo.holdingABC SELL "ABC" 12 5) /\
  Portfolio.cash (AppState.portfolio (Demo.after Demo.holdingABC SELL "ABC" 12 5)) = 110 /\
  Portfolio.holdings (AppState.portfolio (Demo.after Demo.holdingABC SELL "ABC" 12 5)) = [] /\
  App.executeTrade Demo.env (Demo.after Demo.holdingABC SELL "ABC" 12 5) SELL "ABC" 12 1 =
    Alerted "Not enough shares!".
Proof.
  split; [vm_compute; reflexivity |].
  destruct (sell_decrements_and_closes Demo.env Demo.holdingABC "ABC" 12 5
              (Demo.after Demo.holdingABC SELL "ABC" 12 5))
    as (k & h & Hheld & Hk & Hcash & Hhold & Hclose); [vm_compute; reflexivity |].
  split; [reflexivity |]. split; [reflexivity |].
  assert (Hh : h = {| Holding.ticker := "ABC"; Holding.shares := 5;
                      Holding.avgCost := 10; Holding.currentPrice := 10 |}).
  { vm_compute in Hheld. congruence. }
  subst h.
  assert (Hunique : NoDup (map Holding.ticker
                             (Portfolio.holdings (AppState.portfolio Demo.holdingABC)))).
  { cbn. apply NoDup_singleton. }
  destruct (Hclose eq_refl Hunique) as (_ & _ & Hnext).
  apply (Hnext Demo.env 12 1). reflexivity.
Defined.

Lemma unparsed_answer_policy_witness :
  Service.parseText (T := DiscoveryData.t float) Demo.outage = None /\
  Service.discoverMicroCaps (num := float) (JS.Resolved Demo.outage) =
    JS.Resolved
      {| DiscoveryResponse.stocks := [];
         DiscoveryResponse.sources :=
           [ {| Source.title := "Source"; Source.uri := Some "https://example.com/status" |} ] |} /\
  Service.analyzeStock (num := float) "ABC" (JS.Resolved Demo.outage) =
    JS.Rejected "Failed to analyze stock data" /\
  Service.searchStock (num := float) "ABC" (JS.Resolved Demo.outage) =
    JS.Rejected "Failed to find data for ticker: ABC".
Proof.
  destruct (unparsed_answer_policy (num := float) Demo.outage)
    as (Hdiscover & _ & _ & Hsearch & Hanalyze).
  split; [reflexivity |]. split; [exact (Hdiscover eq_refl) |].
  split; [exact (Hanalyze eq_refl "ABC") | exact (Hsearch eq_refl "ABC")].
Defined.

(** C9, refuted as stated: a request that the provider rejects has
    failed, and the sample history keeps its forecast. *)
Lemma rejected_request_keeps_forecast :
  let st' := App.fetchPrediction (JS.Rejected "Failed to fetch") Demo.withForecast in
  Stated.predictionFails (num := float) (JS.Rejected "Failed to fetch") /\
  Portfolio.history (AppState.portfolio st') =
    Portfolio.history (AppState.portfolio Demo.withForecast) /\
  length (Portfolio.history (AppState.portfolio st')) = 4%nat /\
  length (App.actuals (Portfolio.history (AppState.portfolio Demo.withForecast))) = 2%nat /\
  ~ Stated.failed_prediction_clears (num := float).
Proof.
  intros st'. split; [exact I |]. split; [reflexivity |].
  split; [reflexivity |]. split; [reflexivity |].
  intros Hclaim.
  specialize (Hclaim (JS.Rejected "Failed to fetch") Demo.withForecast I).
  apply (f_equal length) in Hclaim. vm_compute in Hclaim. discriminate.
Qed.

Lemma unparsed_prediction_clears_forecast_witness :
  Service.parseText (T := PredictionData.t float) Demo.outage = None /\
  Portfolio.history
    (AppState.portfolio (App.fetchPrediction (JS.Resolved Demo.outage) Demo.withForecast)) =
    Portfolio.history (AppState.portfolio Demo.holdingABC) /\
  AppState.predictionRationale (App.fetchPrediction (JS.Resolved Demo.outage) Demo.withForecast) =
    "Unable to generate forecast at this time.".
Proof.
  destruct (proj1 (unparsed_prediction_clears_forecast (num := float))
              Demo.outage Demo.withForecast eq_refl)
    as (_ & Hhist & _ & Hrationale).
  split; [reflexivity |]. split; [exact Hhist | exact Hrationale].
Defined.

Lemma partial_sell_keeps_cost_and_mark_witness :
  App.position (AppState.portfolio Demo.holdingABC) "ABC" =
    Some {| Holding.ticker := "ABC"; Holding.shares := 5;
            Holding.avgCost := 10; Holding.currentPrice := 10 |} /\
  (2 <? 5) = true /\
  App.executeTrade Demo.env Demo.holdingABC SELL "ABC" 12 2 =
    Committed (Demo.after Demo.holdingABC SELL "ABC" 12 2) /\
  exists h' snapshot,
    App.position (AppState.portfolio (Demo.after Demo.holdingABC SELL "ABC" 12 2)) "ABC" =
      Some h' /\
    Holding.shares h' = 3 /\
    Holding.avgCost h' = 10 /\
    Holding.currentPrice h' = 10 /\
    last (Portfolio.history (AppState.portfolio (Demo.after Demo.holdingABC SELL "ABC" 12 2))) =
      Some snapshot /\
    Snapshot.totalValue snapshot = 104.
Proof.
  split; [reflexivity |]. split; [reflexivity |]. split; [vm_compute; reflexivity |].
  pose proof (partial_sell_keeps_cost_and_mark Demo.env Demo.holdingABC "ABC" 12 2
                (Demo.after Demo.holdingABC SELL "ABC" 12 2)
                {| Holding.ticker := "ABC"; Holding.shares := 5;
                   Holding.avgCost := 10; Holding.currentPrice := 10 |}) as Hsale.
  destruct (Hsale eq_refl eq_refl eq_refl)
    as (k & h' & snapshot & Hk & _ & Hpos & Hshares & Hcost & Hmark & Hlast & Hvalue).
  exists h', snapshot. split; [exact Hpos |]. split; [exact Hshares |].
  split; [exact Hcost |]. split; [exact Hmark |]. split; [exact Hlast |].
  destruct k as [|k]; [| discriminate Hk].
  rewrite Hvalue. reflexivity.
Defined.

End Samples.

(* ===================================================================== *)
(** * More about the ledger: other positions, sessions, forecasts *)
(* ===================================================================== *)

Section LedgerMore.
Context {num : Type} `{Number num}.
Local Open Scope num_scope.
Implicit Types (st : AppState.t num) (h : Holding.t num) (env : Env.t).

Lemma find_insert_other {A} (p : A -> bool) (l : list A) k x x' :
  l !! k = Some x -> p x = false -> p x' = false ->
  JS.find p (<[ k := x' ]> l) = JS.find p l.
Proof.
  revert k. induction l as [|y rest IH]; intros [|k] Hl Hx Hx'; cbn in *; try done.
  - injection Hl as ->. by rewrite Hx, Hx'.
  - destruct (p y); [done |]. by apply IH.
Qed.

Lemma find_delete_other {A} (p : A -> bool) (l : list A) k x :
  l !! k = Some x -> p x = false ->
  JS.find p (delete k l) = JS.find p l.
Proof.
  revert k. induction l as [|y rest IH]; intros [|k] Hl Hx; cbn in *; try done.
  - injection Hl as ->. by rewrite Hx.
  - destruct (p y); [done |]. by apply IH.
Qed.

Lemma find_push_other {A} (p : A -> bool) (l : list A) x :
  p x = false -> JS.find p (l ++ [x]) = JS.find p l.
Proof.
  intros Hx. induction l as [|y rest IH]; cbn; [by rewrite Hx |].
  destruct (p y); [done | exact IH].
Qed.

(** X1. The guards of [executeTrade], read as the exact condition for a
    trade to go through.  A BUY goes through exactly when [shares <= 0]
    and [cash < price * shares] are both false; a SELL exactly when
    [shares <= 0] is false and the ticker is held with
    [held.shares < shares] false. *)
Theorem trade_goes_through_iff env st ticker price shares :
  ((exists st', App.executeTrade env st BUY ticker price shares = Committed st') <->
   (shares <=? 0) = false /\
   (Portfolio.cash (AppState.portfolio st) <? price * shares) = false) /\
  ((exists st', App.executeTrade env st SELL ticker price shares = Committed st') <->
   (shares <=? 0) = false /\
   exists h, App.position (AppState.portfolio st) ticker = Some h /\
             (Holding.shares h <? shares) = false).
Proof.
  split; split.
  - intros [st' Hrun]. apply executeTrade_committed in Hrun.
    destruct Hrun as (Hpos & _ & _ & _ & _ & _ & _ & Hcash & _). done.
  - intros [Hpos Hcash]. by apply buy_goes_through.
  - intros [st' Hrun]. apply executeTrade_committed in Hrun.
    destruct Hrun as (Hpos & _ & _ & _ & _ & _ & _ & _ & k & h & Hfind & _ & _ & Hshort & _).
    split; [done |]. by exists h.
  - intros [Hpos (h & Hfind & Hshort)]. by eapply sell_goes_through.
Qed.

(** X2. A trade that goes through leaves the position of every other
    ticker as it was: the first holding found for another ticker is the
    same record before and after. *)
Theorem trade_keeps_other_positions env st type ticker price shares st' other :
  App.executeTrade env st type ticker price shares = Committed st' ->
  other <> ticker ->
  App.position (AppState.portfolio st') other = App.position (AppState.portfolio st) other.
Proof.
  intros Hrun Hother. apply executeTrade_committed in Hrun.
  destruct Hrun as (_ & _ & _ & _ & _ & _ & _ & Hcase).
  unfold App.position in *. destruct type.
  - destruct Hcase as (_ & _ & Hcase).
    destruct (JS.find (App.hasTicker ticker) _) as [h|] eqn:Hfind.
    + destruct Hcase as (k & Hl & _ & ->).
      apply findIndex_found in Hfind as (_ & _ & _ & Hp & _).
      apply hasTicker_true in Hp.
      apply (find_insert_other _ _ k h); [done | |]; apply hasTicker_false; cbn; congruence.
    + rewrite Hcase. apply find_push_other. apply hasTicker_false. cbn. congruence.
  - destruct Hcase as (_ & k & h & Hfind & Hl & _ & _ & Hhold). cbn in Hhold.
    apply findIndex_found in Hfind as (_ & _ & _ & Hp & _).
    apply hasTicker_true in Hp.
    destruct (_ === _); rewrite Hhold.
    + apply (find_delete_other _ _ k h); [done |]. apply hasTicker_false. congruence.
    + apply (find_insert_other _ _ k h); [done | |]; apply hasTicker_false; cbn; congruence.
Qed.

(** One step of a session, as far as the log and the history go. *)
Lemma step_log_and_actuals st st' :
  App.step st st' ->
  exists newer appended,
    AppState.transactions st' = newer ++ AppState.transactions st /\
    App.actuals (Portfolio.history (AppState.portfolio st')) =
      App.actuals (Portfolio.history (AppState.portfolio st)) ++ appended /\
    length newer = length appended.
Proof.
  intros [env st0 type ticker price shares | st0 | [result | reason] st0].
  - destruct (App.executeTrade env st0 type ticker price shares) as [| | |next] eqn:Hrun;
      cbn; try (exists [], []; by rewrite ?app_nil_r).
    apply executeTrade_committed in Hrun.
    destruct Hrun as (_ & Hlog & _ & _ & _ & _ & Hhist & _).
    eexists [_], [_]. split; [exact Hlog |]. split; [| done].
    by rewrite Hhist, actuals_app, actuals_idempotent.
  - exists [], []. by rewrite app_nil_r.
  - exists [], []. split; [done |]. split; [| done].
    by rewrite settle_actuals, app_nil_r.
  - exists [], []. by rewrite app_nil_r.
Qed.

(** X5. The transaction log only grows at its front: whatever trades and
    forecasts follow, the log of an earlier state is a suffix of the log
    of a later one. *)
Theorem session_log_append_only st st' :
  rtc App.step st st' ->
  exists newer, AppState.transactions st' = newer ++ AppState.transactions st.
Proof.
  induction 1 as [st | st mid st' Hstep _ (newer & IH)].
  - by exists [].
  - destruct (step_log_and_actuals _ _ Hstep) as (first & _ & Hlog & _).
    exists (newer ++ first). by rewrite IH, Hlog, app_assoc.
Qed.

(** X6. Actual snapshots are permanent: whatever trades and forecasts
    follow, the actual snapshots of an earlier state are a prefix, in
    value and order, of the actual snapshots of a later one. *)
Theorem session_actuals_permanent st st' :
  rtc App.step st st' ->
  exists appended,
    App.actuals (Portfolio.history (AppState.portfolio st')) =
    App.actuals (Portfolio.history (AppState.portfolio st)) ++ appended.
Proof.
  induction 1 as [st | st mid st' Hstep _ (later & IH)].
  - exists []. by rewrite app_nil_r.
  - destruct (step_log_and_actuals _ _ Hstep) as (_ & first & _ & Hact & _).
    exists (first ++ later). by rewrite IH, Hact, app_assoc.
Qed.

(** X7. In every state of a session that started fresh, the history holds
    one actual snapshot per logged transaction, and the opening one. *)
Theorem session_snapshot_per_trade localeTime st :
  rtc App.step (App.initialState localeTime) st ->
  length (App.actuals (Portfolio.history (AppState.portfolio st))) =
  S (length (AppState.transactions st)).
Proof.
  revert st. apply rtc_ind_r; [reflexivity |].
  intros st next _ Hstep IH.
  destruct (step_log_and_actuals _ _ Hstep) as (newer & appended & -> & -> & Hlen).
  rewrite !length_app, IH, Hlen. lia.
Qed.

(** X8. In every state of a session that started fresh, the history is a
    run of actual snapshots followed by a run of snapshots flagged
    [isPrediction: true]: a forecast is never mixed into the record. *)
Theorem session_history_partition localeTime st :
  rtc App.step (App.initialState localeTime) st ->
  exists recorded predicted,
    Portfolio.history (AppState.portfolio st) = recorded ++ predicted /\
    Forall (fun s => App.truthy (Snapshot.isPrediction s) = false) recorded /\
    Forall (fun s => Snapshot.isPrediction s = Some true) predicted.
Proof.
  revert st. apply rtc_ind_r.
  - eexists _, []. rewrite app_nil_r. split; [reflexivity |]. split; by repeat constructor.
  - intros st next _ Hstep IH.
    destruct Hstep as [env st type ticker price shares | st | [result | reason] st]; try exact IH.
    + destruct (App.executeTrade env st type ticker price shares) as [| | |st'] eqn:Hrun;
        cbn; try exact IH.
      apply executeTrade_committed in Hrun.
      destruct Hrun as (_ & _ & _ & _ & _ & _ & Hhist & _).
      eexists _, []. rewrite app_nil_r. split; [exact Hhist |]. split; [| constructor].
      apply Forall_app. split; [apply actuals_all_actual | by repeat constructor].
    + eexists _, _. split; [reflexivity |].
      split; [apply actuals_all_actual | apply tagPredictions_all_predicted].
Qed.

(** What [executeTrade] reads of the state: the cash, the holdings, the
    actual snapshots and the log. *)
Lemma executeTrade_same_ledger env st1 st2 type ticker price shares :
  Portfolio.cash (AppState.portfolio st1) = Portfolio.cash (AppState.portfolio st2) ->
  Portfolio.holdings (AppState.portfolio st1) = Portfolio.holdings (AppState.portfolio st2) ->
  App.actuals (Portfolio.history (AppState.portfolio st1)) =
    App.actuals (Portfolio.history (AppState.portfolio st2)) ->
  AppState.transactions st1 = AppState.transactions st2 ->
  match App.executeTrade env st1 type ticker price shares,
        App.executeTrade env st2 type ticker price shares with
  | Committed next1, Committed next2 =>
      AppState.portfolio next1 = AppState.portfolio next2 /\
      AppState.transactions next1 = AppState.transactions next2
  | Returned, Returned => True
  | Alerted message1, Alerted message2 => message1 = message2
  | TypeError, TypeError => True
  | _, _ => False
  end.
Proof.
  intros Hcash Hhold Hact Hlog. unfold App.executeTrade. cbv zeta.
  rewrite Hcash, Hhold, Hact, Hlog.
  destruct (shares <=? 0); [done |].
  set (hs := Portfolio.holdings (AppState.portfolio st2)).
  set (index := JS.findIndex (App.hasTicker ticker) hs).
  destruct type.
  - destruct (Portfolio.cash (AppState.portfolio st2) <? price * shares); [done |].
    destruct (0 <=? index)%Z; [| done]. by destruct (hs !! Z.to_nat index).
  - destruct (index <? 0)%Z; [done |].
    destruct (hs !! Z.to_nat index) as [h|]; [| done].
    by destruct (Holding.shares h <? shares).
Qed.

(** X9. A forecast on the chart has no say in a trade: the same request
    ends the same way, with the same notice or the same portfolio and
    log, whether or not a forecast request settled just before it. *)
Theorem forecast_does_not_affect_trade result env st type ticker price shares :
  match App.executeTrade env st type ticker price shares,
        App.executeTrade env (App.fetchPrediction_settle result st) type ticker price shares with
  | Committed next1, Committed next2 =>
      AppState.portfolio next1 = AppState.portfolio next2 /\
      AppState.transactions next1 = AppState.transactions next2
  | Returned, Returned => True
  | Alerted message1, Alerted message2 => message1 = message2
  | TypeError, TypeError => True
  | _, _ => False
  end.
Proof.
  apply executeTrade_same_ledger; destruct result as [result | reason]; try reflexivity.
  symmetry. apply settle_actuals.
Qed.

(** X10. [fetchPrediction] never touches the ledger: whatever the
    provider answers, the cash, the holdings, the actual snapshots, the
    log and the analysis on display are as before, and [predicting] is
    back to false. *)
Theorem forecast_leaves_ledger `{JS.JSON (PredictionData.t num)}
    (api : JS.Promise GenerateContentResponse.t) st :
  let st' := App.fetchPrediction api st in
  Portfolio.cash (AppState.portfolio st') = Portfolio.cash (AppState.portfolio st) /\
  Portfolio.holdings (AppState.portfolio st') = Portfolio.holdings (AppState.portfolio st) /\
  App.actuals (Portfolio.history (AppState.portfolio st')) =
    App.actuals (Portfolio.history (AppState.portfolio st)) /\
  AppState.transactions st' = AppState.transactions st /\
  AppState.activeAnalysis st' = AppState.activeAnalysis st /\
  AppState.predicting st' = false.
Proof.
  intros st'. unfold st', App.fetchPrediction.
  destruct (Service.predictPortfolioValue _ _ api) as [result | reason].
  - repeat split; try reflexivity.
    exact (settle_actuals result (App.fetchPrediction_begin st)).
  - repeat split; reflexivity.
Qed.

End LedgerMore.

(* ===================================================================== *)
(** * The ledger in binary64: what the guards let through *)
(* ===================================================================== *)

Section Binary64EdgeFacts.
Import SpecFloat.
Local Open Scope float_scope.

Lemma Prim2SF_nan x : is_nan x = true <-> Prim2SF x = S754_nan.
Proof.
  split.
  - intros Hnan. unfold Prim2SF. by rewrite Hnan.
  - intros Hsf. unfold is_nan. by rewrite FloatAxioms.eqb_spec, Hsf.
Qed.

Lemma SFcompare_refl x : SFcompare x x = None \/ SFcompare x x = Some Eq.
Proof.
  destruct x as [s|s| |s m e]; cbn; auto.
  - destruct s; auto.
  - right. rewrite Z.compare_refl, Pos.compare_cont_refl. by destruct s.
Qed.

Lemma float_lt_irrefl x : (x <? x) = false.
Proof.
  rewrite FloatAxioms.ltb_spec. unfold SFltb.
  by destruct (SFcompare_refl (Prim2SF x)) as [-> | ->].
Qed.

Lemma Prim2SF_finite x :
  is_finite x = true ->
  (exists s, Prim2SF x = S754_zero s) \/ (exists s m e, Prim2SF x = S754_finite s m e).
Proof.
  unfold is_finite. intros Hfin. apply negb_true_iff, orb_false_iff in Hfin as [Hnan Hinf].
  destruct (Prim2SF x) as [s|s| |s m e] eqn:Hsf; eauto.
  - unfold is_infinity in Hinf.
    rewrite FloatAxioms.eqb_spec, FloatAxioms.abs_spec, Hsf in Hinf. discriminate.
  - apply Prim2SF_nan in Hsf. congruence.
Qed.

Lemma float_sub_self x : is_finite x = true -> x - x = 0.
Proof.
  intros Hfin. apply FloatAxioms.Prim2SF_inj. rewrite FloatAxioms.sub_spec.
  destruct (Prim2SF_finite x Hfin) as [[s ->] | (s & m & e & ->)].
  - by destruct s.
  - unfold FloatAxioms.SF64sub. cbn [SFsub]. rewrite Z.sub_diag. reflexivity.
Qed.

Lemma float_sub_nan x y : is_nan y = true -> is_nan (x - y) = true.
Proof.
  intros Hy. apply Prim2SF_nan. apply Prim2SF_nan in Hy.
  rewrite FloatAxioms.sub_spec, Hy. by destruct (Prim2SF x).
Qed.

Lemma float_nan_sub x y : is_nan x = true -> is_nan (x - y) = true.
Proof.
  intros Hx. apply Prim2SF_nan. apply Prim2SF_nan in Hx.
  by rewrite FloatAxioms.sub_spec, Hx.
Qed.

Lemma float_add_nan x y : is_nan x = true -> is_nan (x + y) = true.
Proof.
  intros Hx. apply Prim2SF_nan. apply Prim2SF_nan in Hx.
  by rewrite FloatAxioms.add_spec, Hx.
Qed.

Lemma float_lt_nan_r x y : is_nan y = true -> (x <? y) = false.
Proof.
  intros Hy. apply Prim2SF_nan in Hy.
  rewrite FloatAxioms.ltb_spec, Hy. unfold SFltb. by destruct (Prim2SF x).
Qed.

Lemma float_lt_nan_l x y : is_nan x = true -> (x <? y) = false.
Proof.
  intros Hx. apply Prim2SF_nan in Hx.
  by rewrite FloatAxioms.ltb_spec, Hx.
Qed.

End Binary64EdgeFacts.

Section Binary64Ledger.
Local Open Scope num_scope.
Implicit Types (st : AppState.t float) (h : Holding.t float) (env : Env.t).

(** X11. The exit-all button, in binary64.  With one holding per ticker
    and a finite, positive number of shares held, the button sells the
    whole holding at the price of the analysis on display: the sale goes
    through, the holding is deleted, no position in the ticker is left,
    and the cash grows by [currentPrice * shares]. *)
Theorem exit_all_closes_position env st (analysis : AnalysisResponse.t float) h :
  App.position (AppState.portfolio st) (AnalysisResponse.ticker analysis) = Some h ->
  (Holding.shares h <=? 0) = false ->
  is_finite (Holding.shares h) = true ->
  NoDup (map Holding.ticker (Portfolio.holdings (AppState.portfolio st))) ->
  exists st' (k : nat),
    Buttons.exitAllPositions env st analysis = Committed st' /\
    Portfolio.holdings (AppState.portfolio st) !! k = Some h /\
    Portfolio.holdings (AppState.portfolio st') =
      delete k (Portfolio.holdings (AppState.portfolio st)) /\
    App.position (AppState.portfolio st') (AnalysisResponse.ticker analysis) = None /\
    Portfolio.cash (AppState.portfolio st') =
      Portfolio.cash (AppState.portfolio st)
      + AnalysisResponse.currentPrice analysis * Holding.shares h.
Proof.
  intros Hheld Hpos Hfin Hunique. unfold Buttons.exitAllPositions. rewrite Hheld.
  destruct (sell_goes_through env st (AnalysisResponse.ticker analysis)
              (AnalysisResponse.currentPrice analysis) (Holding.shares h) h Hpos Hheld
              (float_lt_irrefl _)) as [st' Hrun].
  exists st'. pose proof Hrun as Hdone. apply executeTrade_committed in Hdone.
  destruct Hdone as (_ & _ & _ & _ & _ & _ & _ & Hcash & k & h0 & Hheld' & Hk & _ & _ & Hhold).
  assert (h0 = h) as -> by congruence.
  cbn in Hhold. rewrite (float_sub_self _ Hfin) in Hhold. cbn in Hhold.
  exists k. split; [exact Hrun |]. split; [exact Hk |]. split; [exact Hhold |].
  split; [| exact Hcash].
  apply find_none_iff. rewrite Hhold.
  assert (Hname : Holding.ticker h = AnalysisResponse.ticker analysis).
  { apply findIndex_found in Hheld as (_ & _ & _ & Hp & _). by apply hasTicker_true. }
  eapply Forall_impl; [by apply unique_ticker_delete |].
  intros x Hx. apply hasTicker_false. congruence.
Qed.

(** X12. In binary64 a BUY whose cost [price * shares] is exactly the
    cash, a finite amount, goes through and leaves a cash of zero. *)
Theorem buy_with_whole_balance env st ticker price shares :
  (shares <=? 0) = false ->
  is_finite (Portfolio.cash (AppState.portfolio st)) = true ->
  price * shares = Portfolio.cash (AppState.portfolio st) ->
  exists st',
    App.executeTrade env st BUY ticker price shares = Committed st' /\
    Portfolio.cash (AppState.portfolio st') = 0%float.
Proof.
  intros Hpos Hfin Hcost.
  destruct (buy_goes_through env st ticker price shares Hpos) as [st' Hrun].
  { rewrite Hcost. apply float_lt_irrefl. }
  exists st'. split; [exact Hrun |].
  apply executeTrade_committed in Hrun.
  destruct Hrun as (_ & _ & _ & _ & _ & _ & _ & _ & Hcash & _).
  rewrite Hcash, Hcost. by apply float_sub_self.
Qed.

(** X13. In binary64 the guards of BUY do not catch a cost that is not a
    number: when [price * shares] is [NaN] and [shares <= 0] is false
    (as it is for a [NaN] price, and for [NaN] shares), the BUY goes
    through, the cash becomes [NaN], and so does the value of the
    snapshot it appends. *)
Theorem nan_cost_is_not_refused env st ticker price shares :
  is_nan (price * shares) = true ->
  (shares <=? 0) = false ->
  exists st' snapshot,
    App.executeTrade env st BUY ticker price shares = Committed st' /\
    is_nan (Portfolio.cash (AppState.portfolio st')) = true /\
    last (Portfolio.history (AppState.portfolio st')) = Some snapshot /\
    is_nan (Snapshot.totalValue snapshot) = true.
Proof.
  intros Hcost Hpos.
  destruct (buy_goes_through env st ticker price shares Hpos) as [st' Hrun].
  { by apply float_lt_nan_r. }
  exists st'. pose proof Hrun as Hdone. apply executeTrade_committed in Hdone.
  destruct Hdone as (_ & _ & _ & _ & _ & _ & Hhist & _ & Hcash & _).
  assert (Hcash' : is_nan (Portfolio.cash (AppState.portfolio st')) = true).
  { rewrite Hcash. by apply float_sub_nan. }
  eexists. split; [exact Hrun |]. split; [exact Hcash' |].
  split; [rewrite Hhist; apply last_snoc |].
  by apply float_add_nan.
Qed.

(** X14. In binary64 a ledger whose cash is [NaN] refuses no BUY for lack
    of funds: every BUY with [shares <= 0] false goes through, at any
    price, and the cash stays [NaN]. *)
Theorem nan_cash_buys_anything env st ticker price shares :
  is_nan (Portfolio.cash (AppState.portfolio st)) = true ->
  (shares <=? 0) = false ->
  exists st',
    App.executeTrade env st BUY ticker price shares = Committed st' /\
    is_nan (Portfolio.cash (AppState.portfolio st')) = true.
Proof.
  intros Hnan Hpos.
  destruct (buy_goes_through env st ticker price shares Hpos) as [st' Hrun].
  { by apply float_lt_nan_l. }
  exists st'. split; [exact Hrun |].
  apply executeTrade_committed in Hrun.
  destruct Hrun as (_ & _ & _ & _ & _ & _ & _ & _ & Hcash & _).
  rewrite Hcash. by apply float_nan_sub.
Qed.

End Binary64Ledger.

(* ===================================================================== *)
(** * The gateway's sources and the other handlers *)
(* ===================================================================== *)

Section TrimFacts.
Local Open Scope N_scope.

Lemma stripWhiteSpace_shorter s rest :
  JS.stripWhiteSpace s = Some rest -> (String.length rest < String.length s)%nat.
Proof.
  destruct s as [|a [|b [|c rest3]]]; cbn; try discriminate.
  - destruct (_ <? _); [| discriminate]. destruct (JS.isWhiteSpace _); [| discriminate].
    intros [= <-]. cbn. lia.
  - destruct (_ <? _).
    + destruct (JS.isWhiteSpace _); [| discriminate]. intros [= <-]. cbn. lia.
    + destruct (JS.codePoint2 _ _); [| discriminate].
      destruct (JS.isWhiteSpace _); [| discriminate]. intros [= <-]. cbn. lia.
  - destruct (_ <? _).
    + destruct (JS.isWhiteSpace _); [| discriminate]. intros [= <-]. cbn. lia.
    + destruct (JS.codePoint2 _ _).
      * destruct (JS.isWhiteSpace _); [| discriminate]. intros [= <-]. cbn. lia.
      * destruct (JS.codePoint3 _ _ _); [| discriminate].
        destruct (JS.isWhiteSpace _); [| discriminate]. intros [= <-]. cbn. lia.
Qed.

Lemma trimStart_from_fuel n m s :
  (String.length s <= n)%nat -> (String.length s <= m)%nat ->
  JS.trimStart_from n s = JS.trimStart_from m s.
Proof.
  revert m s. induction n as [|n IH]; intros [|m] s Hn Hm; cbn [JS.trimStart_from]; try done.
  - destruct s; [done | cbn in Hn; lia].
  - destruct s; [done | cbn in Hm; lia].
  - destruct (JS.stripWhiteSpace s) as [rest|] eqn:Hstrip; [| done].
    apply stripWhiteSpace_shorter in Hstrip. apply IH; lia.
Qed.

(** The equation of [trimStart]. *)
Lemma trimStart_eq s :
  JS.trimStart s =
  match JS.stripWhiteSpace s with
  | Some rest => JS.trimStart rest
  | None => s
  end.
Proof.
  unfold JS.trimStart. destruct s as [|a rest0]; [done |].
  cbn [String.length JS.trimStart_from].
  destruct (JS.stripWhiteSpace (String a rest0)) as [rest|] eqn:Hstrip; [| done].
  apply stripWhiteSpace_shorter in Hstrip. cbn in Hstrip. apply trimStart_from_fuel; lia.
Qed.

Lemma append_String a s r : String a s +:+ r = String a (s +:+ r).
Proof. reflexivity. Qed.

Lemma append_nil r : "" +:+ r = r.
Proof. reflexivity. Qed.

Lemma N_of_byte n : n < 256 -> N_of_ascii (ascii_of_N n) = n.
Proof. apply N_ascii_embedding. Qed.

Lemma isWhiteSpace_small codePoint :
  JS.isWhiteSpace codePoint = true -> codePoint < 0x10000.
Proof.
  unfold JS.isWhiteSpace. intros Hws. apply orb_true_iff in Hws as [Hin | Hrange].
  - apply bool_decide_eq_true in Hin.
    repeat (apply elem_of_cons in Hin as [-> | Hin]; [lia |]). by apply elem_of_nil in Hin.
  - apply andb_true_iff in Hrange as [_ Hle]. apply N.leb_le in Hle. lia.
Qed.

(** The first character of an encoded text is recognised for what it
    is. *)
Local Ltac bytes := zify; Z.to_euclidean_division_equations; lia.

Lemma stripWhiteSpace_utf8 codePoint rest :
  codePoint < 0x110000 ->
  JS.stripWhiteSpace (JS.utf8 codePoint +:+ rest) =
  if JS.isWhiteSpace codePoint then Some rest else None.
Proof.
  intros Hvalid. unfold JS.utf8. cbv zeta.
  destruct (N.ltb_spec codePoint 0x80) as [H1 | H1].
  { cbv beta iota. rewrite ?append_String, append_nil. cbn [JS.stripWhiteSpace]. rewrite N_of_byte by bytes. by replace (codePoint <? 128) with true by (symmetry; apply N.ltb_lt; lia). }
  destruct (N.ltb_spec codePoint 0x800) as [H2 | H2].
  { cbv beta iota. rewrite ?append_String, append_nil. cbn [JS.stripWhiteSpace]. rewrite !N_of_byte by bytes.
    replace (192 + codePoint / 64 <? 128) with false by (symmetry; apply N.ltb_ge; bytes).
    unfold JS.codePoint2, JS.continuation.
    replace (_ && _ && _) with true.
    2:{ symmetry. rewrite !andb_true_iff, !N.leb_le. bytes. }
    by replace ((192 + codePoint / 64 - 192) * 64 + (128 + codePoint mod 64 - 128)) with codePoint by bytes. }
  destruct (N.ltb_spec codePoint 0x10000) as [H3 | H3].
  { cbv beta iota. rewrite ?append_String, append_nil. cbn [JS.stripWhiteSpace]. rewrite !N_of_byte by bytes.
    replace (224 + codePoint / 4096 <? 128) with false by (symmetry; apply N.ltb_ge; bytes).
    unfold JS.codePoint2.
    replace ((194 <=? 224 + codePoint / 4096) && (224 + codePoint / 4096 <=? 223)) with false.
    2:{ symmetry. apply andb_false_iff. right. apply N.leb_gt. bytes. }
    cbn [andb]. unfold JS.codePoint3, JS.continuation.
    replace ((224 + codePoint / 4096 - 224) * 4096 + (128 + (codePoint / 64) mod 64 - 128) * 64
             + (128 + codePoint mod 64 - 128)) with codePoint by bytes.
    replace (_ && _ && _ && _) with true; [done |].
    symmetry. rewrite !andb_true_iff, !N.leb_le. bytes. }
  replace (JS.isWhiteSpace codePoint) with false.
  2:{ symmetry. apply not_true_is_false. intros Hws. apply isWhiteSpace_small in Hws. lia. }
  cbv beta iota. rewrite ?append_String, append_nil. cbn [JS.stripWhiteSpace]. rewrite !N_of_byte by bytes.
  replace (240 + codePoint / 262144 <? 128) with false by (symmetry; apply N.ltb_ge; bytes).
  unfold JS.codePoint2.
  replace ((194 <=? 240 + codePoint / 262144) && (240 + codePoint / 262144 <=? 223)) with false.
  2:{ symmetry. apply andb_false_iff. right. apply N.leb_gt. bytes. }
  cbn [andb]. unfold JS.codePoint3.
  replace ((224 <=? 240 + codePoint / 262144) && (240 + codePoint / 262144 <=? 239)) with false.
  2:{ symmetry. apply andb_false_iff. right. apply N.leb_gt. bytes. }
  done.
Qed.

Lemma utf8_nonempty codePoint : exists a rest, JS.utf8 codePoint = String a rest.
Proof.
  unfold JS.utf8. repeat case_match; eauto.
Qed.

(** A text of white space is trimmed to nothing. *)
Lemma trimStart_blank codePoints :
  Forall (fun codePoint => JS.isWhiteSpace codePoint = true) codePoints ->
  JS.trimStart (JS.fromCodePoints codePoints) = "".
Proof.
  induction 1 as [|codePoint rest Hws _ IH]; [done |].
  cbn [JS.fromCodePoints foldr]. rewrite trimStart_eq, stripWhiteSpace_utf8, Hws; [exact IH |].
  apply isWhiteSpace_small in Hws. lia.
Qed.

Lemma trim_blank codePoints :
  Forall (fun codePoint => JS.isWhiteSpace codePoint = true) codePoints ->
  JS.trim (JS.fromCodePoints codePoints) = "".
Proof.
  intros Hblank. unfold JS.trim. by rewrite trimStart_blank.
Qed.

(** A text with a character that is not white space is not. *)
Lemma trim_of_text codePoints :
  Forall (fun codePoint => codePoint < 0x110000) codePoints ->
  Exists (fun codePoint => JS.isWhiteSpace codePoint = false) codePoints ->
  exists a rest, JS.trim (JS.fromCodePoints codePoints) = String a rest.
Proof.
  intros Hvalid Htext. unfold JS.trim.
  induction codePoints as [|codePoint rest IH]; [by apply Exists_nil in Htext |].
  apply Forall_cons in Hvalid as [Hcp Hvalid].
  cbn [JS.fromCodePoints foldr]. rewrite trimStart_eq, stripWhiteSpace_utf8 by done.
  destruct (JS.isWhiteSpace codePoint) eqn:Hws.
  - apply IH; [done |]. apply Exists_cons in Htext as [Hhere | Hlater]; [congruence | done].
  - destruct (utf8_nonempty codePoint) as (a & tail & Hutf).
    pose proof (stripWhiteSpace_utf8 codePoint (JS.fromCodePoints rest) Hcp) as Hstrip.
    rewrite Hws in Hstrip. fold (JS.fromCodePoints rest).
    rewrite Hutf in *. rewrite append_String. cbn [JS.trimEnd].
    rewrite trimStart_eq, <- append_String, Hstrip. rewrite append_String. eauto.
Qed.

End TrimFacts.

Section GatewayMore.

(** X15. [extractSources] returns one source per grounding chunk that has
    a [web] part, in the order of the chunks (none when the response has
    no grounding chunks), each with the [uri] of its chunk and a title
    that is never empty: the chunk's title, or ["Source"] where that is
    missing or empty. *)
Theorem extractSources_titles (response : GenerateContentResponse.t) :
  let chunks := default [] (GenerateContentResponse.groundingChunks response) in
  let sources := Service.extractSources response in
  Forall (fun source => Source.title source <> "") sources /\
  Forall2 (fun web source =>
             Source.uri source = Web.uri web /\
             Source.title source =
               match Web.title web with
               | Some title => if decide (title = "") then "Source" else title
               | None => "Source"
               end)
          (omap GroundingChunk.web chunks) sources.
Proof.
  unfold Service.extractSources.
  destruct response as [text [chunks|]]; cbn; [| by split; constructor].
  induction chunks as [|[[web|]] rest [IHt IHw]]; cbn.
  - by split; constructor.
  - split.
    + constructor; [| exact IHt]. cbn. by destruct (Web.title web) as [[|c title]|].
    + constructor; [| exact IHw]. cbn. split; [done |].
      by destruct (Web.title web) as [[|c title]|].
  - by split.
Qed.

End GatewayMore.

Section HandlerFacts.
Context {num : Type}.
Context `{JS.JSON (SearchData.t num)} `{JS.JSON OverviewData.t}
        `{JS.JSON (DiscoveryData.t num)} `{JS.JSON (AnalysisData.t num)}.

(** X16. The two feeds, on a failed refresh.  An answer that arrives but
    cannot be parsed empties the feed on display (the stocks or the
    indices) and shows the sources of the answer; a request that the
    provider call rejects leaves the feed and its sources as they were.
    Either way the loading flag is back to false. *)
Theorem feed_refresh_policy :
  (forall response (cells : DiscoveryCells.t num),
      Service.parseText (T := DiscoveryData.t num) response = None ->
      Handlers.fetchDiscovery (JS.Resolved response) cells =
        {| DiscoveryCells.discoveredStocks := [];
           DiscoveryCells.discoverySources := Service.extractSources response;
           DiscoveryCells.loading := false |}) /\
  (forall reason (cells : DiscoveryCells.t num),
      Handlers.fetchDiscovery (JS.Rejected reason) cells =
        {| DiscoveryCells.discoveredStocks := DiscoveryCells.discoveredStocks cells;
           DiscoveryCells.discoverySources := DiscoveryCells.discoverySources cells;
           DiscoveryCells.loading := false |}) /\
  (forall response (cells : MarketCells.t),
      Service.parseText (T := OverviewData.t) response = None ->
      Handlers.fetchMarketData (JS.Resolved response) cells =
        {| MarketCells.marketIndices := [];
           MarketCells.marketSources := Service.extractSources response;
           MarketCells.marketLoading := false |}) /\
  (forall reason (cells : MarketCells.t),
      Handlers.fetchMarketData (JS.Rejected reason) cells =
        {| MarketCells.marketIndices := MarketCells.marketIndices cells;
           MarketCells.marketSources := MarketCells.marketSources cells;
           MarketCells.marketLoading := false |}).
Proof.
  repeat split.
  - intros response cells Hparse.
    unfold Handlers.fetchDiscovery, Service.discoverMicroCaps. by rewrite Hparse.
  - intros response cells Hparse.
    unfold Handlers.fetchMarketData, Service.getMarketOverview. by rewrite Hparse.
Qed.

(** X17. [handleAnalyze], from the provider's answer to the screen.  The
    ledger is never touched and [analyzing] ends as [null].  An answer
    that parses is put on display with the ticker and the price of the
    answer itself (not the ticker that was asked for) and the sources of
    the answer, without a notice; a rejected request and an answer that
    cannot be parsed both raise the notice and leave the analysis on
    display as it was. *)
Theorem analysis_request_outcome ticker api (cells : AnalysisCells.t num) :
  let done := Handlers.handleAnalyze ticker api cells in
  let st := AnalysisCells.app cells in
  let st' := AnalysisCells.app (Handled.next done) in
  AnalysisCells.analyzing (Handled.next done) = None /\
  AppState.portfolio st' = AppState.portfolio st /\
  AppState.transactions st' = AppState.transactions st /\
  match api with
  | JS.Resolved response =>
      match Service.parseText (T := AnalysisData.t num) response with
      | Some data =>
          Handled.alerted done = None /\
          exists shown,
            AppState.activeAnalysis st' = Some shown /\
            AnalysisResponse.ticker shown = AnalysisData.ticker data /\
            AnalysisResponse.currentPrice shown = AnalysisData.currentPrice data /\
            AnalysisResponse.recommendation shown = AnalysisData.recommendation data /\
            AnalysisResponse.sources shown = Service.extractSources response
      | None =>
          Handled.alerted done = Some "Analysis failed. Please try again later." /\
          st' = st
      end
  | JS.Rejected _ =>
      Handled.alerted done = Some "Analysis failed. Please try again later." /\
      st' = st
  end.
Proof.
  intros done st st'. unfold done, st', Handlers.handleAnalyze, Service.analyzeStock in *.
  destruct api as [response | reason]; [| done].
  destruct (Service.parseText response) as [data|]; [| done].
  repeat split. by eexists.
Qed.


End HandlerFacts.

Section ChatFacts.

(** X19. [handleChat].  An input of nothing but white space (any of the
    characters that [trim] strips, NO-BREAK SPACE and the like included)
    changes nothing.  An input with a character that is not white space
    is cleared from the box and adds exactly two messages after the ones
    there: the user's, with the input as it was typed, and one of the
    model, which is the answer's text and sources, or
    ["Error communicating with AI."] without sources when the request
    was rejected. *)
Theorem chat_turn api (cells : ChatCells.t) (input : list N) :
  ChatCells.chatInput cells = JS.fromCodePoints input ->
  Forall (fun codePoint => (codePoint < 0x110000)%N) input ->
  let cells' := Handlers.handleChat api cells in
  (Forall (fun codePoint => JS.isWhiteSpace codePoint = true) input -> cells' = cells) /\
  (Exists (fun codePoint => JS.isWhiteSpace codePoint = false) input ->
   ChatCells.chatInput cells' = "" /\
   exists reply,
     ChatCells.chatMessages cells' =
       ChatCells.chatMessages cells ++
       [ {| ChatMessage.role := RoleUser;
            ChatMessage.content := Some (ChatCells.chatInput cells);
            ChatMessage.sources := None |};
         reply ] /\
     ChatMessage.role reply = RoleModel /\
     match api with
     | JS.Resolved response =>
         ChatMessage.content reply = GenerateContentResponse.text response /\
         ChatMessage.sources reply = Some (Service.extractSources response)
     | JS.Rejected _ =>
         ChatMessage.content reply = Some "Error communicating with AI." /\
         ChatMessage.sources reply = None
     end).
Proof.
  intros Hinput Hvalid cells'. unfold cells', Handlers.handleChat. split.
  - intros Hblank. apply trim_blank in Hblank. by rewrite Hinput, Hblank.
  - intros Htext. destruct (trim_of_text input Hvalid Htext) as (c & rest & Htrim).
    rewrite <- Hinput in Htrim. cbv zeta. rewrite Htrim.
    destruct api as [response | reason]; cbn.
    + split; [done |]. eexists. rewrite <- app_assoc. by repeat split.
    + split; [done |]. eexists. rewrite <- app_assoc. by repeat split.
Qed.

End ChatFacts.

(* ===================================================================== *)
(** * Sign-in, sign-out and what is saved *)
(* ===================================================================== *)

Section SessionFacts.
Context {num : Type} `{Number num}.
Context `{JS.JSON User.t} `{JS.JSON (Portfolio.t num)} `{JS.JSON (list (Transaction.t num))}.
Context `{Browser.Stringify User.t} `{Browser.Stringify (Portfolio.t num)}
        `{Browser.Stringify (list (Transaction.t num))}.

Lemma saved_insert (store : Browser.Storage) (key text : string) :
  text <> "" -> Browser.saved (<[key := text]> store) key = Some text.
Proof.
  intros Htext. unfold Browser.saved. rewrite lookup_insert_eq. by destruct text.
Qed.

Lemma saved_insert_ne (store : Browser.Storage) (key other text : string) :
  key <> other -> Browser.saved (<[key := text]> store) other = Browser.saved store other.
Proof.
  intros Hne. unfold Browser.saved. by rewrite lookup_insert_ne.
Qed.

Lemma saved_delete_ne (store : Browser.Storage) (key other : string) :
  key <> other -> Browser.saved (delete key store) other = Browser.saved store other.
Proof.
  intros Hne. unfold Browser.saved. by rewrite lookup_delete_ne.
Qed.

Lemma keys_apart (id : string) :
  "trader_user" <> Session.portfolioKey id /\
  "trader_user" <> Session.transactionsKey id /\
  Session.portfolioKey id <> Session.transactionsKey id.
Proof.
  repeat split; discriminate.
Qed.

Lemma saved_persist (cells : Session.t num) (store : Browser.Storage) (user : User.t) :
  Session.user cells = Some user ->
  Browser.stringify user <> "" ->
  Browser.stringify (AppState.portfolio (Session.app cells)) <> "" ->
  Browser.stringify (AppState.transactions (Session.app cells)) <> "" ->
  Browser.saved (Session.persist cells store) "trader_user" = Some (Browser.stringify user) /\
  Browser.saved (Session.persist cells store) (Session.portfolioKey (User.id user))
    = Some (Browser.stringify (AppState.portfolio (Session.app cells))) /\
  Browser.saved (Session.persist cells store) (Session.transactionsKey (User.id user))
    = Some (Browser.stringify (AppState.transactions (Session.app cells))).
Proof.
  intros Huser Hu Hp Ht. unfold Session.persist. rewrite Huser.
  destruct (keys_apart (User.id user)) as (Hup & Hut & Hpt).
  split; [|split].
  - rewrite !saved_insert_ne by done. by apply saved_insert.
  - rewrite saved_insert_ne by done. by apply saved_insert.
  - by apply saved_insert.
Qed.

(** X20. Save and reload.  When the user, the portfolio and the
    transactions are values the engine writes as non-empty text and
    reads back, a page load after the persistence effect starts from the
    same user, portfolio (forecast snapshots included) and transactions,
    with no analysis on display, an empty rationale and no sources. *)
Theorem reload_restores_ledger (localeTime : string) (cells : Session.t num)
    (store : Browser.Storage) (user : User.t) :
  Session.user cells = Some user ->
  Browser.survives user ->
  Browser.survives (AppState.portfolio (Session.app cells)) ->
  Browser.survives (AppState.transactions (Session.app cells)) ->
  Session.mount localeTime (Session.persist cells store)
  = Some {| Session.user := Some user;
            Session.app :=
              {| AppState.portfolio := AppState.portfolio (Session.app cells);
                 AppState.transactions := AppState.transactions (Session.app cells);
                 AppState.activeAnalysis := None;
                 AppState.predictionRationale := "";
                 AppState.predictionSources := [];
                 AppState.predicting := false |} |}.
Proof.
  intros Huser [Hu Hu'] [Hp Hp'] [Ht Ht'].
  destruct (saved_persist cells store user Huser Hu Hp Ht) as (Su & Sp & St).
  unfold Session.mount. rewrite Su, Hu'. cbn. by rewrite Sp, St, Hp', Ht'.
Qed.

(** X21. Signing in on a page that was loaded signed out, in a browser
    that holds a saved portfolio of the account (the state after a
    sign-out and a reload): the page mounts with the signed-out
    portfolio of 100 in cash and no history, [handleLogin] finds the
    saved portfolio and sets none, and the persistence effect then
    overwrites the saved portfolio and the saved transactions with the
    signed-out portfolio and the empty list. *)
Theorem login_after_signed_out_reload (loadTime loginTime saved : string)
    (store : Browser.Storage) :
  Browser.saved store "trader_user" = None ->
  Browser.saved store (Session.portfolioKey (User.id Session.mockUser)) = Some saved ->
  exists loaded,
    Session.mount loadTime store = Some loaded /\
    let (cells, store') := Session.rendered (Session.handleLogin loginTime loaded store) in
    Session.user cells = Some Session.mockUser /\
    AppState.portfolio (Session.app cells) = Session.signedOutPortfolio /\
    AppState.transactions (Session.app cells) = [] /\
    store' !! Session.portfolioKey (User.id Session.mockUser)
      = Some (Browser.stringify (Session.signedOutPortfolio (num := num))) /\
    store' !! Session.transactionsKey (User.id Session.mockUser)
      = Some (Browser.stringify ([] : list (Transaction.t num))).
Proof.
  intros Hnone Hsaved. eexists. split.
  - unfold Session.mount. rewrite Hnone. reflexivity.
  - unfold Session.handleLogin. rewrite Hsaved. unfold Session.rendered, Session.persist.
    cbn [fst snd Session.user Session.app AppState.portfolio AppState.transactions].
    destruct (keys_apart (User.id Session.mockUser)) as (Hup & Hut & Hpt).
    repeat split.
    + rewrite lookup_insert_ne by done. by rewrite lookup_insert_eq.
    + by rewrite lookup_insert_eq.
Qed.

(** X22. The first sign-in of a browser that holds neither a user nor a
    portfolio of the account starts the session at [App.initialState]:
    100 in cash, no holdings, one opening snapshot of 100 stamped with
    the time of the sign-in, no transactions; and the user, this
    portfolio and the empty list are what the browser holds
    afterwards. *)
Theorem first_login_starts_session (loadTime loginTime : string) (store : Browser.Storage) :
  Browser.saved store "trader_user" = None ->
  Browser.saved store (Session.portfolioKey (User.id Session.mockUser)) = None ->
  exists loaded,
    Session.mount loadTime store = Some loaded /\
    let (cells, store') := Session.rendered (Session.handleLogin loginTime loaded store) in
    cells = {| Session.user := Some Session.mockUser; Session.app := App.initialState loginTime |} /\
    store' !! "trader_user" = Some (Browser.stringify Session.mockUser) /\
    store' !! Session.portfolioKey (User.id Session.mockUser)
      = Some (Browser.stringify (App.initialPortfolio (num := num) loginTime)) /\
    store' !! Session.transactionsKey (User.id Session.mockUser)
      = Some (Browser.stringify ([] : list (Transaction.t num))).
Proof.
  intros Hnone Hsaved. eexists. split.
  - unfold Session.mount. rewrite Hnone. reflexivity.
  - unfold Session.handleLogin. rewrite Hsaved. unfold Session.rendered, Session.persist.
    cbn [fst snd Session.user Session.app AppState.portfolio AppState.transactions
         Session.setPortfolio].
    destruct (keys_apart (User.id Session.mockUser)) as (Hup & Hut & Hpt).
    repeat split.
    + rewrite !lookup_insert_ne by done. by rewrite lookup_insert_eq.
    + rewrite lookup_insert_ne by done. by rewrite lookup_insert_eq.
    + by rewrite lookup_insert_eq.
Qed.

(** X23. Signing out and in again without a reload.  [handleLogout]
    removes the saved user and nothing else and keeps the ledger in
    memory; the sign-in that follows finds the saved portfolio, keeps
    the ledger, and the persistence effect leaves the browser holding
    exactly what it held before the sign-out. *)
Theorem logout_login_same_page (loginTime : string) (cells : Session.t num)
    (store : Browser.Storage) :
  Session.user cells = Some Session.mockUser ->
  Browser.stringify (AppState.portfolio (Session.app cells)) <> "" ->
  let (out, store1) := Session.rendered (Session.handleLogout cells (Session.persist cells store)) in
  let (back, store2) := Session.rendered (Session.handleLogin loginTime out store1) in
  Session.user out = None /\
  Session.app out = Session.app cells /\
  store1 = delete "trader_user" (Session.persist cells store) /\
  back = cells /\
  store2 = Session.persist cells store.
Proof.
  intros Huser Hp. destruct cells as [user app]. cbn in Huser, Hp. subst user.
  destruct (keys_apart (User.id Session.mockUser)) as (Hup & Hut & Hpt).
  unfold Session.handleLogout, Session.rendered.
  cbn [fst snd Session.user Session.app Session.persist].
  unfold Session.handleLogin.
  rewrite saved_delete_ne by done.
  unfold Session.persist at 1. cbn [Session.user Session.app].
  rewrite saved_insert_ne by done. rewrite saved_insert by done.
  cbn [fst snd Session.user Session.app Session.persist].
  repeat split.
  apply map_eq. intros key.
  destruct (decide (key = Session.transactionsKey (User.id Session.mockUser))) as [->|Ht].
  { by rewrite !lookup_insert_eq. }
  rewrite !(lookup_insert_ne _ (Session.transactionsKey _)) by done.
  destruct (decide (key = Session.portfolioKey (User.id Session.mockUser))) as [->|Hk].
  { by rewrite !lookup_insert_eq. }
  rewrite !(lookup_insert_ne _ (Session.portfolioKey _)) by done.
  destruct (decide (key = "trader_user")) as [->|Hu].
  { by rewrite !lookup_insert_eq. }
  rewrite !(lookup_insert_ne _ "trader_user") by done.
  rewrite lookup_delete_ne by done.
  by rewrite !lookup_insert_ne by done.
Qed.

End SessionFacts.

(* ===================================================================== *)
(** * The further facts on sample data *)
(* ===================================================================== *)

Section MoreSamples.
Local Existing Instance Demo.rejecting.
Local Open Scope float_scope.

(** The sample session: a fresh ledger, then BUY 5 ABC at 10. *)
Lemma tour_reaches_bought : rtc App.step (App.initialState "9:30:00 AM") Tour.bought.
Proof.
  apply rtc_once. exact (App.step_trade Demo.env Demo.fresh BUY "ABC" 10 5).
Qed.

Lemma trade_keeps_other_positions_witness :
  App.executeTrade Demo.env Demo.holdingABC BUY "XYZ" 4 3 =
    Committed (Demo.after Demo.holdingABC BUY "XYZ" 4 3) /\
  "ABC" <> "XYZ" /\
  App.position (AppState.portfolio (Demo.after Demo.holdingABC BUY "XYZ" 4 3)) "ABC" =
    App.position (AppState.portfolio Demo.holdingABC) "ABC".
Proof.
  split; [vm_compute; reflexivity |]. split; [discriminate |].
  apply (trade_keeps_other_positions Demo.env Demo.holdingABC BUY "XYZ" 4 3);
    [vm_compute; reflexivity | discriminate].
Defined.

Lemma session_unique_tickers_witness :
  rtc App.step (App.initialState "9:30:00 AM") Tour.bought /\
  NoDup (map Holding.ticker (Portfolio.holdings (AppState.portfolio Tour.bought))).
Proof.
  split; [exact tour_reaches_bought |].
  exact (session_unique_tickers "9:30:00 AM" Tour.bought tour_reaches_bought).
Defined.

Lemma session_log_append_only_witness :
  rtc App.step Demo.fresh Tour.bought /\
  exists newer, AppState.transactions Tour.bought = newer ++ AppState.transactions Demo.fresh.
Proof.
  split; [exact tour_reaches_bought |].
  exact (session_log_append_only Demo.fresh Tour.bought tour_reaches_bought).
Defined.

Lemma session_actuals_permanent_witness :
  rtc App.step Demo.fresh Tour.bought /\
  exists appended,
    App.actuals (Portfolio.history (AppState.portfolio Tour.bought)) =
    App.actuals (Portfolio.history (AppState.portfolio Demo.fresh)) ++ appended.
Proof.
  split; [exact tour_reaches_bought |].
  exact (session_actuals_permanent Demo.fresh Tour.bought tour_reaches_bought).
Defined.

Lemma session_snapshot_per_trade_witness :
  rtc App.step (App.initialState "9:30:00 AM") Tour.bought /\
  length (App.actuals (Portfolio.history (AppState.portfolio Tour.bought))) =
  S (length (AppState.transactions Tour.bought)).
Proof.
  split; [exact tour_reaches_bought |].
  exact (session_snapshot_per_trade "9:30:00 AM" Tour.bought tour_reaches_bought).
Defined.

Lemma session_history_partition_witness :
  rtc App.step (App.initialState "9:30:00 AM") Tour.bought /\
  exists recorded predicted,
    Portfolio.history (AppState.portfolio Tour.bought) = recorded ++ predicted /\
    Forall (fun s => App.truthy (Snapshot.isPrediction s) = false) recorded /\
    Forall (fun s => Snapshot.isPrediction s = Some true) predicted.
Proof.
  split; [exact tour_reaches_bought |].
  exact (session_history_partition "9:30:00 AM" Tour.bought tour_reaches_bought).
Defined.

Lemma exit_all_closes_position_witness :
  let h := {| Holding.ticker := "ABC"; Holding.shares := 5;
              Holding.avgCost := 10; Holding.currentPrice := 10 |} in
  App.position (AppState.portfolio Demo.holdingABC) "ABC" = Some h /\
  (5 <=? 0) = false /\
  is_finite 5 = true /\
  NoDup (map Holding.ticker (Portfolio.holdings (AppState.portfolio Demo.holdingABC))) /\
  exists st' (k : nat),
    Buttons.exitAllPositions Demo.env Demo.holdingABC Tour.analysisABC = Committed st' /\
    Portfolio.holdings (AppState.portfolio Demo.holdingABC) !! k = Some h /\
    Portfolio.holdings (AppState.portfolio st') =
      delete k (Portfolio.holdings (AppState.portfolio Demo.holdingABC)) /\
    App.position (AppState.portfolio st') "ABC" = None /\
    Portfolio.cash (AppState.portfolio st') = 50 + 12 * 5.
Proof.
  intros h. split; [reflexivity |]. split; [reflexivity |]. split; [reflexivity |].
  split; [exact (NoDup_singleton "ABC") |].
  exact (exit_all_closes_position Demo.env Demo.holdingABC Tour.analysisABC h
           eq_refl eq_refl eq_refl (NoDup_singleton "ABC")).
Defined.

Lemma buy_with_whole_balance_witness :
  (10 <=? 0) = false /\
  is_finite (Portfolio.cash (AppState.portfolio Demo.fresh)) = true /\
  10 * 10 = Portfolio.cash (AppState.portfolio Demo.fresh) /\
  exists st',
    App.executeTrade Demo.env Demo.fresh BUY "ABC" 10 10 = Committed st' /\
    Portfolio.cash (AppState.portfolio st') = 0.
Proof.
  split; [reflexivity |]. split; [reflexivity |]. split; [reflexivity |].
  exact (buy_with_whole_balance Demo.env Demo.fresh "ABC" 10 10 eq_refl eq_refl eq_refl).
Defined.

Lemma nan_cost_is_not_refused_witness :
  is_nan (nan * 1) = true /\
  (1 <=? 0) = false /\
  exists st' snapshot,
    App.executeTrade Demo.env Demo.fresh BUY "ABC" nan 1 = Committed st' /\
    is_nan (Portfolio.cash (AppState.portfolio st')) = true /\
    last (Portfolio.history (AppState.portfolio st')) = Some snapshot /\
    is_nan (Snapshot.totalValue snapshot) = true.
Proof.
  split; [reflexivity |]. split; [reflexivity |].
  exact (nan_cost_is_not_refused Demo.env Demo.fresh "ABC" nan 1 eq_refl eq_refl).
Defined.

Lemma nan_cash_buys_anything_witness :
  is_nan (Portfolio.cash (AppState.portfolio Tour.brokenCash)) = true /\
  (5 <=? 0) = false /\
  exists st',
    App.executeTrade Demo.env Tour.brokenCash BUY "ABC" 1000000 5 = Committed st' /\
    is_nan (Portfolio.cash (AppState.portfolio st')) = true.
Proof.
  split; [reflexivity |]. split; [reflexivity |].
  exact (nan_cash_buys_anything Demo.env Tour.brokenCash "ABC" 1000000 5 eq_refl eq_refl).
Defined.

Lemma feed_refresh_policy_witness :
  Service.parseText (T := DiscoveryData.t float) Demo.outage = None /\
  Handlers.fetchDiscovery (JS.Resolved Demo.outage) Tour.feed =
    {| DiscoveryCells.discoveredStocks := [];
       DiscoveryCells.discoverySources :=
         [ {| Source.title := "Source"; Source.uri := Some "https://example.com/status" |} ];
       DiscoveryCells.loading := false |} /\
  Handlers.fetchDiscovery (JS.Rejected "Failed to fetch") Tour.feed = Tour.feed /\
  Service.parseText (T := OverviewData.t) Demo.outage = None /\
  Handlers.fetchMarketData (JS.Resolved Demo.outage) Tour.board =
    {| MarketCells.marketIndices := [];
       MarketCells.marketSources :=
         [ {| Source.title := "Source"; Source.uri := Some "https://example.com/status" |} ];
       MarketCells.marketLoading := false |} /\
  Handlers.fetchMarketData (JS.Rejected "Failed to fetch") Tour.board = Tour.board.
Proof.
  destruct (feed_refresh_policy (num := float)) as (Hfeed & Hfeed' & Hboard & Hboard').
  split; [reflexivity |]. split; [exact (Hfeed Demo.outage Tour.feed eq_refl) |].
  split; [exact (Hfeed' "Failed to fetch" Tour.feed) |].
  split; [reflexivity |]. split; [exact (Hboard Demo.outage Tour.board eq_refl) |].
  exact (Hboard' "Failed to fetch" Tour.board).
Defined.


Lemma chat_turn_witness :
  let blank := [0xA0; 0x09]%N in
  let typed := [0x42; 0x75; 0x79; 0x3F]%N in
  JS.fromCodePoints typed = "Buy?" /\
  Forall (fun codePoint => (codePoint < 0x110000)%N) blank /\
  Forall (fun codePoint => JS.isWhiteSpace codePoint = true) blank /\
  Handlers.handleChat (JS.Rejected "Failed to fetch") (Tour.chatWith (JS.fromCodePoints blank))
    = Tour.chatWith (JS.fromCodePoints blank) /\
  Forall (fun codePoint => (codePoint < 0x110000)%N) typed /\
  Exists (fun codePoint => JS.isWhiteSpace codePoint = false) typed /\
  ChatCells.chatInput (Handlers.handleChat (JS.Rejected "Failed to fetch") (Tour.chatWith "Buy?"))
    = "" /\
  map ChatMessage.content
    (ChatCells.chatMessages
       (Handlers.handleChat (JS.Rejected "Failed to fetch") (Tour.chatWith "Buy?")))
    = [Some "Buy?"; Some "Error communicating with AI."].
Proof.
  intros blank typed.
  assert (Hvalid : Forall (fun codePoint => (codePoint < 0x110000)%N) blank)
    by (repeat constructor).
  assert (Hblank : Forall (fun codePoint => JS.isWhiteSpace codePoint = true) blank)
    by (repeat constructor).
  assert (Hvalid' : Forall (fun codePoint => (codePoint < 0x110000)%N) typed)
    by (repeat constructor).
  assert (Htext : Exists (fun codePoint => JS.isWhiteSpace codePoint = false) typed)
    by (apply Exists_cons_hd; reflexivity).
  split; [reflexivity |]. split; [exact Hvalid |]. split; [exact Hblank |].
  split.
  { exact (proj1 (chat_turn (JS.Rejected "Failed to fetch")
                    (Tour.chatWith (JS.fromCodePoints blank)) blank eq_refl Hvalid) Hblank). }
  split; [exact Hvalid' |]. split; [exact Htext |].
  destruct (proj2 (chat_turn (JS.Rejected "Failed to fetch") (Tour.chatWith "Buy?")
                     typed eq_refl Hvalid') Htext)
    as (Hinput & reply & Hlog & Hrole & Hcontent & Hsources).
  split; [exact Hinput |].
  rewrite Hlog. cbn. by rewrite Hcontent.
Defined.

End MoreSamples.

Section SessionSamples.
Local Existing Instances Tour.stringifyUser Tour.stringifyPortfolio Tour.stringifyTransactions.
Local Existing Instances Tour.parseUser Tour.parsePortfolio Tour.parseTransactions.

Lemma reload_restores_ledger_witness :
  Browser.survives Session.mockUser /\
  Browser.survives (AppState.portfolio Demo.fresh) /\
  Browser.survives (AppState.transactions Demo.fresh) /\
  Session.mount "10:15:00 AM" (Session.persist Tour.signedIn ∅) = Some Tour.signedIn.
Proof.
  assert (Hu : Browser.survives Session.mockUser) by (split; [discriminate | reflexivity]).
  assert (Hp : Browser.survives (AppState.portfolio Demo.fresh))
    by (split; [discriminate | reflexivity]).
  assert (Ht : Browser.survives (AppState.transactions Demo.fresh))
    by (split; [discriminate | reflexivity]).
  split; [exact Hu |]. split; [exact Hp |]. split; [exact Ht |].
  exact (reload_restores_ledger "10:15:00 AM" Tour.signedIn ∅ Session.mockUser eq_refl Hu Hp Ht).
Defined.

Lemma login_after_signed_out_reload_witness :
  Browser.saved Tour.signedOutStore "trader_user" = None /\
  Browser.saved Tour.signedOutStore (Session.portfolioKey (User.id Session.mockUser))
    = Some Tour.portfolioText /\
  exists loaded : Session.t float,
    Session.mount "10:15:00 AM" Tour.signedOutStore = Some loaded /\
    let (cells, store') :=
      Session.rendered (Session.handleLogin "10:16:00 AM" loaded Tour.signedOutStore) in
    Session.user cells = Some Session.mockUser /\
    AppState.portfolio (Session.app cells) = Session.signedOutPortfolio /\
    AppState.transactions (Session.app cells) = [] /\
    store' !! Session.portfolioKey (User.id Session.mockUser)
      = Some (Browser.stringify (Session.signedOutPortfolio (num := float))) /\
    store' !! Session.transactionsKey (User.id Session.mockUser)
      = Some (Browser.stringify ([] : list (Transaction.t float))).
Proof.
  split; [vm_compute; reflexivity |]. split; [vm_compute; reflexivity |].
  apply (login_after_signed_out_reload "10:15:00 AM" "10:16:00 AM" Tour.portfolioText
           Tour.signedOutStore); vm_compute; reflexivity.
Defined.

Lemma first_login_starts_session_witness :
  Browser.saved (∅ : Browser.Storage) "trader_user" = None /\
  Browser.saved (∅ : Browser.Storage) (Session.portfolioKey (User.id Session.mockUser)) = None /\
  exists loaded : Session.t float,
    Session.mount "9:29:00 AM" ∅ = Some loaded /\
    let (cells, store') := Session.rendered (Session.handleLogin "9:30:00 AM" loaded ∅) in
    cells = Tour.signedIn /\
    store' !! "trader_user" = Some (Browser.stringify Session.mockUser) /\
    store' !! Session.portfolioKey (User.id Session.mockUser)
      = Some (Browser.stringify (App.initialPortfolio (num := float) "9:30:00 AM")) /\
    store' !! Session.transactionsKey (User.id Session.mockUser)
      = Some (Browser.stringify ([] : list (Transaction.t float))).
Proof.
  split; [reflexivity |]. split; [reflexivity |].
  exact (first_login_starts_session "9:29:00 AM" "9:30:00 AM" ∅ eq_refl eq_refl).
Defined.

Lemma logout_login_same_page_witness :
  Session.user Tour.signedIn = Some Session.mockUser /\
  Browser.stringify (AppState.portfolio (Session.app Tour.signedIn)) <> "" /\
  let (out, store1) :=
    Session.rendered (Session.handleLogout Tour.signedIn (Session.persist Tour.signedIn ∅)) in
  let (back, store2) := Session.rendered (Session.handleLogin "10:16:00 AM" out store1) in
  Session.user out = None /\
  Session.app out = Session.app Tour.signedIn /\
  store1 = delete "trader_user" (Session.persist Tour.signedIn ∅) /\
  back = Tour.signedIn /\
  store2 = Session.persist Tour.signedIn ∅.
Proof.
  split; [reflexivity |]. split; [discriminate |].
  apply (logout_login_same_page "10:16:00 AM" Tour.signedIn ∅); [reflexivity | discriminate].
Defined.

End SessionSamples.

(* ===================================================================== *)
(** * The gateway at run time *)
(* ===================================================================== *)

Section RuntimeFacts.
Context {num : Type}.
Context `{JS.JSON (Json.t num)}.

(** C8, as the code has it.  For an answer whose text is missing or is
    no JSON document, [discoverMicroCaps], [getMarketOverview] and
    [predictPortfolioValue] resolve with an empty list of stocks, of
    indices, of predictions (and the fallback rationale) and the sources
    of the answer, whereas [searchStock] and [analyzeStock] reject with
    an error.  An answer whose text is a JSON document is not checked
    against the declared shape: the four methods that spread the document
    resolve with its own properties and the sources, whatever it holds,
    and [searchStock] resolves with its [stock], [undefined] if it has
    none, unless the document is [null]. *)
Theorem unreadable_answer_policy (response : GenerateContentResponse.t) :
  let sources := Service.extractSources response in
  (Service.parseText (T := Json.t num) response = None ->
   Runtime.discoverMicroCaps (JS.Resolved response) =
     JS.Resolved {| Spread.data := Json.Object [ ("stocks", Json.Array []) ];
                    Spread.sources := sources |} /\
   Runtime.getMarketOverview (JS.Resolved response) =
     JS.Resolved {| Spread.data := Json.Object [ ("indices", Json.Array []) ];
                    Spread.sources := sources |} /\
   (forall holdings cash,
       Runtime.predictPortfolioValue holdings cash (JS.Resolved response) =
         JS.Resolved
           {| Spread.data :=
                Json.Object
                  [ ("predictions", Json.Array []);
                    ("rationale", Json.Text "Unable to generate forecast at this time.") ];
              Spread.sources := sources |}) /\
   (forall ticker,
       Runtime.searchStock ticker (JS.Resolved response) =
         JS.Rejected ("Failed to find data for ticker: " ++ ticker)) /\
   (forall ticker,
       Runtime.analyzeStock ticker (JS.Resolved response) =
         JS.Rejected "Failed to analyze stock data")) /\
  (forall document,
      Service.parseText (T := Json.t num) response = Some document ->
      let passed := JS.Resolved {| Spread.data := document; Spread.sources := sources |} in
      Runtime.discoverMicroCaps (JS.Resolved response) = passed /\
      Runtime.getMarketOverview (JS.Resolved response) = passed /\
      (forall holdings cash,
          Runtime.predictPortfolioValue holdings cash (JS.Resolved response) = passed) /\
      (forall ticker, Runtime.analyzeStock ticker (JS.Resolved response) = passed) /\
      (forall ticker,
          Runtime.searchStock ticker (JS.Resolved response) =
            match document with
            | Json.Null | Json.Undefined =>
                JS.Rejected ("Failed to find data for ticker: " ++ ticker)
            | Json.Object properties =>
                JS.Resolved
                  {| Found.stock := default Json.Undefined (Json.property "stock" properties);
                     Found.sources := sources |}
            | _ => JS.Resolved {| Found.stock := Json.Undefined; Found.sources := sources |}
            end)).
Proof.
  intros sources. unfold Runtime.discoverMicroCaps, Runtime.getMarketOverview,
    Runtime.predictPortfolioValue, Runtime.searchStock, Runtime.analyzeStock.
  split.
  - intros Hparse. rewrite Hparse. by repeat split.
  - intros document Hparse. cbv zeta. rewrite Hparse.
    split; [done |]. split; [done |]. split; [done |]. split; [done |].
    intros ticker. by destruct document.
Qed.

End RuntimeFacts.

Section RuntimeSamples.
Local Existing Instance Tour.parseDocument.

(** C8, refuted as stated: the answer [{}] cannot be parsed into any of
    the declared shapes, and yet [analyzeStock] and [searchStock] resolve
    with it, and [discoverMicroCaps], [getMarketOverview] and
    [predictPortfolioValue] resolve with a payload whose list is
    [undefined], not empty. *)
Lemma ill_shaped_answer_is_passed_on :
  let answer := JS.Resolved Tour.emptyDocument in
  StatedGateway.parsesInto Runtime.discoverySchema Tour.emptyDocument = false /\
  StatedGateway.parsesInto Runtime.overviewSchema Tour.emptyDocument = false /\
  StatedGateway.parsesInto Runtime.predictionSchema Tour.emptyDocument = false /\
  StatedGateway.parsesInto Runtime.searchSchema Tour.emptyDocument = false /\
  StatedGateway.parsesInto Runtime.analysisSchema Tour.emptyDocument = false /\
  Runtime.analyzeStock "ABC" answer =
    JS.Resolved {| Spread.data := Json.Object []; Spread.sources := [] |} /\
  Runtime.searchStock "ABC" answer =
    JS.Resolved {| Found.stock := Json.Undefined; Found.sources := [] |} /\
  (exists result,
      Runtime.discoverMicroCaps answer = JS.Resolved result /\
      Spread.get "stocks" result = Json.Undefined) /\
  (exists result,
      Runtime.getMarketOverview answer = JS.Resolved result /\
      Spread.get "indices" result = Json.Undefined) /\
  (exists result,
      Runtime.predictPortfolioValue [] 100%float answer = JS.Resolved result /\
      Spread.get "predictions" result = Json.Undefined) /\
  ~ StatedGateway.malformed_answers_handled (num := float).
Proof.
  intros answer.
  split; [reflexivity |]. split; [reflexivity |]. split; [reflexivity |].
  split; [reflexivity |]. split; [reflexivity |]. split; [reflexivity |].
  split; [reflexivity |].
  split; [by eexists |]. split; [by eexists |]. split; [by eexists |].
  intros Hpolicy.
  destruct (Hpolicy Tour.emptyDocument) as (_ & _ & _ & _ & Hanalyze).
  destruct (Hanalyze eq_refl "ABC") as [message Hraised]. discriminate Hraised.
Qed.

Lemma unreadable_answer_policy_witness :
  Service.parseText (T := Json.t float) Demo.outage = None /\
  Runtime.discoverMicroCaps (JS.Resolved Demo.outage) =
    JS.Resolved
      {| Spread.data := Json.Object [ ("stocks", Json.Array []) ];
         Spread.sources :=
           [ {| Source.title := "Source"; Source.uri := Some "https://example.com/status" |} ] |} /\
  Runtime.analyzeStock "ABC" (JS.Resolved Demo.outage) =
    JS.Rejected "Failed to analyze stock data" /\
  Runtime.searchStock "ABC" (JS.Resolved Demo.outage) =
    JS.Rejected "Failed to find data for ticker: ABC" /\
  Service.parseText (T := Json.t float) Tour.nullDocument = Some Json.Null /\
  Runtime.discoverMicroCaps (JS.Resolved Tour.nullDocument) =
    JS.Resolved {| Spread.data := Json.Null; Spread.sources := [] |} /\
  Runtime.searchStock "ABC" (JS.Resolved Tour.nullDocument) =
    JS.Rejected "Failed to find data for ticker: ABC".
Proof.
  destruct (unreadable_answer_policy (num := float) Demo.outage) as [Hthrown _].
  destruct (Hthrown eq_refl) as (Hdiscover & _ & _ & Hsearch & Hanalyze).
  destruct (unreadable_answer_policy (num := float) Tour.nullDocument) as [_ Hparsed].
  destruct (Hparsed Json.Null eq_refl) as (Hdiscover' & _ & _ & _ & Hsearch').
  split; [reflexivity |]. split; [exact Hdiscover |].
  split; [exact (Hanalyze "ABC") |]. split; [exact (Hsearch "ABC") |].
  split; [reflexivity |]. split; [exact Hdiscover' |]. exact (Hsearch' "ABC").
Defined.

End RuntimeSamples.
